(** * Clawd4Dummies: the result pipeline of the GUI, embedded and verified

    The development follows the TypeScript and JavaScript sources of the
    Electron GUI (the result normalizer, the finding utilities, the scan
    store, the two finding views and the main-process IPC handlers)
    together with the scoring routine of the implementation plan.

    Conventions of the embedding:
    - JavaScript strings are [string]s whose characters stand for ASCII
      code units; [toUpperCase], [toLowerCase] and [trim] are the ASCII
      restrictions of the JavaScript methods.  Where a claim is about
      every string, the strings are sequences of UTF-16 code units and
      [toUpperCase] is the Unicode mapping (modules [Unicode] and
      [Untyped]); the two agree on ASCII strings.
    - An optional property ([x?: T]) is an [option T]; [a ?? b] is the
      nullish-coalescing operator and [o ≫= f] the optional chain [o?.f].
    - JavaScript numbers that are only passed through or compared with
      decimal constants are rationals ([Q]); counters and step numbers
      are integers ([Z]).
    - The main process is a state machine over IPC requests and child
      process events; the set of live child processes is a [gset]. *)

From Stdlib Require Import ZArith QArith Qminmax Lqa String Ascii List Lia.
From Stdlib Require Import Sorted Permutation Qround.
From stdpp Require Import base option list gmap strings pretty.

Open Scope string_scope.

(** ** JavaScript primitives *)

Module Js.

(** [a ?? b] when [b] may itself be missing. *)
Definition orElse {A : Type} (a b : option A) : option A :=
  match a with
  | Some x => Some x
  | None => b
  end.

(** [a ?? d] when [d] is a value. *)
Definition orDefault {A : Type} (a : option A) (d : A) : A :=
  match a with
  | Some x => x
  | None => d
  end.

Definition is_lower (c : ascii) : bool :=
  let n := N_of_ascii c in ((97 <=? n) && (n <=? 122))%N.

Definition is_upper (c : ascii) : bool :=
  let n := N_of_ascii c in ((65 <=? n) && (n <=? 90))%N.

Definition is_digit (c : ascii) : bool :=
  let n := N_of_ascii c in ((48 <=? n) && (n <=? 57))%N.

Definition char_toUpperCase (c : ascii) : ascii :=
  if is_lower c then ascii_of_N (N_of_ascii c - 32) else c.

Definition char_toLowerCase (c : ascii) : ascii :=
  if is_upper c then ascii_of_N (N_of_ascii c + 32) else c.

Fixpoint map_chars (f : ascii -> ascii) (s : string) : string :=
  match s with
  | EmptyString => EmptyString
  | String c r => String (f c) (map_chars f r)
  end.

(** [s.toUpperCase()] and [s.toLowerCase()]. *)
Definition toUpperCase : string -> string := map_chars char_toUpperCase.
Definition toLowerCase : string -> string := map_chars char_toLowerCase.

(** [s.replace(/[class]/g, '')]: every character of the class is deleted. *)
Fixpoint remove_chars (in_class : ascii -> bool) (s : string) : string :=
  match s with
  | EmptyString => EmptyString
  | String c r =>
      if in_class c then remove_chars in_class r
      else String c (remove_chars in_class r)
  end.

(** [s.replace(/\.\./g, '')]: the matches are taken left to right and do
    not overlap; the text is not scanned again after a deletion. *)
Fixpoint remove_dotdot (s : string) : string :=
  match s with
  | EmptyString => EmptyString
  | String c r =>
      match r with
      | String c' r' =>
          if (Ascii.eqb c "." && Ascii.eqb c' ".")%bool then remove_dotdot r'
          else String c (remove_dotdot r)
      | EmptyString => String c EmptyString
      end
  end.

(** [s.indexOf(needle)], with [-1] for no occurrence. *)
Definition indexOf (needle s : string) : Z :=
  match String.index 0 needle s with
  | Some i => Z.of_nat i
  | None => (-1)%Z
  end.

(** [s.includes(needle)]. *)
Definition includes (needle s : string) : bool :=
  match String.index 0 needle s with
  | Some _ => true
  | None => false
  end.

(** [s.substring(0, e)] and [s.slice(0, e)] for [0 <= e]. *)
Definition substring_to (e : nat) (s : string) : string :=
  String.substring 0 e s.

(** [s.substring(b)] for [0 <= b]. *)
Fixpoint substring_from (b : nat) (s : string) : string :=
  match b, s with
  | O, _ => s
  | S b', String _ r => substring_from b' r
  | S _, EmptyString => EmptyString
  end.

Definition is_space (c : ascii) : bool :=
  let n := N_of_ascii c in (((9 <=? n) && (n <=? 13)) || (n =? 32))%N.

Fixpoint trimStart (s : string) : string :=
  match s with
  | EmptyString => EmptyString
  | String c r => if is_space c then trimStart r else s
  end.

Fixpoint trimEnd (s : string) : string :=
  match s with
  | EmptyString => EmptyString
  | String c r =>
      match trimEnd r with
      | EmptyString => if is_space c then EmptyString else String c EmptyString
      | r' => String c r'
      end
  end.

(** [s.trim()]. *)
Definition trim (s : string) : string := trimEnd (trimStart s).

(** [xs.includes(x)] on an array of strings. *)
Definition array_includes (xs : list string) (x : string) : bool :=
  existsb (String.eqb x) xs.

(** Equality of two strings up to the case of their letters. *)
Definition eq_ignore_case (s t : string) : bool :=
  String.eqb (toLowerCase s) (toLowerCase t).

(** The value of an enumeration whose name equals [s] up to case, and
    [default] when there is none: the reading of a field that the
    normalizers are specified to implement. *)
Definition match_ignoring_case {A : Type} (name : A -> string) (all : list A)
    (default : A) (s : string) : A :=
  match List.find (fun v => eq_ignore_case s (name v)) all with
  | Some v => v
  | None => default
  end.

(** [needle] occurs in [s]. *)
Definition contains (needle s : string) : Prop :=
  exists pre post : string, s = pre ++ needle ++ post.

(** The 256 characters. *)
Definition all_ascii : list ascii := map ascii_of_nat (seq 0 256).

(** Whether every character of a string satisfies [p]. *)
Fixpoint string_forallb (p : ascii -> bool) (s : string) : bool :=
  match s with
  | EmptyString => true
  | String c r => p c && string_forallb p r
  end.


End Js.

Notation "a ?? b" := (Js.orElse a b) (at level 45, left associativity).
Notation "a ??: d" := (Js.orDefault a d) (at level 45, left associativity).

(** ** The enumerations of [types/finding.ts] and [types/scan.ts] *)

Module Severity.
Inductive t : Set := CRITICAL | HIGH | MEDIUM | LOW | INFO.

Definition name (v : t) : string :=
  match v with
  | CRITICAL => "CRITICAL"
  | HIGH => "HIGH"
  | MEDIUM => "MEDIUM"
  | LOW => "LOW"
  | INFO => "INFO"
  end.

Definition all : list t := [CRITICAL; HIGH; MEDIUM; LOW; INFO].

Definition eqb (a b : t) : bool :=
  match a, b with
  | CRITICAL, CRITICAL | HIGH, HIGH | MEDIUM, MEDIUM | LOW, LOW | INFO, INFO => true
  | _, _ => false
  end.

(** The cast [normalized as Severity]; it is only reached for a string
    that passed the membership test. *)
Definition cast (s : string) : t :=
  if String.eqb s "CRITICAL" then CRITICAL
  else if String.eqb s "HIGH" then HIGH
  else if String.eqb s "MEDIUM" then MEDIUM
  else if String.eqb s "LOW" then LOW
  else INFO.
End Severity.

Module Category.
Inductive t : Set :=
  PORT_EXPOSURE | AUTHENTICATION | CREDENTIALS | CONFIGURATION | PERMISSIONS | NETWORK.

Definition name (v : t) : string :=
  match v with
  | PORT_EXPOSURE => "PORT_EXPOSURE"
  | AUTHENTICATION => "AUTHENTICATION"
  | CREDENTIALS => "CREDENTIALS"
  | CONFIGURATION => "CONFIGURATION"
  | PERMISSIONS => "PERMISSIONS"
  | NETWORK => "NETWORK"
  end.

Definition all : list t :=
  [PORT_EXPOSURE; AUTHENTICATION; CREDENTIALS; CONFIGURATION; PERMISSIONS; NETWORK].

Definition cast (s : string) : t :=
  if String.eqb s "PORT_EXPOSURE" then PORT_EXPOSURE
  else if String.eqb s "AUTHENTICATION" then AUTHENTICATION
  else if String.eqb s "CREDENTIALS" then CREDENTIALS
  else if String.eqb s "CONFIGURATION" then CONFIGURATION
  else if String.eqb s "PERMISSIONS" then PERMISSIONS
  else if String.eqb s "NETWORK" then NETWORK
  else CONFIGURATION.
End Category.

Module RiskLevel.
Inductive t : Set := CRITICAL | HIGH | MEDIUM | LOW | SAFE.

Definition name (v : t) : string :=
  match v with
  | CRITICAL => "CRITICAL"
  | HIGH => "HIGH"
  | MEDIUM => "MEDIUM"
  | LOW => "LOW"
  | SAFE => "SAFE"
  end.

Definition all : list t := [CRITICAL; HIGH; MEDIUM; LOW; SAFE].

Definition cast (s : string) : t :=
  if String.eqb s "CRITICAL" then CRITICAL
  else if String.eqb s "HIGH" then HIGH
  else if String.eqb s "MEDIUM" then MEDIUM
  else if String.eqb s "LOW" then LOW
  else SAFE.
End RiskLevel.

(** ** Field normalizers ([utils/scanResultNormalizer.ts], [types/scan.ts]) *)

(** [normalizeRiskLevelString(level: string)]. *)
Definition normalizeRiskLevelString (level : string) : RiskLevel.t :=
  let normalized := Js.toUpperCase level in
  if Js.array_includes ["CRITICAL"; "HIGH"; "MEDIUM"; "LOW"; "SAFE"] normalized
  then RiskLevel.cast normalized
  else RiskLevel.SAFE.

(** [normalizeSeverity(severity: string | undefined)]; [!severity] holds
    for [undefined] and for the empty string. *)
Definition normalizeSeverity (severity : option string) : Severity.t :=
  match severity with
  | None => Severity.INFO
  | Some "" => Severity.INFO
  | Some s =>
      let normalized := Js.toUpperCase s in
      if Js.array_includes ["CRITICAL"; "HIGH"; "MEDIUM"; "LOW"; "INFO"] normalized
      then Severity.cast normalized
      else Severity.INFO
  end.

(** [normalizeCategory(category: string | undefined)]. *)
Definition normalizeCategory (category : option string) : Category.t :=
  match category with
  | None => Category.CONFIGURATION
  | Some "" => Category.CONFIGURATION
  | Some s =>
      let normalized := Js.toUpperCase s in
      let validCategories :=
        ["PORT_EXPOSURE"; "AUTHENTICATION"; "CREDENTIALS"; "CONFIGURATION";
         "PERMISSIONS"; "NETWORK"] in
      if Js.array_includes validCategories normalized
      then Category.cast normalized
      else Category.CONFIGURATION
  end.

(** The own keys of [RISK_LEVEL_CONFIG] and the property names it
    inherits from [Object.prototype]: the [in] operator sees both. *)
Definition RISK_LEVEL_CONFIG_keys : list string :=
  ["CRITICAL"; "HIGH"; "MEDIUM"; "LOW"; "SAFE"].

Definition Object_prototype_keys : list string :=
  ["constructor"; "__defineGetter__"; "__defineSetter__"; "hasOwnProperty";
   "__lookupGetter__"; "__lookupSetter__"; "isPrototypeOf";
   "propertyIsEnumerable"; "toString"; "valueOf"; "__proto__";
   "toLocaleString"].

Definition in_RISK_LEVEL_CONFIG (key : string) : bool :=
  Js.array_includes (RISK_LEVEL_CONFIG_keys ++ Object_prototype_keys) key.

(** [normalizeRiskLevel(riskLevel: string | undefined | null)] of
    [types/scan.ts]. *)
Definition normalizeRiskLevel (riskLevel : option string) : RiskLevel.t :=
  match riskLevel with
  | None => RiskLevel.SAFE
  | Some "" => RiskLevel.SAFE
  | Some s =>
      let normalized := Js.toUpperCase s in
      if in_RISK_LEVEL_CONFIG normalized then RiskLevel.cast normalized
      else RiskLevel.SAFE
  end.

(** ** The canonical data model ([types/finding.ts], [types/scan.ts]) *)

Record RemediationStep : Type := {
  step : Z;
  instruction : string;
  code : option string;
  filePath : option string
}.

Record Finding : Type := {
  id : string;
  title : string;
  description : string;
  severity : Severity.t;
  category : Category.t;
  cvssScore : Q;
  location : option string;
  remediation : string;
  remediationSteps : list RemediationStep;
  references : option (list string);
  fixPrompt : option string
}.

Record SystemInfo : Type := {
  platform : string;
  platformDisplay : string;
  pythonVersion : string;
  username : string;
  isAdmin : bool;
  localIps : list string
}.

Record ScanResult : Type := {
  scanId : string;
  timestamp : string;
  durationSeconds : Q;
  findings : list Finding;
  systemInfo : SystemInfo;
  overallRiskScore : Q;
  riskLevel : RiskLevel.t;
  criticalCount : Z;
  highCount : Z;
  mediumCount : Z;
  lowCount : Z;
  infoCount : Z
}.

(** ** The raw objects received over IPC ([utils/scanResultNormalizer.ts]) *)

Module Raw.

(** [RawRemediationStep]. *)
Record RemediationStep : Type := {
  step : option Z;
  instruction : option string;
  code : option string;
  file_path : option string;
  filePath : option string
}.

(** An element of a steps array: [string | RawRemediationStep]. *)
Inductive StepItem : Type :=
| StepString (s : string)
| StepObject (o : RemediationStep).

(** The [unknown[]] handed to [normalizeRemediationSteps]: an array, or a
    value for which [Array.isArray] is false. *)
Inductive Steps : Type :=
| StepsArray (items : list StepItem)
| StepsNotArray.

(** [RawFinding]. *)
Record Finding : Type := {
  id : option string;
  title : option string;
  description : option string;
  severity : option string;
  category : option string;
  cvss_score : option Q;
  location : option string;
  remediation : option string;
  remediation_steps : option Steps;
  references : option (list string);
  reference_links : option (list string);
  cvssScore : option Q;
  remediationSteps : option Steps
}.

(** [RawSystemInfo]; the same shape is read under both the [system_info]
    and the [systemInfo] key. *)
Record SystemInfo : Type := {
  platform : option string;
  platform_display : option string;
  python_version : option string;
  username : option string;
  is_admin : option bool;
  local_ips : option (list string);
  platformDisplay : option string;
  pythonVersion : option string;
  isAdmin : option bool;
  localIps : option (list string)
}.

(** The [summary] object of a [RawScanResult]. *)
Record Summary : Type := {
  critical_count : option Z;
  high_count : option Z;
  medium_count : option Z;
  low_count : option Z;
  info_count : option Z
}.

(** [RawScanResult]. *)
Record ScanResult : Type := {
  scan_id : option string;
  timestamp : option string;
  duration_seconds : option Q;
  findings : option (list Finding);
  system_info : option SystemInfo;
  overall_risk_score : option Q;
  risk_level : option string;
  summary : option Summary;
  scanId : option string;
  durationSeconds : option Q;
  systemInfo : option SystemInfo;
  overallRiskScore : option Q;
  riskLevel : option string;
  criticalCount : option Z;
  highCount : option Z;
  mediumCount : option Z;
  lowCount : option Z;
  infoCount : option Z
}.

End Raw.

(** ** The result normalizer *)

(** The callback of [rawSteps.map((s, index) => ...)]. *)
Definition normalizeStep (index : nat) (s : Raw.StepItem) : RemediationStep :=
  match s with
  | Raw.StepString s =>
      let colonIndex := Js.indexOf ": " s in
      if ((colonIndex >? -1) && (colonIndex <? 50))%Z then
        let instruction := Js.substring_to (Z.to_nat colonIndex) s in
        let code := Js.trim (Js.substring_from (Z.to_nat (colonIndex + 2)) s) in
        {| step := Z.of_nat index + 1;
           instruction := instruction;
           code := if (0 <? String.length code)%nat then Some code else None;
           filePath := None |}
      else
        {| step := Z.of_nat index + 1;
           instruction := s;
           code := None;
           filePath := None |}
  | Raw.StepObject rawStep =>
      {| step := Raw.step rawStep ??: (Z.of_nat index + 1)%Z;
         instruction := Raw.instruction rawStep ??: "";
         code := Raw.code rawStep;
         filePath := Raw.file_path rawStep ?? Raw.filePath rawStep |}
  end.

(** [normalizeRemediationSteps(rawSteps)]. *)
Definition normalizeRemediationSteps (rawSteps : Raw.Steps) : list RemediationStep :=
  match rawSteps with
  | Raw.StepsNotArray => []
  | Raw.StepsArray items => imap normalizeStep items
  end.

(** The callback of [(raw.findings ?? []).map((f: RawFinding) => ...)]. *)
Definition normalizeFinding (f : Raw.Finding) : Finding :=
  {| id := Raw.id f ??: "unknown";
     title := Raw.title f ??: "Unknown Finding";
     description := Raw.description f ??: "";
     severity := normalizeSeverity (Raw.severity f);
     category := normalizeCategory (Raw.category f);
     cvssScore := Raw.cvss_score f ?? Raw.cvssScore f ??: 0%Q;
     location := Raw.location f;
     remediation := Raw.remediation f ??: "";
     remediationSteps :=
       normalizeRemediationSteps
         (Raw.remediation_steps f ?? Raw.remediationSteps f ??: Raw.StepsArray []);
     references := Some (Raw.references f ?? Raw.reference_links f ??: []);
     fixPrompt := None |}.

(** [normalizeScanResult(raw)]; [now] is the value of
    [new Date().toISOString()] at the call. *)
Definition normalizeScanResult (now : string) (raw : Raw.ScanResult) : ScanResult :=
  let systemInfo :=
    {| platform :=
         (Raw.system_info raw ≫= Raw.platform)
           ?? (Raw.systemInfo raw ≫= Raw.platform) ??: "unknown";
       platformDisplay :=
         (Raw.system_info raw ≫= Raw.platform_display)
           ?? (Raw.system_info raw ≫= Raw.platformDisplay)
           ?? (Raw.systemInfo raw ≫= Raw.platformDisplay) ??: "Unknown Platform";
       pythonVersion :=
         (Raw.system_info raw ≫= Raw.python_version)
           ?? (Raw.system_info raw ≫= Raw.pythonVersion)
           ?? (Raw.systemInfo raw ≫= Raw.pythonVersion) ??: "N/A";
       username :=
         (Raw.system_info raw ≫= Raw.username)
           ?? (Raw.systemInfo raw ≫= Raw.username) ??: "unknown";
       isAdmin :=
         (Raw.system_info raw ≫= Raw.is_admin)
           ?? (Raw.system_info raw ≫= Raw.isAdmin)
           ?? (Raw.systemInfo raw ≫= Raw.isAdmin) ??: false;
       localIps :=
         (Raw.system_info raw ≫= Raw.local_ips)
           ?? (Raw.system_info raw ≫= Raw.localIps)
           ?? (Raw.systemInfo raw ≫= Raw.localIps) ??: [] |} in
  let findings := map normalizeFinding (Raw.findings raw ??: []) in
  let criticalCount :=
    (Raw.summary raw ≫= Raw.critical_count) ?? Raw.criticalCount raw ??: 0%Z in
  let highCount :=
    (Raw.summary raw ≫= Raw.high_count) ?? Raw.highCount raw ??: 0%Z in
  let mediumCount :=
    (Raw.summary raw ≫= Raw.medium_count) ?? Raw.mediumCount raw ??: 0%Z in
  let lowCount :=
    (Raw.summary raw ≫= Raw.low_count) ?? Raw.lowCount raw ??: 0%Z in
  let infoCount :=
    (Raw.summary raw ≫= Raw.info_count) ?? Raw.infoCount raw ??: 0%Z in
  {| scanId := Raw.scan_id raw ?? Raw.scanId raw ??: "unknown";
     timestamp := Raw.timestamp raw ??: now;
     durationSeconds := Raw.duration_seconds raw ?? Raw.durationSeconds raw ??: 0%Q;
     findings := findings;
     systemInfo := systemInfo;
     overallRiskScore :=
       Raw.overall_risk_score raw ?? Raw.overallRiskScore raw ??: 0%Q;
     riskLevel :=
       normalizeRiskLevelString (Raw.risk_level raw ?? Raw.riskLevel raw ??: "safe");
     criticalCount := criticalCount;
     highCount := highCount;
     mediumCount := mediumCount;
     lowCount := lowCount;
     infoCount := infoCount |}.

(** ** The two field-naming conventions of a raw result

    A raw object is read as content through its primary keys; the two
    functions below write that content out in the primary convention
    (snake_case keys, counts under [summary]) and in the alternate one
    (camelCase keys, counts at top level).  A Python producer names the
    reference list [reference_links]; [legacy_refs] selects that key. *)

Module Convention.

Definition step_toPrimary (o : Raw.RemediationStep) : Raw.RemediationStep :=
  {| Raw.step := Raw.step o;
     Raw.instruction := Raw.instruction o;
     Raw.code := Raw.code o;
     Raw.file_path := Raw.file_path o;
     Raw.filePath := None |}.

Definition step_toAlternate (o : Raw.RemediationStep) : Raw.RemediationStep :=
  {| Raw.step := Raw.step o;
     Raw.instruction := Raw.instruction o;
     Raw.code := Raw.code o;
     Raw.file_path := None;
     Raw.filePath := Raw.file_path o |}.

Definition steps_map (f : Raw.RemediationStep -> Raw.RemediationStep)
    (steps : Raw.Steps) : Raw.Steps :=
  match steps with
  | Raw.StepsArray items =>
      Raw.StepsArray
        (map (fun item =>
                match item with
                | Raw.StepString s => Raw.StepString s
                | Raw.StepObject o => Raw.StepObject (f o)
                end) items)
  | Raw.StepsNotArray => Raw.StepsNotArray
  end.

Definition finding_toPrimary (legacy_refs : bool) (f : Raw.Finding) : Raw.Finding :=
  {| Raw.id := Raw.id f;
     Raw.title := Raw.title f;
     Raw.description := Raw.description f;
     Raw.severity := Raw.severity f;
     Raw.category := Raw.category f;
     Raw.cvss_score := Raw.cvss_score f;
     Raw.location := Raw.location f;
     Raw.remediation := Raw.remediation f;
     Raw.remediation_steps := steps_map step_toPrimary <$> Raw.remediation_steps f;
     Raw.references := if legacy_refs then None else Raw.references f;
     Raw.reference_links := if legacy_refs then Raw.references f else None;
     Raw.cvssScore := None;
     Raw.remediationSteps := None |}.

Definition finding_toAlternate (f : Raw.Finding) : Raw.Finding :=
  {| Raw.id := Raw.id f;
     Raw.title := Raw.title f;
     Raw.description := Raw.description f;
     Raw.severity := Raw.severity f;
     Raw.category := Raw.category f;
     Raw.cvss_score := None;
     Raw.location := Raw.location f;
     Raw.remediation := Raw.remediation f;
     Raw.remediation_steps := None;
     Raw.references := Raw.references f;
     Raw.reference_links := None;
     Raw.cvssScore := Raw.cvss_score f;
     Raw.remediationSteps := steps_map step_toAlternate <$> Raw.remediation_steps f |}.

Definition systemInfo_toPrimary (i : Raw.SystemInfo) : Raw.SystemInfo :=
  {| Raw.platform := Raw.platform i;
     Raw.platform_display := Raw.platform_display i;
     Raw.python_version := Raw.python_version i;
     Raw.username := Raw.username i;
     Raw.is_admin := Raw.is_admin i;
     Raw.local_ips := Raw.local_ips i;
     Raw.platformDisplay := None;
     Raw.pythonVersion := None;
     Raw.isAdmin := None;
     Raw.localIps := None |}.

Definition systemInfo_toAlternate (i : Raw.SystemInfo) : Raw.SystemInfo :=
  {| Raw.platform := Raw.platform i;
     Raw.platform_display := None;
     Raw.python_version := None;
     Raw.username := Raw.username i;
     Raw.is_admin := None;
     Raw.local_ips := None;
     Raw.platformDisplay := Raw.platform_display i;
     Raw.pythonVersion := Raw.python_version i;
     Raw.isAdmin := Raw.is_admin i;
     Raw.localIps := Raw.local_ips i |}.

Definition toPrimary (legacy_refs : bool) (c : Raw.ScanResult) : Raw.ScanResult :=
  {| Raw.scan_id := Raw.scan_id c;
     Raw.timestamp := Raw.timestamp c;
     Raw.duration_seconds := Raw.duration_seconds c;
     Raw.findings := map (finding_toPrimary legacy_refs) <$> Raw.findings c;
     Raw.system_info := systemInfo_toPrimary <$> Raw.system_info c;
     Raw.overall_risk_score := Raw.overall_risk_score c;
     Raw.risk_level := Raw.risk_level c;
     Raw.summary := Raw.summary c;
     Raw.scanId := None;
     Raw.durationSeconds := None;
     Raw.systemInfo := None;
     Raw.overallRiskScore := None;
     Raw.riskLevel := None;
     Raw.criticalCount := None;
     Raw.highCount := None;
     Raw.mediumCount := None;
     Raw.lowCount := None;
     Raw.infoCount := None |}.

Definition toAlternate (c : Raw.ScanResult) : Raw.ScanResult :=
  {| Raw.scan_id := None;
     Raw.timestamp := Raw.timestamp c;
     Raw.duration_seconds := None;
     Raw.findings := map finding_toAlternate <$> Raw.findings c;
     Raw.system_info := None;
     Raw.overall_risk_score := None;
     Raw.risk_level := None;
     Raw.summary := None;
     Raw.scanId := Raw.scan_id c;
     Raw.durationSeconds := Raw.duration_seconds c;
     Raw.systemInfo := systemInfo_toAlternate <$> Raw.system_info c;
     Raw.overallRiskScore := Raw.overall_risk_score c;
     Raw.riskLevel := Raw.risk_level c;
     Raw.criticalCount := Raw.summary c ≫= Raw.critical_count;
     Raw.highCount := Raw.summary c ≫= Raw.high_count;
     Raw.mediumCount := Raw.summary c ≫= Raw.medium_count;
     Raw.lowCount := Raw.summary c ≫= Raw.low_count;
     Raw.infoCount := Raw.summary c ≫= Raw.info_count |}.

(** The content [c] with its [timestamp] property set to [t]. *)
Definition with_timestamp (t : string) (c : Raw.ScanResult) : Raw.ScanResult :=
  {| Raw.scan_id := Raw.scan_id c;
     Raw.timestamp := Some t;
     Raw.duration_seconds := Raw.duration_seconds c;
     Raw.findings := Raw.findings c;
     Raw.system_info := Raw.system_info c;
     Raw.overall_risk_score := Raw.overall_risk_score c;
     Raw.risk_level := Raw.risk_level c;
     Raw.summary := Raw.summary c;
     Raw.scanId := Raw.scanId c;
     Raw.durationSeconds := Raw.durationSeconds c;
     Raw.systemInfo := Raw.systemInfo c;
     Raw.overallRiskScore := Raw.overallRiskScore c;
     Raw.riskLevel := Raw.riskLevel c;
     Raw.criticalCount := Raw.criticalCount c;
     Raw.highCount := Raw.highCount c;
     Raw.mediumCount := Raw.mediumCount c;
     Raw.lowCount := Raw.lowCount c;
     Raw.infoCount := Raw.infoCount c |}.

End Convention.

(** ** The scan store's derived counts ([stores/scanStore.ts]) *)

Module Store.

(** [findings.filter(f => f.severity === s).length]. *)
Definition count_severity (s : Severity.t) (findings : list Finding) : Z :=
  Z.of_nat (length (List.filter (fun f => Severity.eqb (severity f) s) findings)).

Definition getCriticalCount := count_severity Severity.CRITICAL.
Definition getHighCount := count_severity Severity.HIGH.
Definition getMediumCount := count_severity Severity.MEDIUM.
Definition getLowCount := count_severity Severity.LOW.
Definition getInfoCount := count_severity Severity.INFO.

End Store.

(** ** Finding utilities ([utils/findingUtils.ts]) *)

Definition PRIORITY_FINDING_ID : string := "CLAWD-INSTALL-001".

Definition SEVERITY_PRIORITY (s : Severity.t) : Z :=
  match s with
  | Severity.CRITICAL => 0
  | Severity.HIGH => 1
  | Severity.MEDIUM => 2
  | Severity.LOW => 3
  | Severity.INFO => 4
  end.

(** [isPriorityFinding(finding)]. *)
Definition isPriorityFinding (finding : Finding) : bool :=
  String.eqb (id finding) PRIORITY_FINDING_ID
  || Js.includes "not installed" (Js.toLowerCase (title finding))
  || Js.includes "not configured" (Js.toLowerCase (title finding)).

(** [Array.prototype.sort(compare)]: a stable sort; an element is placed
    before the first later element that does not compare below it. *)
Fixpoint sort_insert {A : Type} (compare : A -> A -> Z) (x : A) (sorted : list A) : list A :=
  match sorted with
  | [] => [x]
  | y :: rest =>
      if (compare x y <=? 0)%Z then x :: y :: rest
      else y :: sort_insert compare x rest
  end.

Definition array_sort {A : Type} (compare : A -> A -> Z) (xs : list A) : list A :=
  fold_right (sort_insert compare) [] xs.

(** The comparator [(a, b) => rank(a) - rank(b)]. *)
Definition compare_by {A : Type} (rank : A -> Z) (a b : A) : Z :=
  (rank a - rank b)%Z.

(** [sortFindingsForDevView(findings)]. *)
Definition sortFindingsForDevView (findings : list Finding) : list Finding :=
  let priority := List.filter isPriorityFinding findings in
  let regular := List.filter (fun f => negb (isPriorityFinding f)) findings in
  let sortedRegular :=
    array_sort
      (fun a b => (SEVERITY_PRIORITY (severity a) - SEVERITY_PRIORITY (severity b))%Z)
      regular in
  (priority ++ sortedRegular)%list.

(** The findings of severity [s], in the order of the list. *)
Definition of_severity (s : Severity.t) (fs : list Finding) : list Finding :=
  List.filter (fun f => Severity.eqb (severity f) s) fs.

(** A [Record<Severity, Finding[]>]. *)
Definition Groups : Type := Severity.t -> list Finding.

Definition groups_push (groups : Groups) (s : Severity.t) (f : Finding) : Groups :=
  fun s' => if Severity.eqb s' s then (groups s' ++ [f])%list else groups s'.

(** [groupFindingsBySeverity(findings)]. *)
Definition groupFindingsBySeverity (findings : list Finding) : Groups :=
  fold_left (fun groups finding => groups_push groups (severity finding) finding)
    findings (fun _ => []).

(** ** The two finding views
    ([views/DevView/DevFindingsDisplay.tsx], [views/UserView/UserFindingsDisplay.tsx])

    A view is modelled by the sequence of blocks it renders, from top to
    bottom; [None] is the [return null] of a view with nothing to show. *)

Module View.

Inductive FilterSeverity : Type := ALL | Only (s : Severity.t).

Inductive ScanStatus : Set := idle | scanning | complete | error.

Inductive Block : Type :=
| Header
| PriorityAlerts (alerts : list Finding)
| PriorityInstallAlerts (alerts : list (Finding * bool))
| NoFindingsMessage
| SeverityGroup (s : Severity.t) (items : list Finding).

Definition SEVERITY_ORDER : list Severity.t :=
  [Severity.CRITICAL; Severity.HIGH; Severity.MEDIUM; Severity.LOW; Severity.INFO].

(** [filterSeverity === 'ALL' ? allFindings : allFindings.filter(...)]. *)
Definition filteredFindings (filterSeverity : FilterSeverity)
    (allFindings : list Finding) : list Finding :=
  match filterSeverity with
  | ALL => allFindings
  | Only s => List.filter (fun f => Severity.eqb (severity f) s) allFindings
  end.

(** [cond && block] inside JSX. *)
Definition when (cond : bool) (block : Block) : list Block :=
  if cond then [block] else [].

Definition DevFindingsDisplay (status : ScanStatus) (scanResult : option ScanResult)
    (filterSeverity : FilterSeverity) : option (list Block) :=
  match status, scanResult with
  | complete, Some result =>
      let allFindings := findings result in
      let filteredFindings := filteredFindings filterSeverity allFindings in
      let priorityFindings := List.filter isPriorityFinding filteredFindings in
      let regularFindings :=
        List.filter (fun f => negb (isPriorityFinding f)) filteredFindings in
      let groupedFindings := groupFindingsBySeverity regularFindings in
      Some
        ([Header]
         ++ when (0 <? length priorityFindings)%nat (PriorityAlerts priorityFindings)
         ++ when (length filteredFindings =? 0)%nat NoFindingsMessage
         ++ flat_map
              (fun severity =>
                 let findings := groupedFindings severity in
                 if (length findings =? 0)%nat then []
                 else [SeverityGroup severity findings])
              SEVERITY_ORDER)%list
  | _, _ => None
  end.

Definition UserFindingsDisplay (status : ScanStatus) (scanResult : option ScanResult)
    (filterSeverity : FilterSeverity) : option (list Block) :=
  match status, scanResult with
  | complete, Some result =>
      let allFindings := findings result in
      let filteredFindings := filteredFindings filterSeverity allFindings in
      let groupedFindings := groupFindingsBySeverity filteredFindings in
      let priorityFindings := List.filter isPriorityFinding filteredFindings in
      let alerts :=
        imap
          (fun index finding =>
             let hasMoreFindings :=
               (index <? length priorityFindings - 1)%nat
               || existsb
                    (fun s => existsb (fun f => negb (isPriorityFinding f))
                                (groupedFindings s))
                    Severity.all in
             (finding, hasMoreFindings))
          priorityFindings in
      Some
        ([Header]
         ++ when (length filteredFindings =? 0)%nat NoFindingsMessage
         ++ when (0 <? length priorityFindings)%nat (PriorityInstallAlerts alerts)
         ++ flat_map
              (fun severity =>
                 let findings :=
                   List.filter (fun f => negb (isPriorityFinding f))
                     (groupedFindings severity) in
                 if (length findings =? 0)%nat then []
                 else [SeverityGroup severity findings])
              SEVERITY_ORDER)%list
  | _, _ => None
  end.

(** The findings a block displays as priority alerts, and as members of
    a severity group. *)
Definition alerts_of (b : Block) : list Finding :=
  match b with
  | PriorityAlerts alerts => alerts
  | PriorityInstallAlerts alerts => map fst alerts
  | _ => []
  end.

Definition group_items_of (b : Block) : list Finding :=
  match b with
  | SeverityGroup _ items => items
  | _ => []
  end.

Definition is_group (b : Block) : bool :=
  match b with
  | SeverityGroup _ _ => true
  | _ => false
  end.

(** In the rendered [blocks], the finding [f] is displayed as a priority
    alert above every severity group, and in no severity group. *)
Definition shown_ahead_of_groups (f : Finding) (blocks : list Block) : Prop :=
  exists above below : list Block,
    blocks = (above ++ below)%list
    /\ (exists b, In b above /\ In f (alerts_of b))
    /\ (forall b, In b above -> is_group b = false)
    /\ (forall b, In b below -> ~ In f (group_items_of b)).

End View.

(** ** The main process ([electron/main.cjs]) *)

Module Main.

(** A value received from the renderer over IPC: an array, whose
    elements are strings or not, or something that is not an array. *)
Inductive JsItem : Type :=
| JsString (s : string)
| JsOtherItem.

Inductive JsValue : Type :=
| JsArray (items : list JsItem)
| JsOther.

(** The outcome of a function that may [throw new Error(message)]. *)
Inductive Result (A : Type) : Type :=
| Ok (value : A)
| Throw (message : string).
Arguments Ok {A} value.
Arguments Throw {A} message.

Definition ALLOWED_MODULES : gset string :=
  {[ "port"; "credential"; "config"; "process"; "permission"; "network"; "clawdbot" ]}.

(** [ALLOWED_MODULES.has(x)]. *)
Definition has (x : string) : bool := bool_decide (x ∈ ALLOWED_MODULES).

(** [module.toLowerCase().replace(/[^a-z0-9_]/g, '')]. *)
Definition sanitize_module (module : string) : string :=
  Js.remove_chars
    (fun c => negb (Js.is_lower c || Js.is_digit c || Ascii.eqb c "_"))
    (Js.toLowerCase module).

(** The [for (const module of modules)] loop of [validateModules]. *)
Fixpoint validate_loop (modules : list JsItem) (validated : list string)
    : Result (list string) :=
  match modules with
  | [] => Ok validated
  | JsString module :: rest =>
      let sanitized := sanitize_module module in
      if has sanitized then validate_loop rest (validated ++ [sanitized])%list
      else Throw ("Invalid module: " ++ sanitized)
  | _ :: _ => Throw "Invalid input: module names must be strings"
  end.

(** [validateModules(modules)]. *)
Definition validateModules (modules : JsValue) : Result (list string) :=
  match modules with
  | JsArray items =>
      match validate_loop items [] with
      | Ok validated =>
          if (length validated =? 0)%nat
          then Throw "At least one valid module is required"
          else Ok validated
      | Throw message => Throw message
      end
  | _ => Throw "Invalid input: modules must be an array"
  end.

(** The [options] argument of the export request: an object, whose
    [filename] property may hold a string, or anything else. *)
Inductive ExportOptions : Type :=
| OptionsObject (filename : option string)
| OptionsOther.

(** The character class of the second replace: less-than, greater-than,
    colon, double quote, bar, question mark, star, backslash, slash. *)
Definition is_reserved (c : ascii) : bool :=
  existsb (Ascii.eqb c)
    ["<"; ">"; ":"; "034"; "|"; "?"; "*"; "092"; "/"]%char.

Definition is_letter (c : ascii) : bool := Js.is_lower c || Js.is_upper c.

(** [s.replace(/^[A-Za-z]:/g, '')]. *)
Definition remove_drive_letter (s : string) : string :=
  match s with
  | String c (String c' rest) =>
      if is_letter c && Ascii.eqb c' ":" then rest else s
  | _ => s
  end.

(** [s.replace(/^\//, '')]. *)
Definition remove_leading_slash (s : string) : string :=
  match s with
  | String c rest => if Ascii.eqb c "/" then rest else s
  | EmptyString => s
  end.

(** The replace chain applied to [options.filename]. *)
Definition sanitize_filename (name : string) : string :=
  Js.substring_to 255
    (remove_leading_slash
       (remove_drive_letter
          (Js.remove_chars is_reserved
             (Js.remove_dotdot name)))).

(** [validateExportOptions(options)]; the result is the [filename]
    property of the returned object. *)
Definition validateExportOptions (options : ExportOptions) : string :=
  match options with
  | OptionsOther => "report.html"
  | OptionsObject None => "report.html"
  | OptionsObject (Some name) =>
      let filename := sanitize_filename name in
      if String.eqb filename "" || String.eqb (Js.trim filename) ""
      then "report.html"
      else filename
  end.

(** The state of the main process that the scan handlers touch: the
    [pythonProcess] variable, the child processes that were spawned and
    have not yet closed, those that were sent SIGTERM, and the log of
    spawn calls (process id and the validated module arguments). *)
Record State : Type := {
  pythonProcess : option nat;
  alive : gset nat;
  signalled : gset nat;
  spawned : list (nat * list string)
}.

Definition initial : State :=
  {| pythonProcess := None; alive := ∅; signalled := ∅; spawned := [] |}.

(** Process ids are handed out in order: a live process was spawned. *)
Definition ids_spawned (st : State) : Prop :=
  forall pid, pid ∈ alive st -> pid < length (spawned st).

(** What reaches the main process: the two IPC requests, and the [close]
    and [error] events of a child process. *)
Inductive Event : Type :=
| ScannerStart (modules : JsValue)
| ScannerCancel
| ChildClose (pid : nat)
| ChildError (pid : nat).

(** What the handler gives back at once: a promise that stays pending
    until the child closes, a rejection, or a returned boolean. *)
Inductive Reply : Type :=
| Pending
| Rejected (message : string)
| Returned (value : bool)
| NoReply.

Definition PYTHON_MISSING : string :=
  "Python is not installed or not in PATH. Please install Python 3.8 or higher from https://python.org".

Section Handlers.

(** The cached result of [findPythonExecutable()]. *)
Variable pythonCommand : option string.

(** [ipcMain.handle('scanner:start', ...)]. *)
Definition scanner_start (st : State) (modules : JsValue) : State * Reply :=
  match validateModules modules with
  | Throw message => (st, Rejected ("Validation failed: " ++ message))
  | Ok validatedModules =>
      match pythonCommand with
      | None => (st, Rejected PYTHON_MISSING)
      | Some _ =>
          let pid := length (spawned st) in
          ({| pythonProcess := Some pid;
              alive := {[ pid ]} ∪ alive st;
              signalled := signalled st;
              spawned := (spawned st ++ [(pid, validatedModules)])%list |},
           Pending)
      end
  end.

(** [ipcMain.handle('scanner:cancel', ...)]. *)
Definition scanner_cancel (st : State) : State * Reply :=
  match pythonProcess st with
  | Some pid =>
      ({| pythonProcess := None;
          alive := alive st;
          signalled := {[ pid ]} ∪ signalled st;
          spawned := spawned st |},
       Returned true)
  | None => (st, Returned false)
  end.

(** The [close] and [error] listeners: both clear the [pythonProcess]
    variable, whichever child they were attached to. *)
Definition child_gone (st : State) (pid : nat) : State * Reply :=
  ({| pythonProcess := None;
      alive := alive st ∖ {[ pid ]};
      signalled := signalled st;
      spawned := spawned st |},
   NoReply).

Definition handle (st : State) (ev : Event) : State * Reply :=
  match ev with
  | ScannerStart modules => scanner_start st modules
  | ScannerCancel => scanner_cancel st
  | ChildClose pid => child_gone st pid
  | ChildError pid => child_gone st pid
  end.

(** The state after a sequence of events. *)
Definition run (st : State) (evs : list Event) : State :=
  fold_left (fun st ev => fst (handle st ev)) evs st.

End Handlers.

End Main.

(** ** The risk engine (implementation plan, milestone 3.1) *)

Module RiskEngine.

(** The attributes of a backend finding that the scoring routine reads. *)
Record Finding : Type := {
  cvss_score : Q;
  is_publicly_exposed : bool;
  requires_no_auth : bool
}.

(** [calculate_risk(finding)]. *)
Definition calculate_risk (finding : Finding) : Q :=
  let base_score := cvss_score finding in
  let base_score :=
    if is_publicly_exposed finding then (base_score * (12 # 10))%Q else base_score in
  let base_score :=
    if requires_no_auth finding then (base_score * (11 # 10))%Q else base_score in
  Qmin base_score 10.

(** Modelled from the spec: the aggregation over a list of findings (the
    module [risk_engine.py]) is not among the sources; only the scoring
    routine [calculate_risk] above is.  The top finding is the first one
    that carries the maximal [cvss_score]. *)
Definition top_finding (first : Finding) (rest : list Finding) : Finding :=
  fold_left
    (fun top f => if Qle_bool (cvss_score f) (cvss_score top) then top else f)
    rest first.

(** Modelled from the spec: the final score is clamped to the closed
    interval from 0 to 10. *)
Definition clamp (score : Q) : Q := Qmax 0 (Qmin score 10).

(** Modelled from the spec: step 1 (no findings) and step 2 (the maximal
    score, boosted for the aggravating factors of the finding that
    carries it, then clamped) of the risk engine's algorithm. *)
Definition overallRiskScore (findings : list Finding) : Q :=
  match findings with
  | [] => 0
  | first :: rest => clamp (calculate_risk (top_finding first rest))
  end.

(** Modelled from the spec: step 3, the fixed thresholds. *)
Definition riskLevel (score : Q) : RiskLevel.t :=
  if Qle_bool 9 score then RiskLevel.CRITICAL
  else if Qle_bool 7 score then RiskLevel.HIGH
  else if Qle_bool 4 score then RiskLevel.MEDIUM
  else if negb (Qle_bool score 0) then RiskLevel.LOW
  else RiskLevel.SAFE.

(** Modelled from the spec: the risk engine as a function from the
    findings to the pair of the overall score and the risk level. *)
Definition assess (findings : list Finding) : Q * RiskLevel.t :=
  let score := overallRiskScore findings in
  (score, riskLevel score).

(** The multiplier that the two flags of a finding select. *)
Definition boost (f : Finding) : Q :=
  ((if is_publicly_exposed f then 12 # 10 else 1)
   * (if requires_no_auth f then 11 # 10 else 1))%Q.

End RiskEngine.

(** ** Conditions on the state of the main process *)

Module MainState.
Import Main.

(** The spawn log holds only non-empty lists of whitelisted ids, process
    ids are handed out in order, live and signalled processes were
    spawned, and the tracked process is the one spawned last, alive and
    not signalled. *)
Definition well_formed (st : State) : Prop :=
  (forall pid args, In (pid, args) (spawned st) ->
                    args <> [] /\ Forall (fun m => m ∈ ALLOWED_MODULES) args)
  /\ map fst (spawned st) = seq 0 (length (spawned st))
  /\ (forall pid, pid ∈ alive st -> pid < length (spawned st))
  /\ (forall pid, pid ∈ signalled st -> pid < length (spawned st))
  /\ (forall pid, pythonProcess st = Some pid ->
                  S pid = length (spawned st)
                  /\ pid ∈ alive st /\ pid ∉ signalled st).

(** A spawned process that is not the tracked one and was not signalled. *)
Definition orphan (pid : nat) (st : State) : Prop :=
  pid < length (spawned st) /\ pythonProcess st <> Some pid /\ pid ∉ signalled st.

End MainState.

(** ** The export request and the Python lookup ([electron/main.cjs]) *)

Module ExportRequest.
Import Main.

Definition ALLOWED_FORMATS : gset string :=
  {[ "html"; "json"; "markdown"; "console" ]}.

(** [format.toLowerCase().replace(/[^a-z]/g, '')]. *)
Definition sanitize_format (format : string) : string :=
  Js.remove_chars (fun c => negb (Js.is_lower c)) (Js.toLowerCase format).

(** [validateExportFormat(format)]. *)
Definition validateExportFormat (format : JsItem) : Result string :=
  match format with
  | JsOtherItem => Throw "Invalid input: format must be a string"
  | JsString format =>
      let sanitized := sanitize_format format in
      if bool_decide (sanitized ∈ ALLOWED_FORMATS) then Ok sanitized
      else Throw ("Invalid format: " ++ sanitized)
  end.

(** The characters of ASCII.  On a string made of them the functions of
    [Js] are the JavaScript methods themselves: [trim] removes no other
    white space and the case mappings touch no other letter. *)
Definition is_ascii (c : ascii) : bool := (N_of_ascii c <? 128)%N.

(** A file name with no pair of dots in a row. *)
Fixpoint no_dotdot (s : string) : bool :=
  match s with
  | EmptyString => true
  | String c r =>
      match r with
      | String c' _ => negb (Ascii.eqb c "." && Ascii.eqb c' ".") && no_dotdot r
      | EmptyString => true
      end
  end.

End ExportRequest.

Module Python.
Import Main.

(** What [spawnSync(cmd, ['--version'], ...)] gives: a result whose
    [status] is an exit code or [null], or an exception. *)
Inductive Probe : Type :=
| Exited (status : option Z)
| ProbeThrew.

Definition candidates : list string := ["py"; "python"; "python3"].

(** [findPythonExecutable()]; [spawnSync] stands for the environment at
    the time of the call. *)
Definition findPythonExecutable (spawnSync : string -> Probe) : option string :=
  List.find
    (fun cmd =>
       match spawnSync cmd with
       | Exited (Some status) => (status =? 0)%Z
       | _ => false
       end)
    candidates.

(** The variable [pythonCommand]: the sentinel, or the cached answer. *)
Inductive Cache : Type :=
| PYTHON_NOT_CHECKED
| Checked (command : option string).

(** [getPythonCommand()]: the new value of the variable and the outcome. *)
Definition getPythonCommand (spawnSync : string -> Probe) (pythonCommand : Cache)
    : Cache * Result string :=
  let found :=
    match pythonCommand with
    | PYTHON_NOT_CHECKED => findPythonExecutable spawnSync
    | Checked command => command
    end in
  match found with
  | None => (Checked found, Throw PYTHON_MISSING)
  | Some command => (Checked found, Ok command)
  end.

End Python.

(** ** The scan store ([stores/scanStore.ts]) and the scanner hook
    ([hooks/useScanner.ts]) *)

Module ProgressStatus.
Inductive t : Set := pending | in_progress | complete | error.
End ProgressStatus.

(** [ScanProgress] of [types/scan.ts]. *)
Module ScanProgress.
Record t : Type := {
  module : string;
  status : ProgressStatus.t;
  percentage : option Q;
  currentOperation : option string
}.
End ScanProgress.

(** [ScanModule] and [DEFAULT_MODULES] of [types/scan.ts]. *)
Module ScanModule.
Record t : Type := {
  id : string;
  name : string;
  description : string;
  enabled : bool
}.
End ScanModule.

Definition DEFAULT_MODULES : list ScanModule.t :=
  [ {| ScanModule.id := "port"; ScanModule.name := "Port Scanner";
       ScanModule.description := "Check for exposed ports and authentication bypass";
       ScanModule.enabled := true |};
    {| ScanModule.id := "credential"; ScanModule.name := "Credential Scanner";
       ScanModule.description := "Scan for exposed API keys and tokens";
       ScanModule.enabled := true |};
    {| ScanModule.id := "config"; ScanModule.name := "Config Analyzer";
       ScanModule.description := "Validate Clawdbot configuration files";
       ScanModule.enabled := true |};
    {| ScanModule.id := "process"; ScanModule.name := "Process Monitor";
       ScanModule.description := "Check Clawdbot process security";
       ScanModule.enabled := true |};
    {| ScanModule.id := "permission"; ScanModule.name := "File Permissions";
       ScanModule.description := "Validate file permissions";
       ScanModule.enabled := true |};
    {| ScanModule.id := "network"; ScanModule.name := "Network Analyzer";
       ScanModule.description := "Analyze network exposure";
       ScanModule.enabled := true |};
    {| ScanModule.id := "clawdbot"; ScanModule.name := "Clawdbot Scanner";
       ScanModule.description := "Check Moltbot/Clawdbot security configurations";
       ScanModule.enabled := true |} ].

Module ScanStore.

Local Abbreviation findings_of_result := findings (only parsing).

(** The state of the store. *)
Record State : Type := {
  status : View.ScanStatus;
  scanResult : option ScanResult;
  findings : list Finding;
  progress : list ScanProgress.t;
  modules : list ScanModule.t;
  expandedFindings : gset string;
  filterSeverity : View.FilterSeverity;
  error : option string
}.

(** [getInitialState()]. *)
Definition getInitialState : State :=
  {| status := View.idle;
     scanResult := None;
     findings := [];
     progress := [];
     modules := DEFAULT_MODULES;
     expandedFindings := ∅;
     filterSeverity := View.ALL;
     error := None |}.

Definition setStatus (status' : View.ScanStatus) (st : State) : State :=
  {| status := status'; scanResult := scanResult st; findings := findings st;
     progress := progress st; modules := modules st;
     expandedFindings := expandedFindings st;
     filterSeverity := filterSeverity st; error := error st |}.

Definition setScanResult (result : ScanResult) (st : State) : State :=
  {| status := View.complete; scanResult := Some result;
     findings := findings_of_result result;
     progress := []; modules := modules st;
     expandedFindings := expandedFindings st;
     filterSeverity := filterSeverity st; error := error st |}.

(** [xs.findIndex(pred)], with [None] for [-1]. *)
Fixpoint findIndex {A : Type} (pred : A -> bool) (xs : list A) : option nat :=
  match xs with
  | [] => None
  | x :: rest => if pred x then Some 0 else S <$> findIndex pred rest
  end.

Definition with_progress (progress' : list ScanProgress.t) (st : State) : State :=
  {| status := status st; scanResult := scanResult st; findings := findings st;
     progress := progress'; modules := modules st;
     expandedFindings := expandedFindings st;
     filterSeverity := filterSeverity st; error := error st |}.

Definition setProgress (progressUpdate : ScanProgress.t) (st : State) : State :=
  match findIndex
          (fun p => String.eqb (ScanProgress.module p) (ScanProgress.module progressUpdate))
          (progress st) with
  | Some existingIndex =>
      with_progress (<[existingIndex := progressUpdate]> (progress st)) st
  | None => with_progress (progress st ++ [progressUpdate])%list st
  end.

(** The callback of [state.modules.map(...)] in [toggleModule]. *)
Definition toggle_one (moduleId : string) (m : ScanModule.t) : ScanModule.t :=
  if String.eqb (ScanModule.id m) moduleId
  then {| ScanModule.id := ScanModule.id m; ScanModule.name := ScanModule.name m;
          ScanModule.description := ScanModule.description m;
          ScanModule.enabled := negb (ScanModule.enabled m) |}
  else m.

Definition toggleModule (moduleId : string) (st : State) : State :=
  {| status := status st; scanResult := scanResult st; findings := findings st;
     progress := progress st; modules := map (toggle_one moduleId) (modules st);
     expandedFindings := expandedFindings st;
     filterSeverity := filterSeverity st; error := error st |}.

Definition toggleFinding (findingId : string) (st : State) : State :=
  {| status := status st; scanResult := scanResult st; findings := findings st;
     progress := progress st; modules := modules st;
     expandedFindings :=
       if bool_decide (findingId ∈ expandedFindings st)
       then expandedFindings st ∖ {[ findingId ]}
       else expandedFindings st ∪ {[ findingId ]};
     filterSeverity := filterSeverity st; error := error st |}.

Definition setFilterSeverity (severity' : View.FilterSeverity) (st : State) : State :=
  {| status := status st; scanResult := scanResult st; findings := findings st;
     progress := progress st; modules := modules st;
     expandedFindings := expandedFindings st;
     filterSeverity := severity'; error := error st |}.

(** Whether [error] is truthy: neither [null] nor the empty string. *)
Definition truthy (error' : option string) : bool :=
  match error' with
  | None => false
  | Some "" => false
  | Some _ => true
  end.

Definition setError (error' : option string) (st : State) : State :=
  {| status := if truthy error' then View.error else status st;
     scanResult := scanResult st; findings := findings st;
     progress := progress st; modules := modules st;
     expandedFindings := expandedFindings st;
     filterSeverity := filterSeverity st; error := error' |}.

Definition reset (st : State) : State := getInitialState.

Definition getEnabledModules (st : State) : list string :=
  map ScanModule.id (List.filter ScanModule.enabled (modules st)).

Definition getFilteredFindings (st : State) : list Finding :=
  match filterSeverity st with
  | View.ALL => findings st
  | View.Only s => List.filter (fun f => Severity.eqb (severity f) s) (findings st)
  end.

(** What happens to the store in the Electron application: the actions
    of [useScanner] and the direct actions of the components. *)
Inductive Event : Type :=
| StartScan
| StartRejected (message : string)
| CancelScan
| OnResult (now : string) (result : Raw.ScanResult)
| OnProgress (progressUpdate : ScanProgress.t)
| ToggleModule (moduleId : string)
| ToggleFinding (findingId : string)
| SetFilterSeverity (severity' : View.FilterSeverity).

Definition handle (st : State) (ev : Event) : State :=
  match ev with
  | StartScan => setError None (setStatus View.scanning st)
  | StartRejected message => setError (Some message) st
  | CancelScan => reset (setStatus View.idle st)
  | OnResult now result => setScanResult (normalizeScanResult now result) st
  | OnProgress progressUpdate => setProgress progressUpdate st
  | ToggleModule moduleId => toggleModule moduleId st
  | ToggleFinding findingId => toggleFinding findingId st
  | SetFilterSeverity severity' => setFilterSeverity severity' st
  end.

Definition run (evs : list Event) : State := fold_left handle evs getInitialState.

(** The test [p.module === progressUpdate.module] of [setProgress]. *)
Definition same_module (u p : ScanProgress.t) : bool :=
  String.eqb (ScanProgress.module p) (ScanProgress.module u).

(** [progress.find(p => p.module === module)], as the progress
    indicator looks an entry up. *)
Definition find_progress (module' : string) (st : State) : option ScanProgress.t :=
  List.find (fun p => String.eqb (ScanProgress.module p) module') (progress st).

(** What the store keeps true in the Electron application. *)
Definition consistent (st : State) : Prop :=
  (status st = View.complete -> scanResult st <> None)
  /\ findings st
     = match scanResult st with
       | Some result => findings_of_result result
       | None => []
       end
  /\ List.NoDup (map ScanProgress.module (progress st))
  /\ map ScanModule.id (modules st) = map ScanModule.id DEFAULT_MODULES.

(** The value handed to [window.scanner.startScan]. *)
Definition modules_sent (st : State) : Main.JsValue :=
  Main.JsArray (map Main.JsString (getEnabledModules st)).

End ScanStore.

(** ** The scan controls of the renderer
    ([App], [components/scan/ScanControls.tsx],
    [components/scan/ProgressIndicator.tsx], [hooks/useScanner.ts])

    [App] renders the progress indicator, with its cancel button, while
    the status is [scanning], and the scan controls otherwise; the start
    buttons of the scan controls are disabled while scanning. *)

Module ScanControls.

Inductive Click : Set := ClickStart | ClickCancel.

(** [isScanning]: [status === 'scanning']. *)
Definition isScanning (st : ScanStore.State) : bool :=
  match ScanStore.status st with
  | View.scanning => true
  | _ => false
  end.

(** Whether the renderer offers the button of a click. *)
Definition offered (st : ScanStore.State) (click : Click) : bool :=
  match click with
  | ClickStart => negb (isScanning st)
  | ClickCancel => isScanning st
  end.

(** The store after [startScan], up to its [await], and after
    [cancelScan]. *)
Definition clicked (st : ScanStore.State) (click : Click) : ScanStore.State :=
  match click with
  | ClickStart => ScanStore.handle st ScanStore.StartScan
  | ClickCancel => ScanStore.handle st ScanStore.CancelScan
  end.

(** The IPC request that a click sends to the main process. *)
Definition request (st : ScanStore.State) (click : Click) : Main.Event :=
  match click with
  | ClickStart => Main.ScannerStart (ScanStore.modules_sent (clicked st click))
  | ClickCancel => Main.ScannerCancel
  end.

(** Every click of a sequence is offered when its turn comes. *)
Fixpoint all_offered (st : ScanStore.State) (clicks : list Click) : bool :=
  match clicks with
  | [] => true
  | click :: rest => offered st click && all_offered (clicked st click) rest
  end.

(** The requests that a sequence of clicks sends. *)
Fixpoint requests (st : ScanStore.State) (clicks : list Click) : list Main.Event :=
  match clicks with
  | [] => []
  | click :: rest => request st click :: requests (clicked st click) rest
  end.

End ScanControls.

(** ** A canonical result read as a raw object

    A canonical [ScanResult] is itself a raw object in the camelCase
    convention (the demo path hands such objects around, and so is every
    result of the normalizer); [toRaw] writes it out property by
    property, [fixPrompt] left aside as the raw interfaces have no such
    property. *)

Module Canonical.

Definition step_toRaw (s : RemediationStep) : Raw.StepItem :=
  Raw.StepObject
    {| Raw.step := Some (step s);
       Raw.instruction := Some (instruction s);
       Raw.code := code s;
       Raw.file_path := None;
       Raw.filePath := filePath s |}.

Definition finding_toRaw (f : Finding) : Raw.Finding :=
  {| Raw.id := Some (id f);
     Raw.title := Some (title f);
     Raw.description := Some (description f);
     Raw.severity := Some (Severity.name (severity f));
     Raw.category := Some (Category.name (category f));
     Raw.cvss_score := None;
     Raw.location := location f;
     Raw.remediation := Some (remediation f);
     Raw.remediation_steps := None;
     Raw.references := references f;
     Raw.reference_links := None;
     Raw.cvssScore := Some (cvssScore f);
     Raw.remediationSteps := Some (Raw.StepsArray (map step_toRaw (remediationSteps f))) |}.

Definition systemInfo_toRaw (i : SystemInfo) : Raw.SystemInfo :=
  {| Raw.platform := Some (platform i);
     Raw.platform_display := None;
     Raw.python_version := None;
     Raw.username := Some (username i);
     Raw.is_admin := None;
     Raw.local_ips := None;
     Raw.platformDisplay := Some (platformDisplay i);
     Raw.pythonVersion := Some (pythonVersion i);
     Raw.isAdmin := Some (isAdmin i);
     Raw.localIps := Some (localIps i) |}.

Definition toRaw (r : ScanResult) : Raw.ScanResult :=
  {| Raw.scan_id := None;
     Raw.timestamp := Some (timestamp r);
     Raw.duration_seconds := None;
     Raw.findings := Some (map finding_toRaw (findings r));
     Raw.system_info := None;
     Raw.overall_risk_score := None;
     Raw.risk_level := None;
     Raw.summary := None;
     Raw.scanId := Some (scanId r);
     Raw.durationSeconds := Some (durationSeconds r);
     Raw.systemInfo := Some (systemInfo_toRaw (systemInfo r));
     Raw.overallRiskScore := Some (overallRiskScore r);
     Raw.riskLevel := Some (RiskLevel.name (riskLevel r));
     Raw.criticalCount := Some (criticalCount r);
     Raw.highCount := Some (highCount r);
     Raw.mediumCount := Some (mediumCount r);
     Raw.lowCount := Some (lowCount r);
     Raw.infoCount := Some (infoCount r) |}.

(** The finding without its [fixPrompt] and with an empty reference
    list where it has none. *)
Definition normalized (f : Finding) : Finding :=
  {| id := id f; title := title f; description := description f;
     severity := severity f; category := category f; cvssScore := cvssScore f;
     location := location f; remediation := remediation f;
     remediationSteps := remediationSteps f;
     references := Some (references f ??: []);
     fixPrompt := None |}.

Definition result_normalized (r : ScanResult) : ScanResult :=
  {| scanId := scanId r; timestamp := timestamp r;
     durationSeconds := durationSeconds r;
     findings := map normalized (findings r);
     systemInfo := systemInfo r; overallRiskScore := overallRiskScore r;
     riskLevel := riskLevel r; criticalCount := criticalCount r;
     highCount := highCount r; mediumCount := mediumCount r;
     lowCount := lowCount r; infoCount := infoCount r |}.

End Canonical.

(** ** What the views display *)

Module Display.

(** The findings a sequence of blocks displays, from top to bottom. *)
Definition displayed (blocks : list View.Block) : list Finding :=
  flat_map (fun b => (View.alerts_of b ++ View.group_items_of b)%list) blocks.

(** The [hasMoreFindings] flags of the priority alerts of the friendly
    view, in order. *)
Definition alert_flags (blocks : list View.Block) : list bool :=
  flat_map
    (fun b =>
       match b with
       | View.PriorityInstallAlerts alerts => map snd alerts
       | _ => []
       end)
    blocks.

(** [Array.prototype.some] over the rendered blocks: is there a severity
    group. *)
Definition has_group (blocks : list View.Block) : bool :=
  existsb View.is_group blocks.

End Display.

(** ** The view mode ([stores/viewModeStore.ts],
    [components/findings/FindingsDisplayWrapper.tsx]) *)

Module ViewMode.

Inductive t : Set := dev | user.

(** The view mode of a fresh store. *)
Definition initial : t := user.

(** [toggleViewMode]. *)
Definition toggleViewMode (viewMode : t) : t :=
  match viewMode with
  | dev => user
  | user => dev
  end.

(** [FindingsDisplayWrapper]: the view that the mode selects. *)
Definition FindingsDisplayWrapper (viewMode : t) (status : View.ScanStatus)
    (scanResult : option ScanResult) (filterSeverity : View.FilterSeverity)
    : option (list View.Block) :=
  match viewMode with
  | dev => View.DevFindingsDisplay status scanResult filterSeverity
  | user => View.UserFindingsDisplay status scanResult filterSeverity
  end.

End ViewMode.

(** ** The progress of a scan
    ([components/scan/ProgressIndicator.tsx], [components/common/ProgressBar.tsx],
    the [stdout] listener of the [scanner:start] handler) *)

Module ProgressIndicator.
Import ScanStore.

(** The object that the main process sends on [scanner:progress] for
    the module name [match[1]] it found in a chunk of scanner output. *)
Definition scanner_progress (module' : string) : ScanProgress.t :=
  {| ScanProgress.module := module';
     ScanProgress.status := ProgressStatus.in_progress;
     ScanProgress.percentage := None;
     ScanProgress.currentOperation := None |}.

(** The progress updates of an event are those that the main process
    sends. *)
Definition sent_by_main (ev : Event) : Prop :=
  match ev with
  | OnProgress progressUpdate =>
      exists module', progressUpdate = scanner_progress module'
  | _ => True
  end.

Definition is_complete (p : ScanProgress.t) : bool :=
  match ScanProgress.status p with
  | ProgressStatus.complete => true
  | _ => false
  end.

(** No progress entry of the store reports a module complete. *)
Definition none_complete (st : State) : Prop :=
  Forall (fun p => is_complete p = false) (progress st).

Definition completedModules (st : State) : nat :=
  length (List.filter is_complete (progress st)).

Definition totalModules (st : State) : nat :=
  length (List.filter ScanModule.enabled (modules st)).

Definition overallProgress (st : State) : Q :=
  if (0 <? totalModules st)%nat
  then (inject_Z (Z.of_nat (completedModules st))
        / inject_Z (Z.of_nat (totalModules st))) * 100
  else 0.

(** The [percentage] of [ProgressBar]: the width of the bar. *)
Definition ProgressBar_percentage (value max : Q) : Q :=
  Qmin 100 (Qmax 0 ((value / max) * 100)).

(** [Math.round(percentage)], the label of the bar. *)
Definition ProgressBar_label (value max : Q) : Z :=
  Qfloor (ProgressBar_percentage value max + (1 # 2)).

(** The bar that [ProgressIndicator] renders: width and label; [None]
    is the [return null] outside a scan. *)
Definition ProgressIndicator (st : State) : option (Q * Z) :=
  match status st with
  | View.scanning =>
      Some (ProgressBar_percentage (overallProgress st) 100,
            ProgressBar_label (overallProgress st) 100)
  | _ => None
  end.

End ProgressIndicator.

(** ** The export panel and the export handler
    ([components/export/ExportPanel.tsx], the [export:generate] handler
    of [electron/main.cjs]) *)

Module ExportPanel.
Import Main.

(** The formats of [formatOptions]. *)
Definition formatOptions : list string := ["html"; "json"; "markdown"].

(** The characters of [new Date().toISOString().split('T')[0]]: digits
    and hyphens, and a sign in front of a year beyond 9999. *)
Definition is_date_char (c : ascii) : bool :=
  Js.is_digit c || Ascii.eqb c "-" || Ascii.eqb c "+".

(** [`clawd_security_report_${date}.${selectedFormat}`]. *)
Definition filename (date selectedFormat : string) : string :=
  "clawd_security_report_" ++ date ++ "." ++ selectedFormat.

(** The format and the options that [handleExport] hands to
    [exportReport], which passes them on to [export:generate]. *)
Definition handleExport (date selectedFormat : string) : JsItem * ExportOptions :=
  (JsString selectedFormat, OptionsObject (Some (filename date selectedFormat))).

(** The [export:generate] handler up to the spawn of the export process:
    the validation of both arguments and the argument list [args]. *)
Definition export_args (format : JsItem) (options : ExportOptions)
    : Result (list string) :=
  match ExportRequest.validateExportFormat format with
  | Throw message => Throw ("Validation failed: " ++ message)
  | Ok validatedFormat =>
      let validatedOptions := validateExportOptions options in
      Ok ["-m"; "clawd_for_dummies"; "--output"; validatedFormat;
          "--output-file"; validatedOptions]
  end.

End ExportPanel.

(** ** The headline of the friendly view
    ([getStatusMessage] of [views/UserView/UserFindingsDisplay.tsx]) *)

Module StatusMessage.

Inductive Icon : Set := PartyPopper | AlertTriangle | ShieldAlert | ShieldCheck.

Record t : Type := {
  icon : Icon;
  title : string;
  subtitle : string;
  color : string
}.

(** The template literal [`${n}`] of a count. *)
Definition number (n : nat) : string := pretty n.

(** [getStatusMessage(findings)]. *)
Definition getStatusMessage (findings : list Finding) : t :=
  let criticalCount :=
    length (List.filter (fun f => Severity.eqb (severity f) Severity.CRITICAL) findings) in
  let highCount :=
    length (List.filter (fun f => Severity.eqb (severity f) Severity.HIGH) findings) in
  let totalIssues := length findings in
  if (totalIssues =? 0)%nat then
    {| icon := PartyPopper;
       title := "All Clear!";
       subtitle := "No security issues were found on your system.";
       color := "text-low" |}
  else if (0 <? criticalCount)%nat then
    {| icon := AlertTriangle;
       title := number criticalCount ++ " urgent "
                ++ (if (criticalCount =? 1)%nat then "issue" else "issues")
                ++ " found";
       subtitle := "These need your immediate attention to keep your system safe.";
       color := "text-rose-400" |}
  else if (0 <? highCount)%nat then
    {| icon := ShieldAlert;
       title := number highCount ++ " important "
                ++ (if (highCount =? 1)%nat then "issue" else "issues")
                ++ " to address";
       subtitle := "Taking care of these soon will improve your security.";
       color := "text-orange-400" |}
  else
    {| icon := ShieldCheck;
       title := number totalIssues ++ " "
                ++ (if (totalIssues =? 1)%nat then "item" else "items")
                ++ " to review";
       subtitle := "Your system is mostly secure. Consider these improvements when you have time.";
       color := "text-amber-400" |}.

(** The [statusInfo] of [UserFindingsDisplay], computed from the filtered
    findings once the view renders. *)
Definition statusInfo (status : View.ScanStatus) (scanResult : option ScanResult)
    (filterSeverity : View.FilterSeverity) : option t :=
  match status, scanResult with
  | View.complete, Some result =>
      Some (getStatusMessage (View.filteredFindings filterSeverity (findings result)))
  | _, _ => None
  end.

(** The headline that [getStatusMessage] builds around a count. *)
Definition headline (n : nat) (before singular plural after : string) : string :=
  number n ++ before ++ (if (n =? 1)%nat then singular else plural) ++ after.

End StatusMessage.

(** ** Strings beyond ASCII

    The normalizers of severity, category and risk level receive
    whatever the scanner printed.  For them a JavaScript string is
    modelled as it is, a sequence of UTF-16 code units, and
    [String.prototype.toUpperCase] by the upper-case mapping of the
    Unicode Character Database, version 14.0 (the simple mappings of
    UnicodeData.txt and the unconditional mappings of
    SpecialCasing.txt), applied code point by code point. *)

Module Unicode.
Local Open Scope Z_scope.

(** A string: its UTF-16 code units. *)
Definition t : Type := list Z.

(** The string of ASCII characters that a [string] stands for. *)
Definition of_string (s : string) : t :=
  map (fun c => Z.of_N (N_of_ascii c)) (list_ascii_of_string s).

Fixpoint eqb (a b : t) : bool :=
  match a, b with
  | [], [] => true
  | x :: a', y :: b' => (x =? y)%Z && eqb a' b'
  | _, _ => false
  end.

Definition is_high_surrogate (u : Z) : bool := ((55296 <=? u) && (u <=? 56319))%Z.
Definition is_low_surrogate (u : Z) : bool := ((56320 <=? u) && (u <=? 57343))%Z.

(** The code points of a string: a high surrogate followed by a low one
    is one code point, every other code unit is a code point by itself. *)
Fixpoint decode (units : t) : list Z :=
  match units with
  | [] => []
  | hi :: rest =>
      match rest with
      | lo :: rest' =>
          if is_high_surrogate hi && is_low_surrogate lo
          then (65536 + (hi - 55296) * 1024 + (lo - 56320))%Z :: decode rest'
          else hi :: decode rest
      | [] => [hi]
      end
  end.

(** The code units of a code point. *)
Definition encode (cp : Z) : t :=
  if (cp <? 65536)%Z then [cp]
  else [(55296 + (cp - 65536) / 1024)%Z; (56320 + (cp - 65536) mod 1024)%Z].

(** The code points whose upper-case form is more than one code point,
    each with that form. *)
Definition special_upper : list (Z * list Z) :=
  [ (223, [83; 83]); (329, [700; 78]); (496, [74; 780]); (912, [921; 776; 769]);
    (944, [933; 776; 769]); (1415, [1333; 1362]); (7830, [72; 817]); (7831, [84; 776]);
    (7832, [87; 778]); (7833, [89; 778]); (7834, [65; 702]); (8016, [933; 787]);
    (8018, [933; 787; 768]); (8020, [933; 787; 769]); (8022, [933; 787; 834]);
    (8064, [7944; 921]); (8065, [7945; 921]); (8066, [7946; 921]); (8067, [7947; 921]);
    (8068, [7948; 921]); (8069, [7949; 921]); (8070, [7950; 921]); (8071, [7951; 921]);
    (8072, [7944; 921]); (8073, [7945; 921]); (8074, [7946; 921]); (8075, [7947; 921]);
    (8076, [7948; 921]); (8077, [7949; 921]); (8078, [7950; 921]); (8079, [7951; 921]);
    (8080, [7976; 921]); (8081, [7977; 921]); (8082, [7978; 921]); (8083, [7979; 921]);
    (8084, [7980; 921]); (8085, [7981; 921]); (8086, [7982; 921]); (8087, [7983; 921]);
    (8088, [7976; 921]); (8089, [7977; 921]); (8090, [7978; 921]); (8091, [7979; 921]);
    (8092, [7980; 921]); (8093, [7981; 921]); (8094, [7982; 921]); (8095, [7983; 921]);
    (8096, [8040; 921]); (8097, [8041; 921]); (8098, [8042; 921]); (8099, [8043; 921]);
    (8100, [8044; 921]); (8101, [8045; 921]); (8102, [8046; 921]); (8103, [8047; 921]);
    (8104, [8040; 921]); (8105, [8041; 921]); (8106, [8042; 921]); (8107, [8043; 921]);
    (8108, [8044; 921]); (8109, [8045; 921]); (8110, [8046; 921]); (8111, [8047; 921]);
    (8114, [8122; 921]); (8115, [913; 921]); (8116, [902; 921]); (8118, [913; 834]);
    (8119, [913; 834; 921]); (8124, [913; 921]); (8130, [8138; 921]); (8131, [919; 921]);
    (8132, [905; 921]); (8134, [919; 834]); (8135, [919; 834; 921]); (8140, [919; 921]);
    (8146, [921; 776; 768]); (8147, [921; 776; 769]); (8150, [921; 834]);
    (8151, [921; 776; 834]); (8162, [933; 776; 768]); (8163, [933; 776; 769]);
    (8164, [929; 787]); (8166, [933; 834]); (8167, [933; 776; 834]); (8178, [8186; 921]);
    (8179, [937; 921]); (8180, [911; 921]); (8182, [937; 834]); (8183, [937; 834; 921]);
    (8188, [937; 921]); (64256, [70; 70]); (64257, [70; 73]); (64258, [70; 76]);
    (64259, [70; 70; 73]); (64260, [70; 70; 76]); (64261, [83; 84]); (64262, [83; 84]);
    (64275, [1348; 1350]); (64276, [1348; 1333]); (64277, [1348; 1339]);
    (64278, [1358; 1350]); (64279, [1348; 1341]) ].

(** The other code points that upper-casing changes, in runs:
    (first, last, stride, offset) stands for the code points first,
    first + stride, ..., last, each mapped to itself plus the offset. *)
Definition simple_upper : list (Z * Z * Z * Z) :=
  [ (97, 122, 1, (-32)); (181, 181, 1, 743); (224, 246, 1, (-32)); (248, 254, 1, (-32));
    (255, 255, 1, 121); (257, 303, 2, (-1)); (305, 305, 1, (-232)); (307, 311, 2, (-1));
    (314, 328, 2, (-1)); (331, 375, 2, (-1)); (378, 382, 2, (-1)); (383, 383, 1, (-300));
    (384, 384, 1, 195); (387, 389, 2, (-1)); (392, 392, 1, (-1)); (396, 396, 1, (-1));
    (402, 402, 1, (-1)); (405, 405, 1, 97); (409, 409, 1, (-1)); (410, 410, 1, 163);
    (414, 414, 1, 130); (417, 421, 2, (-1)); (424, 424, 1, (-1)); (429, 429, 1, (-1));
    (432, 432, 1, (-1)); (436, 438, 2, (-1)); (441, 441, 1, (-1)); (445, 445, 1, (-1));
    (447, 447, 1, 56); (453, 453, 1, (-1)); (454, 454, 1, (-2)); (456, 456, 1, (-1));
    (457, 457, 1, (-2)); (459, 459, 1, (-1)); (460, 460, 1, (-2)); (462, 476, 2, (-1));
    (477, 477, 1, (-79)); (479, 495, 2, (-1)); (498, 498, 1, (-1)); (499, 499, 1, (-2));
    (501, 501, 1, (-1)); (505, 543, 2, (-1)); (547, 563, 2, (-1)); (572, 572, 1, (-1));
    (575, 576, 1, 10815); (578, 578, 1, (-1)); (583, 591, 2, (-1)); (592, 592, 1, 10783);
    (593, 593, 1, 10780); (594, 594, 1, 10782); (595, 595, 1, (-210));
    (596, 596, 1, (-206)); (598, 599, 1, (-205)); (601, 601, 1, (-202));
    (603, 603, 1, (-203)); (604, 604, 1, 42319); (608, 608, 1, (-205));
    (609, 609, 1, 42315); (611, 611, 1, (-207)); (613, 613, 1, 42280);
    (614, 614, 1, 42308); (616, 616, 1, (-209)); (617, 617, 1, (-211));
    (618, 618, 1, 42308); (619, 619, 1, 10743); (620, 620, 1, 42305);
    (623, 623, 1, (-211)); (625, 625, 1, 10749); (626, 626, 1, (-213));
    (629, 629, 1, (-214)); (637, 637, 1, 10727); (640, 640, 1, (-218));
    (642, 642, 1, 42307); (643, 643, 1, (-218)); (647, 647, 1, 42282);
    (648, 648, 1, (-218)); (649, 649, 1, (-69)); (650, 651, 1, (-217));
    (652, 652, 1, (-71)); (658, 658, 1, (-219)); (669, 669, 1, 42261);
    (670, 670, 1, 42258); (837, 837, 1, 84); (881, 883, 2, (-1)); (887, 887, 1, (-1));
    (891, 893, 1, 130); (940, 940, 1, (-38)); (941, 943, 1, (-37)); (945, 961, 1, (-32));
    (962, 962, 1, (-31)); (963, 971, 1, (-32)); (972, 972, 1, (-64));
    (973, 974, 1, (-63)); (976, 976, 1, (-62)); (977, 977, 1, (-57));
    (981, 981, 1, (-47)); (982, 982, 1, (-54)); (983, 983, 1, (-8));
    (985, 1007, 2, (-1)); (1008, 1008, 1, (-86)); (1009, 1009, 1, (-80));
    (1010, 1010, 1, 7); (1011, 1011, 1, (-116)); (1013, 1013, 1, (-96));
    (1016, 1016, 1, (-1)); (1019, 1019, 1, (-1)); (1072, 1103, 1, (-32));
    (1104, 1119, 1, (-80)); (1121, 1153, 2, (-1)); (1163, 1215, 2, (-1));
    (1218, 1230, 2, (-1)); (1231, 1231, 1, (-15)); (1233, 1327, 2, (-1));
    (1377, 1414, 1, (-48)); (4304, 4346, 1, 3008); (4349, 4351, 1, 3008);
    (5112, 5117, 1, (-8)); (7296, 7296, 1, (-6254)); (7297, 7297, 1, (-6253));
    (7298, 7298, 1, (-6244)); (7299, 7300, 1, (-6242)); (7301, 7301, 1, (-6243));
    (7302, 7302, 1, (-6236)); (7303, 7303, 1, (-6181)); (7304, 7304, 1, 35266);
    (7545, 7545, 1, 35332); (7549, 7549, 1, 3814); (7566, 7566, 1, 35384);
    (7681, 7829, 2, (-1)); (7835, 7835, 1, (-59)); (7841, 7935, 2, (-1));
    (7936, 7943, 1, 8); (7952, 7957, 1, 8); (7968, 7975, 1, 8); (7984, 7991, 1, 8);
    (8000, 8005, 1, 8); (8017, 8023, 2, 8); (8032, 8039, 1, 8); (8048, 8049, 1, 74);
    (8050, 8053, 1, 86); (8054, 8055, 1, 100); (8056, 8057, 1, 128);
    (8058, 8059, 1, 112); (8060, 8061, 1, 126); (8112, 8113, 1, 8);
    (8126, 8126, 1, (-7205)); (8144, 8145, 1, 8); (8160, 8161, 1, 8); (8165, 8165, 1, 7);
    (8526, 8526, 1, (-28)); (8560, 8575, 1, (-16)); (8580, 8580, 1, (-1));
    (9424, 9449, 1, (-26)); (11312, 11359, 1, (-48)); (11361, 11361, 1, (-1));
    (11365, 11365, 1, (-10795)); (11366, 11366, 1, (-10792)); (11368, 11372, 2, (-1));
    (11379, 11379, 1, (-1)); (11382, 11382, 1, (-1)); (11393, 11491, 2, (-1));
    (11500, 11502, 2, (-1)); (11507, 11507, 1, (-1)); (11520, 11557, 1, (-7264));
    (11559, 11559, 1, (-7264)); (11565, 11565, 1, (-7264)); (42561, 42605, 2, (-1));
    (42625, 42651, 2, (-1)); (42787, 42799, 2, (-1)); (42803, 42863, 2, (-1));
    (42874, 42876, 2, (-1)); (42879, 42887, 2, (-1)); (42892, 42892, 1, (-1));
    (42897, 42899, 2, (-1)); (42900, 42900, 1, 48); (42903, 42921, 2, (-1));
    (42933, 42947, 2, (-1)); (42952, 42954, 2, (-1)); (42961, 42961, 1, (-1));
    (42967, 42969, 2, (-1)); (42998, 42998, 1, (-1)); (43859, 43859, 1, (-928));
    (43888, 43967, 1, (-38864)); (65345, 65370, 1, (-32)); (66600, 66639, 1, (-40));
    (66776, 66811, 1, (-40)); (66967, 66977, 1, (-39)); (66979, 66993, 1, (-39));
    (66995, 67001, 1, (-39)); (67003, 67004, 1, (-39)); (68800, 68850, 1, (-64));
    (71872, 71903, 1, (-32)); (93792, 93823, 1, (-32)); (125218, 125251, 1, (-34)) ].

Definition in_run (cp : Z) (run : Z * Z * Z * Z) : bool :=
  let '(first, last, stride, _) := run in
  ((first <=? cp) && (cp <=? last) && ((cp - first) mod stride =? 0))%Z.

(** The upper-case form of a code point. *)
Definition upper (cp : Z) : list Z :=
  match List.find (fun entry => (fst entry =? cp)%Z) special_upper with
  | Some (_, form) => form
  | None =>
      match List.find (in_run cp) simple_upper with
      | Some (_, _, _, offset) => [(cp + offset)%Z]
      | None => [cp]
      end
  end.

(** [s.toUpperCase()]. *)
Definition toUpperCase (s : t) : t :=
  flat_map encode (flat_map upper (decode s)).

(** The characters beyond ASCII whose upper-case form is made of ASCII
    letters: sharp s, dotless i, long s and the Latin ligatures ff, fi,
    fl, ffi, ffl, long-s-t and st. *)
Definition ascii_special : list (Z * list Z) :=
  [ (223, [83; 83]); (305, [73]); (383, [83]);
    (64256, [70; 70]); (64257, [70; 73]); (64258, [70; 76]);
    (64259, [70; 70; 73]); (64260, [70; 70; 76]);
    (64261, [83; 84]); (64262, [83; 84]) ]%Z.

(** The ASCII characters that a code point stands for when case is
    ignored: an ASCII letter stands for its capital, any other ASCII
    character for itself, the characters of [ascii_special] for the
    capitals listed there, and every other code point for none. *)
Definition ascii_upper (cp : Z) : option (list Z) :=
  if ((0 <=? cp) && (cp <? 128))%Z
  then Some [if ((97 <=? cp) && (cp <=? 122))%Z then (cp - 32)%Z else cp]
  else match List.find (fun entry => (fst entry =? cp)%Z) ascii_special with
       | Some (_, form) => Some form
       | None => None
       end.

Fixpoint ascii_uppers (cps : list Z) : option (list Z) :=
  match cps with
  | [] => Some []
  | cp :: rest =>
      match ascii_upper cp, ascii_uppers rest with
      | Some form, Some forms => Some (form ++ forms)%list
      | _, _ => None
      end
  end.

(** The code units of ASCII, and the small letters among them. *)
Definition ascii_unit (u : Z) : bool := (0 <=? u) && (u <? 128).
Definition small_letter (u : Z) : bool := (97 <=? u) && (u <=? 122).

(** The string [s] spells the ASCII text [k] when case is ignored. *)
Definition spells (s : t) (k : string) : Prop :=
  ascii_uppers (decode s) = Some (of_string k).

(** A string of ASCII characters. *)
Definition is_ascii (s : string) : bool :=
  Js.string_forallb (fun c => (N_of_ascii c <? 128)%N) s.

End Unicode.

(** ** The field normalizers on untyped input

    The raw interfaces type [severity], [category] and [risk_level] as
    optional strings, but the object comes from [JSON.parse] and is cast
    without a check ([result as unknown as Record<string, unknown>]).
    [Untyped] reads these three properties as JSON values and follows
    the normalizers on them; all other properties are read through the
    typed interfaces as before. *)

Module Untyped.
Import Main.

(** The value of a property: absent, [null], a string, or any other
    value (a number, a boolean, an object, an array), of which only the
    truthiness matters. *)
Inductive Json : Type :=
| undefined
| null
| str (s : Unicode.t)
| other (truthy : bool).

(** [!value]. *)
Definition falsy (value : Json) : bool :=
  match value with
  | undefined | null => true
  | str [] => true
  | str (_ :: _) => false
  | other truthy => negb truthy
  end.

(** [a ?? b]. *)
Definition coalesce (a b : Json) : Json :=
  match a with
  | undefined | null => b
  | _ => a
  end.

(** The message of the [TypeError] that calling [toUpperCase] on a value
    that has no such method raises. *)
Definition not_a_function (variable : string) : string :=
  variable ++ ".toUpperCase is not a function".

(** [names.includes(normalized)]. *)
Definition includes (names : list string) (normalized : Unicode.t) : bool :=
  existsb (fun name => Unicode.eqb normalized (Unicode.of_string name)) names.

(** [normalized as T]: the value of the enumeration named [normalized]. *)
Definition cast {A : Type} (name : A -> string) (all : list A) (default : A)
    (normalized : Unicode.t) : A :=
  match List.find (fun v => Unicode.eqb normalized (Unicode.of_string (name v))) all with
  | Some v => v
  | None => default
  end.

(** [normalizeSeverity(severity)]. *)
Definition normalizeSeverity (severity : Json) : Result Severity.t :=
  if falsy severity then Ok Severity.INFO
  else match severity with
       | str s =>
           let normalized := Unicode.toUpperCase s in
           if includes ["CRITICAL"; "HIGH"; "MEDIUM"; "LOW"; "INFO"] normalized
           then Ok (cast Severity.name Severity.all Severity.INFO normalized)
           else Ok Severity.INFO
       | _ => Throw (not_a_function "severity")
       end.

(** [normalizeCategory(category)]. *)
Definition normalizeCategory (category : Json) : Result Category.t :=
  if falsy category then Ok Category.CONFIGURATION
  else match category with
       | str s =>
           let normalized := Unicode.toUpperCase s in
           let validCategories :=
             ["PORT_EXPOSURE"; "AUTHENTICATION"; "CREDENTIALS"; "CONFIGURATION";
              "PERMISSIONS"; "NETWORK"] in
           if includes validCategories normalized
           then Ok (cast Category.name Category.all Category.CONFIGURATION normalized)
           else Ok Category.CONFIGURATION
       | _ => Throw (not_a_function "category")
       end.

(** [normalizeRiskLevelString(level)]. *)
Definition normalizeRiskLevelString (level : Json) : Result RiskLevel.t :=
  match level with
  | str s =>
      let normalized := Unicode.toUpperCase s in
      if includes ["CRITICAL"; "HIGH"; "MEDIUM"; "LOW"; "SAFE"] normalized
      then Ok (cast RiskLevel.name RiskLevel.all RiskLevel.SAFE normalized)
      else Ok RiskLevel.SAFE
  | _ => Throw (not_a_function "level")
  end.

(** [normalizeRiskLevel(riskLevel)] of [types/scan.ts]; the [in] test
    sees the own keys of [RISK_LEVEL_CONFIG] and the inherited ones. *)
Definition normalizeRiskLevel (riskLevel : Json) : Result RiskLevel.t :=
  if falsy riskLevel then Ok RiskLevel.SAFE
  else match riskLevel with
       | str s =>
           let normalized := Unicode.toUpperCase s in
           if includes (RISK_LEVEL_CONFIG_keys ++ Object_prototype_keys) normalized
           then Ok (cast RiskLevel.name RiskLevel.all RiskLevel.SAFE normalized)
           else Ok RiskLevel.SAFE
       | _ => Throw (not_a_function "riskLevel")
       end.

(** The finding and the result with the properties that this module
    computes put in place of the typed ones. *)
Definition with_severity_category (severity' : Severity.t) (category' : Category.t)
    (finding : Finding) : Finding :=
  {| id := id finding; title := title finding;
     description := description finding;
     severity := severity'; category := category';
     cvssScore := cvssScore finding; location := location finding;
     remediation := remediation finding;
     remediationSteps := remediationSteps finding;
     references := references finding;
     fixPrompt := fixPrompt finding |}.

Definition with_findings_riskLevel (findings' : list Finding) (riskLevel' : RiskLevel.t)
    (result : ScanResult) : ScanResult :=
  {| scanId := scanId result; timestamp := timestamp result;
     durationSeconds := durationSeconds result;
     findings := findings';
     systemInfo := systemInfo result;
     overallRiskScore := overallRiskScore result;
     riskLevel := riskLevel';
     criticalCount := criticalCount result;
     highCount := highCount result;
     mediumCount := mediumCount result;
     lowCount := lowCount result;
     infoCount := infoCount result |}.

(** The typed normalizers, under names that the fields below do not
    hide. *)
Definition typed_normalizeFinding : Raw.Finding -> Finding := normalizeFinding.
Definition typed_normalizeScanResult : string -> Raw.ScanResult -> ScanResult :=
  normalizeScanResult.

(** A raw finding: its [severity] and [category] as they arrive, and
    its other properties ([others] is not read for these two). *)
Record RawFinding : Type := {
  severity : Json;
  category : Json;
  others : Raw.Finding
}.

(** A raw result: its [findings], [risk_level] and [riskLevel] as they
    arrive, and its other properties ([rest] is not read for these
    three). *)
Record RawScanResult : Type := {
  findings : option (list RawFinding);
  risk_level : Json;
  riskLevel : Json;
  rest : Raw.ScanResult
}.

(** The callback of [(raw.findings ?? []).map(...)]: the object literal
    is built property by property, [severity] before [category]; no
    other property can raise. *)
Definition normalizeFinding (f : RawFinding) : Result Finding :=
  match normalizeSeverity (severity f) with
  | Throw message => Throw message
  | Ok severity' =>
      match normalizeCategory (category f) with
      | Throw message => Throw message
      | Ok category' =>
          Ok (with_severity_category severity' category'
                (typed_normalizeFinding (others f)))
      end
  end.

(** [array.map(callback)] with a callback that may raise: the first
    exception ends the loop. *)
Fixpoint map_or_throw {A B : Type} (callback : A -> Result B) (array : list A)
    : Result (list B) :=
  match array with
  | [] => Ok []
  | x :: rest =>
      match callback x with
      | Throw message => Throw message
      | Ok y =>
          match map_or_throw callback rest with
          | Throw message => Throw message
          | Ok ys => Ok (y :: ys)
          end
      end
  end.

(** [normalizeScanResult(raw)]: the findings are normalized first, the
    risk level when the result object is built. *)
Definition normalizeScanResult (now : string) (raw : RawScanResult) : Result ScanResult :=
  match map_or_throw normalizeFinding (findings raw ??: []) with
  | Throw message => Throw message
  | Ok findings' =>
      match normalizeRiskLevelString
              (coalesce (coalesce (risk_level raw) (riskLevel raw))
                 (str (Unicode.of_string "safe"))) with
      | Throw message => Throw message
      | Ok riskLevel' =>
          Ok (with_findings_riskLevel findings' riskLevel'
                (typed_normalizeScanResult now (rest raw)))
      end
  end.




End Untyped.

(** ** Concrete inputs used in the examples below *)

Module Examples.

Definition raw_finding (id' severity' : string) : Raw.Finding :=
  {| Raw.id := Some id';
     Raw.title := None;
     Raw.description := None;
     Raw.severity := Some severity';
     Raw.category := None;
     Raw.cvss_score := None;
     Raw.location := None;
     Raw.remediation := None;
     Raw.remediation_steps := None;
     Raw.references := None;
     Raw.reference_links := None;
     Raw.cvssScore := None;
     Raw.remediationSteps := None |}.

(** A raw result that carries findings and nothing else: no [summary]
    and no count property. *)
Definition raw_with_findings (fs : list Raw.Finding) : Raw.ScanResult :=
  {| Raw.scan_id := None;
     Raw.timestamp := None;
     Raw.duration_seconds := None;
     Raw.findings := Some fs;
     Raw.system_info := None;
     Raw.overall_risk_score := None;
     Raw.risk_level := None;
     Raw.summary := None;
     Raw.scanId := None;
     Raw.durationSeconds := None;
     Raw.systemInfo := None;
     Raw.overallRiskScore := None;
     Raw.riskLevel := None;
     Raw.criticalCount := None;
     Raw.highCount := None;
     Raw.mediumCount := None;
     Raw.lowCount := None;
     Raw.infoCount := None |}.

Definition raw_one_high : Raw.ScanResult :=
  raw_with_findings [raw_finding "CLAWD-PORT-001" "high"].

(** A finding of the canonical model with the given id, title and
    severity. *)
Definition finding (id' title' : string) (severity' : Severity.t) : Finding :=
  {| id := id';
     title := title';
     description := "";
     severity := severity';
     category := Category.CONFIGURATION;
     cvssScore := 0;
     location := None;
     remediation := "";
     remediationSteps := [];
     references := None;
     fixPrompt := None |}.

(** A canonical result that holds the given findings. *)
Definition scan_result (fs : list Finding) : ScanResult :=
  {| scanId := "demo-001";
     timestamp := "2026-01-01T00:00:00.000Z";
     durationSeconds := 0;
     findings := fs;
     systemInfo :=
       {| platform := "linux"; platformDisplay := "Linux"; pythonVersion := "3.11";
          username := "user"; isAdmin := false; localIps := [] |};
     overallRiskScore := 0;
     riskLevel := RiskLevel.SAFE;
     criticalCount := Store.getCriticalCount fs;
     highCount := Store.getHighCount fs;
     mediumCount := Store.getMediumCount fs;
     lowCount := Store.getLowCount fs;
     infoCount := Store.getInfoCount fs |}.

(** A raw result of the backend, with a system description, a summary
    and one finding that carries a structured and a plain step. *)
Definition raw_backend : Raw.ScanResult :=
  {| Raw.scan_id := Some "scan-42";
     Raw.timestamp := Some "2026-01-01T00:00:00.000Z";
     Raw.duration_seconds := Some (25 # 10);
     Raw.findings :=
       Some [ {| Raw.id := Some "CLAWD-PORT-001";
                 Raw.title := Some "Gateway exposed";
                 Raw.description := None;
                 Raw.severity := Some "critical";
                 Raw.category := Some "port_exposure";
                 Raw.cvss_score := Some (95 # 10);
                 Raw.location := Some "0.0.0.0:18789";
                 Raw.remediation := None;
                 Raw.remediation_steps :=
                   Some (Raw.StepsArray
                           [ Raw.StepString "Run: moltbot config set bind 127.0.0.1";
                             Raw.StepObject
                               {| Raw.step := None;
                                  Raw.instruction := Some "Edit the config";
                                  Raw.code := None;
                                  Raw.file_path := Some "~/.moltbot/config.json";
                                  Raw.filePath := None |} ]);
                 Raw.references := Some ["https://docs.example/bind"];
                 Raw.reference_links := None;
                 Raw.cvssScore := None;
                 Raw.remediationSteps := None |} ];
     Raw.system_info :=
       Some {| Raw.platform := Some "linux";
               Raw.platform_display := Some "Linux";
               Raw.python_version := Some "3.11";
               Raw.username := None;
               Raw.is_admin := Some true;
               Raw.local_ips := Some ["192.168.1.10"];
               Raw.platformDisplay := None;
               Raw.pythonVersion := None;
               Raw.isAdmin := None;
               Raw.localIps := None |};
     Raw.overall_risk_score := Some (95 # 10);
     Raw.risk_level := Some "critical";
     Raw.summary :=
       Some {| Raw.critical_count := Some 1%Z; Raw.high_count := Some 0%Z;
               Raw.medium_count := Some 0%Z; Raw.low_count := Some 0%Z;
               Raw.info_count := None |};
     Raw.scanId := None;
     Raw.durationSeconds := None;
     Raw.systemInfo := None;
     Raw.overallRiskScore := None;
     Raw.riskLevel := None;
     Raw.criticalCount := None;
     Raw.highCount := None;
     Raw.mediumCount := None;
     Raw.lowCount := None;
     Raw.infoCount := None |}.




(** The string [C:\evil.html] of the export example, with one backslash. *)
Definition drive_path : string := "C:" ++ String "092" "evil.html".

End Examples.

(** * Properties *)

(** ** Characters and strings *)

Module JsFacts.
Import Js.

Lemma all_ascii_complete (c : ascii) : In c all_ascii.
Proof.
  unfold all_ascii. rewrite <- (ascii_nat_embedding c).
  apply List.in_map, List.in_seq.
  pose proof (nat_ascii_bounded c). lia.
Qed.

Lemma forall_ascii (P : ascii -> bool) :
  forallb P all_ascii = true -> forall c, P c = true.
Proof.
  intros H c. rewrite List.forallb_forall in H. apply H, all_ascii_complete.
Qed.

Lemma forall_ascii2 (P : ascii -> ascii -> bool) :
  forallb (fun a => forallb (P a) all_ascii) all_ascii = true ->
  forall a b, P a b = true.
Proof.
  intros H a b.
  apply (forall_ascii (P a)). apply (forall_ascii _ H).
Qed.

(** Comparing the upper-cased character with a character that upper-casing
    fixes is comparing up to case. *)
Lemma char_upper_eqb (a b : ascii) :
  char_toUpperCase b = b ->
  Ascii.eqb (char_toUpperCase a) b
  = Ascii.eqb (char_toLowerCase a) (char_toLowerCase b).
Proof.
  intros Hb.
  pose proof (forall_ascii2
    (fun a b =>
       implb (Ascii.eqb (char_toUpperCase b) b)
         (Bool.eqb (Ascii.eqb (char_toUpperCase a) b)
            (Ascii.eqb (char_toLowerCase a) (char_toLowerCase b))))
    ltac:(vm_compute; reflexivity) a b) as H.
  cbv beta in H. rewrite Hb, Ascii.eqb_refl in H. simpl in H.
  apply Bool.eqb_prop in H. exact H.
Qed.

Lemma toUpperCase_eqb (t s : string) :
  toUpperCase t = t ->
  String.eqb (toUpperCase s) t = eq_ignore_case s t.
Proof.
  unfold eq_ignore_case, toUpperCase, toLowerCase.
  revert t. induction s as [|a s IH]; intros [|b t] Ht; simpl in *; try reflexivity.
  injection Ht as Hb Ht.
  rewrite (char_upper_eqb a b Hb), (IH t Ht). reflexivity.
Qed.



End JsFacts.

(** ** Field normalization (severity, category, risk level) *)

Module NormalizerFacts.
Import Js JsFacts.



Ltac enum_names :=
  rewrite ?toUpperCase_eqb by reflexivity;
  repeat match goal with
         | |- context [eq_ignore_case ?s ?k] => destruct (eq_ignore_case s k)
         end;
  reflexivity.



Lemma normalizeRiskLevelString_match (s : string) :
  normalizeRiskLevelString s
  = match_ignoring_case RiskLevel.name RiskLevel.all RiskLevel.SAFE s.
Proof.
  cbv [normalizeRiskLevelString array_includes existsb RiskLevel.cast
       match_ignoring_case List.find RiskLevel.all RiskLevel.name].
  enum_names.
Qed.


End NormalizerFacts.

(** ** The two naming conventions normalize alike *)

Module ConventionFacts.
Import Convention.

Lemma imap_map_ext {A B C : Type} (f g : nat -> B -> C) (h1 h2 : A -> B) (l : list A) :
  (forall i x, f i (h1 x) = g i (h2 x)) ->
  imap f (map h1 l) = imap g (map h2 l).
Proof.
  revert f g. induction l as [|x l IH]; intros f g H; simpl; [reflexivity|].
  rewrite H. f_equal. apply IH. intros i y. apply H.
Qed.

Lemma normalizeRemediationSteps_conventions (steps : Raw.Steps) :
  normalizeRemediationSteps (steps_map step_toPrimary steps)
  = normalizeRemediationSteps (steps_map step_toAlternate steps).
Proof.
  destruct steps as [items|]; simpl; [|reflexivity].
  apply imap_map_ext. intros i [s|o]; [reflexivity|].
  destruct o as [st ins cd fp fp']. unfold normalizeStep. simpl.
  destruct fp; reflexivity.
Qed.

Lemma normalizeFinding_conventions (legacy_refs : bool) (f : Raw.Finding) :
  normalizeFinding (finding_toPrimary legacy_refs f)
  = normalizeFinding (finding_toAlternate f).
Proof.
  destruct f as [i t d sv ct cv loc rem steps refs links cv' steps'].
  unfold normalizeFinding, finding_toPrimary, finding_toAlternate. simpl.
  f_equal.
  - destruct cv; reflexivity.
  - destruct steps as [st|]; simpl; [|reflexivity].
    apply normalizeRemediationSteps_conventions.
  - destruct legacy_refs, refs; reflexivity.
Qed.

Lemma systemInfo_conventions (now : string) (c : Raw.ScanResult) :
  systemInfo (normalizeScanResult now (toPrimary true c))
  = systemInfo (normalizeScanResult now (toAlternate c)).
Proof.
  destruct c as [sid ts dur fs [i|] score level sm sid' dur' si' score' level' c1 c2 c3 c4 c5];
    simpl; [|reflexivity].
  destruct i as [p pd pv u a ips pd' pv' a' ips']. simpl.
  f_equal.
  - destruct p; reflexivity.
  - destruct pd; reflexivity.
  - destruct pv; reflexivity.
  - destruct u; reflexivity.
  - destruct a; reflexivity.
  - destruct ips; reflexivity.
Qed.

Lemma normalizeScanResult_conventions (legacy_refs : bool) (now : string)
    (c : Raw.ScanResult) :
  normalizeScanResult now (toPrimary legacy_refs c)
  = normalizeScanResult now (toAlternate c).
Proof.
  pose proof (systemInfo_conventions now c) as Hsys.
  destruct c as [sid ts dur fs si score level sm sid' dur' si' score' level' c1 c2 c3 c4 c5].
  unfold normalizeScanResult in *. simpl in *.
  f_equal.
  - destruct sid; reflexivity.
  - destruct dur; reflexivity.
  - destruct fs as [fs|]; simpl; [|reflexivity].
    rewrite !List.map_map. apply List.map_ext.
    intros f. apply normalizeFinding_conventions.
  - exact Hsys.
  - destruct score; reflexivity.
  - destruct level; reflexivity.
  - destruct sm as [[[] ? ? ? ?]|]; reflexivity.
  - destruct sm as [[? [] ? ? ?]|]; reflexivity.
  - destruct sm as [[? ? [] ? ?]|]; reflexivity.
  - destruct sm as [[? ? ? [] ?]|]; reflexivity.
  - destruct sm as [[? ? ? ? []]|]; reflexivity.
Qed.

End ConventionFacts.

(** C3: a raw result written in the primary convention (snake_case keys,
    the counts under [summary]) and the same content written in the
    alternate convention (camelCase keys, the counts at top level)
    normalize to the same canonical ScanResult; when the content carries
    a timestamp this holds whatever the clock shows at the two calls. *)
Theorem primary_and_alternate_normalize_alike :
  (forall legacy_refs now c,
      normalizeScanResult now (Convention.toPrimary legacy_refs c)
      = normalizeScanResult now (Convention.toAlternate c))
  /\ (forall legacy_refs now1 now2 t c,
        normalizeScanResult now1
          (Convention.toPrimary legacy_refs (Convention.with_timestamp t c))
        = normalizeScanResult now2
            (Convention.toAlternate (Convention.with_timestamp t c))).
Proof.
  split.
  - intros. apply ConventionFacts.normalizeScanResult_conventions.
  - intros legacy_refs now1 now2 t c.
    rewrite <- (ConventionFacts.normalizeScanResult_conventions legacy_refs now2).
    reflexivity.
Qed.

(** ** Severity counts *)

Module CountFacts.
Import Store.

Lemma tally_sums_to_length (fs : list Finding) :
  (getCriticalCount fs + getHighCount fs + getMediumCount fs
   + getLowCount fs + getInfoCount fs = Z.of_nat (length fs))%Z.
Proof.
  unfold getCriticalCount, getHighCount, getMediumCount, getLowCount,
    getInfoCount, count_severity.
  induction fs as [|f fs IH]; [reflexivity|].
  cbn [List.filter length]. destruct (severity f); cbn [Severity.eqb length]; lia.
Qed.

End CountFacts.

(** C2, as stated, fails: a raw result with one finding and no counts
    normalizes to a ScanResult whose five counts are all zero. *)
Lemma normalizeScanResult_counts_can_miss_findings :
  ~ (forall now raw,
       let r := normalizeScanResult now raw in
       (criticalCount r + highCount r + mediumCount r + lowCount r + infoCount r
        = Z.of_nat (length (findings r)))%Z).
Proof.
  intros H. specialize (H "" Examples.raw_one_high). discriminate H.
Qed.

(** C2, amended: [normalizeScanResult] does not tally.  Each count of its
    result is copied from the raw object ([summary.x_count], else
    [xCount], else 0) and its findings are the raw findings one for one,
    so the counts sum to the number of findings exactly when the supplied
    counts do.  The counts that the store derives from the findings
    themselves, each the number of findings of that severity, always sum
    to the number of findings. *)
Theorem counts_are_copied_and_store_tally_sums :
  (forall fs : list Finding,
      (Store.getCriticalCount fs + Store.getHighCount fs + Store.getMediumCount fs
       + Store.getLowCount fs + Store.getInfoCount fs = Z.of_nat (length fs))%Z)
  /\ (forall now raw,
        let r := normalizeScanResult now raw in
        criticalCount r
        = ((Raw.summary raw ≫= Raw.critical_count) ?? Raw.criticalCount raw ??: 0%Z)
        /\ highCount r
           = ((Raw.summary raw ≫= Raw.high_count) ?? Raw.highCount raw ??: 0%Z)
        /\ mediumCount r
           = ((Raw.summary raw ≫= Raw.medium_count) ?? Raw.mediumCount raw ??: 0%Z)
        /\ lowCount r
           = ((Raw.summary raw ≫= Raw.low_count) ?? Raw.lowCount raw ??: 0%Z)
        /\ infoCount r
           = ((Raw.summary raw ≫= Raw.info_count) ?? Raw.infoCount raw ??: 0%Z)
        /\ length (findings r) = length (Raw.findings raw ??: []))
  /\ (forall now raw,
        let r := normalizeScanResult now raw in
        (criticalCount r + highCount r + mediumCount r + lowCount r + infoCount r
         = Z.of_nat (length (findings r)))%Z
        <-> (((Raw.summary raw ≫= Raw.critical_count) ?? Raw.criticalCount raw ??: 0)
             + ((Raw.summary raw ≫= Raw.high_count) ?? Raw.highCount raw ??: 0)
             + ((Raw.summary raw ≫= Raw.medium_count) ?? Raw.mediumCount raw ??: 0)
             + ((Raw.summary raw ≫= Raw.low_count) ?? Raw.lowCount raw ??: 0)
             + ((Raw.summary raw ≫= Raw.info_count) ?? Raw.infoCount raw ??: 0)
             = Z.of_nat (length (Raw.findings raw ??: [])))%Z).
Proof.
  split; [exact CountFacts.tally_sums_to_length|]. split.
  - intros now raw. cbn. repeat split. apply List.length_map.
  - intros now raw. cbn. rewrite List.length_map. reflexivity.
Qed.

(** ** Remediation steps *)

Module StepFacts.
Import Js.











End StepFacts.




(** ** Sorting for the developer view *)

Module SortFacts.
Local Open Scope list_scope.

Section ByRank.

Context {A : Type} (rank : A -> Z).

(** Insertion passes the elements of smaller rank and stops in front of
    the first element of equal or greater rank. *)
Lemma sort_insert_partition (x : A) (before after : list A) :
  Forall (fun y => (rank y < rank x)%Z) before ->
  Forall (fun y => (rank x <= rank y)%Z) after ->
  sort_insert (compare_by rank) x (before ++ after) = before ++ x :: after.
Proof.
  intros Hb Ha. induction Hb as [|y before Hy Hb IH]; simpl.
  - destruct Ha as [|z after Hz Ha]; simpl; [reflexivity|].
    unfold compare_by. destruct (Z.leb_spec (rank x - rank z) 0); [reflexivity | lia].
  - unfold compare_by at 1. destruct (Z.leb_spec (rank x - rank y) 0); [lia|].
    rewrite IH. reflexivity.
Qed.

Lemma sort_insert_perm (x : A) (l : list A) :
  Permutation (sort_insert (compare_by rank) x l) (x :: l).
Proof.
  induction l as [|y l IH]; simpl; [reflexivity|].
  destruct (compare_by rank x y <=? 0)%Z; [reflexivity|].
  rewrite IH. apply perm_swap.
Qed.

Lemma array_sort_perm (l : list A) : Permutation (array_sort (compare_by rank) l) l.
Proof.
  induction l as [|x l IH]; simpl; [reflexivity|].
  rewrite sort_insert_perm. apply perm_skip, IH.
Qed.

Lemma sort_insert_sorted (x : A) (l : list A) :
  StronglySorted (fun a b => (rank a <= rank b)%Z) l ->
  StronglySorted (fun a b => (rank a <= rank b)%Z) (sort_insert (compare_by rank) x l).
Proof.
  induction 1 as [|y l Hl IH Hy]; simpl.
  - repeat constructor.
  - unfold compare_by at 1.
    destruct (Z.leb_spec (rank x - rank y) 0) as [Hle|Hgt].
    + constructor; [constructor; assumption|].
      constructor; [lia|].
      eapply List.Forall_impl; [|exact Hy]. simpl. intros; lia.
    + constructor; [exact IH|].
      rewrite sort_insert_perm. constructor; [lia | exact Hy].
Qed.

Lemma array_sort_sorted (l : list A) :
  StronglySorted (fun a b => (rank a <= rank b)%Z) (array_sort (compare_by rank) l).
Proof.
  induction l as [|x l IH]; simpl; [constructor | apply sort_insert_sorted, IH].
Qed.

End ByRank.

Lemma of_severity_rank (s : Severity.t) (fs : list Finding) :
  Forall (fun f => SEVERITY_PRIORITY (severity f) = SEVERITY_PRIORITY s)
    (of_severity s fs).
Proof.
  apply List.Forall_forall. intros f Hf. apply List.filter_In in Hf as [_ Hf].
  destruct (severity f), s; try discriminate; reflexivity.
Qed.

Ltac rank_side :=
  rewrite ?List.Forall_app; repeat split;
  first [ apply List.Forall_nil
        | (eapply List.Forall_impl; [|apply of_severity_rank]);
          cbn; intros; lia ].

Ltac place before after :=
  match goal with
  | P : forall b a, _ -> _ -> sort_insert _ _ (b ++ a) = _
    |- sort_insert _ _ ?L = _ =>
      replace L with (before ++ after)
        by (rewrite <- ?List.app_assoc; reflexivity);
      rewrite (P before after) by rank_side;
      rewrite <- ?List.app_assoc; reflexivity
  end.

(** Sorting by severity rank with a stable sort lays the five severity
    groups out in rank order, each in the order of the input. *)
Lemma array_sort_by_severity (fs : list Finding) :
  array_sort
    (fun a b => (SEVERITY_PRIORITY (severity a) - SEVERITY_PRIORITY (severity b))%Z) fs
  = of_severity Severity.CRITICAL fs ++ of_severity Severity.HIGH fs
    ++ of_severity Severity.MEDIUM fs ++ of_severity Severity.LOW fs
    ++ of_severity Severity.INFO fs.
Proof.
  induction fs as [|f fs IH]; [reflexivity|].
  cbn [array_sort fold_right]. fold (array_sort
    (fun a b => (SEVERITY_PRIORITY (severity a) - SEVERITY_PRIORITY (severity b))%Z) fs).
  rewrite IH. unfold of_severity at 6 7 8 9 10. cbn [List.filter].
  fold (of_severity Severity.CRITICAL fs) (of_severity Severity.HIGH fs)
    (of_severity Severity.MEDIUM fs) (of_severity Severity.LOW fs)
    (of_severity Severity.INFO fs).
  pose proof (sort_insert_partition (fun f => SEVERITY_PRIORITY (severity f)) f) as P.
  unfold compare_by in P. cbv beta in P.
  destruct (severity f) eqn:E; cbn [Severity.eqb].
  - place (@nil Finding)
      (of_severity Severity.CRITICAL fs ++ of_severity Severity.HIGH fs
       ++ of_severity Severity.MEDIUM fs ++ of_severity Severity.LOW fs
       ++ of_severity Severity.INFO fs).
  - place (of_severity Severity.CRITICAL fs)
      (of_severity Severity.HIGH fs ++ of_severity Severity.MEDIUM fs
       ++ of_severity Severity.LOW fs ++ of_severity Severity.INFO fs).
  - place (of_severity Severity.CRITICAL fs ++ of_severity Severity.HIGH fs)
      (of_severity Severity.MEDIUM fs ++ of_severity Severity.LOW fs
       ++ of_severity Severity.INFO fs).
  - place (of_severity Severity.CRITICAL fs ++ of_severity Severity.HIGH fs
           ++ of_severity Severity.MEDIUM fs)
      (of_severity Severity.LOW fs ++ of_severity Severity.INFO fs).
  - place (of_severity Severity.CRITICAL fs ++ of_severity Severity.HIGH fs
           ++ of_severity Severity.MEDIUM fs ++ of_severity Severity.LOW fs)
      (of_severity Severity.INFO fs).
Qed.

End SortFacts.

Module DevOrderFacts.
Local Open Scope list_scope.

Lemma filter_split_perm {A : Type} (p : A -> bool) (l : list A) :
  Permutation (List.filter p l ++ List.filter (fun x => negb (p x)) l) l.
Proof.
  induction l as [|x l IH]; simpl; [reflexivity|].
  destruct (p x); simpl.
  - apply perm_skip, IH.
  - rewrite <- Permutation_middle. apply perm_skip, IH.
Qed.

Lemma filter_all_true {A : Type} (p : A -> bool) (l : list A) :
  Forall (fun x => p x = true) (List.filter p l).
Proof.
  apply List.Forall_forall. intros x Hx. apply List.filter_In in Hx. tauto.
Qed.

(** In a list made of a block satisfying [p] followed by a block
    falsifying it, the first kind comes at smaller positions. *)
Lemma blocks_in_order {A : Type} (p : A -> bool) (first second : list A)
    (i j : nat) (x y : A) :
  Forall (fun x => p x = true) first ->
  Forall (fun x => p x = false) second ->
  (first ++ second) !! i = Some x -> (first ++ second) !! j = Some y ->
  p x = true -> p y = false -> i < j.
Proof.
  intros Hf Hs Hi Hj Hx Hy.
  destruct (Nat.lt_ge_cases i (length first)) as [Hlt|Hge].
  - destruct (Nat.lt_ge_cases j (length first)) as [Hlt'|Hge']; [|lia].
    rewrite lookup_app_l in Hj by exact Hlt'.
    pose proof (Forall_lookup_1 _ _ _ _ Hf Hj) as Hy'. simpl in Hy'. congruence.
  - rewrite lookup_app_r in Hi by exact Hge.
    pose proof (Forall_lookup_1 _ _ _ _ Hs Hi) as Hx'. simpl in Hx'. congruence.
Qed.

End DevOrderFacts.

(** C9, as stated, fails: a finding that bears the reserved id does not
    stand before all other findings when a finding with a priority title
    precedes it in the input; the two keep their order. *)
Lemma reserved_id_finding_can_follow_a_title_match :
  ~ (forall fs i j f g,
       sortFindingsForDevView fs !! i = Some f ->
       sortFindingsForDevView fs !! j = Some g ->
       id f = PRIORITY_FINDING_ID -> id g <> PRIORITY_FINDING_ID -> i < j).
Proof.
  intros H.
  pose (t := Examples.finding "CLAWD-CONFIG-007" "Gateway Not Configured" Severity.HIGH).
  pose (r := Examples.finding "CLAWD-INSTALL-001" "Moltbot" Severity.INFO).
  assert (E : sortFindingsForDevView [t; r] = [t; r]) by reflexivity.
  specialize (H [t; r] 1 0 r t). rewrite E in H.
  specialize (H eq_refl eq_refl eq_refl). simpl in H.
  assert (1 < 0) by (apply H; discriminate). lia.
Qed.

(** C9, amended: [sortFindingsForDevView] returns the priority findings
    first (the findings that bear the reserved id and, alike, those with
    a priority title), in the order of the input, followed by all
    remaining findings sorted by severity in the order CRITICAL, HIGH,
    MEDIUM, LOW, INFO (the five severity groups one after the other, each
    in the order of the input).  Hence every priority finding, and in
    particular every finding that bears the reserved id, stands before
    every finding that is not a priority finding, whatever the
    severities; nothing is lost or added. *)
Theorem sortFindingsForDevView_priority_first_then_by_severity (fs : list Finding) :
  exists priority sortedRegular : list Finding,
    sortFindingsForDevView fs = (priority ++ sortedRegular)%list
    /\ priority = List.filter isPriorityFinding fs
    /\ sortedRegular
       = flat_map
           (fun s => of_severity s (List.filter (fun f => negb (isPriorityFinding f)) fs))
           [Severity.CRITICAL; Severity.HIGH; Severity.MEDIUM; Severity.LOW;
            Severity.INFO]
    /\ (forall f, In f fs -> id f = PRIORITY_FINDING_ID -> In f priority)
    /\ Forall (fun f => isPriorityFinding f = true) priority
    /\ Forall (fun f => isPriorityFinding f = false) sortedRegular
    /\ StronglySorted
         (fun a b => (SEVERITY_PRIORITY (severity a) <= SEVERITY_PRIORITY (severity b))%Z)
         sortedRegular
    /\ Permutation (sortFindingsForDevView fs) fs
    /\ (forall i j f g,
          sortFindingsForDevView fs !! i = Some f ->
          sortFindingsForDevView fs !! j = Some g ->
          isPriorityFinding f = true -> isPriorityFinding g = false -> i < j).
Proof.
  set (regular := List.filter (fun f => negb (isPriorityFinding f)) fs).
  set (compare := fun a b : Finding =>
         (SEVERITY_PRIORITY (severity a) - SEVERITY_PRIORITY (severity b))%Z).
  assert (Hsort : array_sort compare regular
                  = flat_map (fun s => of_severity s regular)
                      [Severity.CRITICAL; Severity.HIGH; Severity.MEDIUM;
                       Severity.LOW; Severity.INFO]).
  { unfold compare. rewrite SortFacts.array_sort_by_severity.
    cbn [flat_map]. rewrite List.app_nil_r. reflexivity. }
  assert (Hperm : Permutation (array_sort compare regular) regular)
    by exact (SortFacts.array_sort_perm
                (fun f => SEVERITY_PRIORITY (severity f)) regular).
  assert (Hprio : Forall (fun f => isPriorityFinding f = true)
                    (List.filter isPriorityFinding fs))
    by apply DevOrderFacts.filter_all_true.
  assert (Hreg : Forall (fun f => isPriorityFinding f = false)
                   (array_sort compare regular)).
  { rewrite Hperm. apply List.Forall_forall. intros f Hf.
    apply List.filter_In in Hf as [_ Hf]. apply Bool.negb_true_iff, Hf. }
  exists (List.filter isPriorityFinding fs), (array_sort compare regular).
  split; [reflexivity|]. split; [reflexivity|]. split; [exact Hsort|].
  split.
  { intros f Hin Hid. apply List.filter_In. split; [exact Hin|].
    unfold isPriorityFinding. rewrite Hid, String.eqb_refl. reflexivity. }
  split; [exact Hprio|]. split; [exact Hreg|]. split.
  { exact (SortFacts.array_sort_sorted
             (fun f => SEVERITY_PRIORITY (severity f)) regular). }
  split.
  { unfold sortFindingsForDevView. fold regular. fold compare.
    rewrite Hperm. apply DevOrderFacts.filter_split_perm. }
  intros i j f g Hi Hj Hf Hg.
  exact (DevOrderFacts.blocks_in_order isPriorityFinding _ _ i j f g Hprio Hreg Hi Hj Hf Hg).
Qed.

(** ** Priority findings and the two views *)

Module PriorityFacts.
Import Js.

Lemma append_cons (c : ascii) (s t : string) :
  String c s ++ t = String c (s ++ t).
Proof. reflexivity. Qed.

Lemma substring_prefix (n : nat) (s t : string) :
  String.substring 0 n s = t -> String.length t = n -> exists post, s = t ++ post.
Proof.
  revert s t. induction n as [|n IH]; intros s t Hs Hlen.
  - destruct t; [|discriminate]. exists s. reflexivity.
  - destruct s as [|c s]; simpl in Hs; subst t; [discriminate|].
    simpl in Hlen. injection Hlen as Hlen.
    destruct (IH s _ eq_refl Hlen) as [post Hpost].
    exists post. rewrite append_cons. f_equal. exact Hpost.
Qed.

Lemma substring_occurs (m n : nat) (s t : string) :
  String.substring m n s = t -> String.length t = n -> contains t s.
Proof.
  revert s. induction m as [|m IH]; intros s Hs Hlen.
  - destruct (substring_prefix n s t Hs Hlen) as [post Hpost].
    exists "", post. exact Hpost.
  - destruct s as [|c s].
    + assert (t = "") by (destruct n; simpl in Hs; congruence). subst t.
      exists "", "". reflexivity.
    + simpl in Hs. destruct (IH s Hs Hlen) as (pre & post & E).
      exists (String c pre), post. rewrite append_cons. f_equal. exact E.
Qed.

Lemma substring_middle (pre t post : string) :
  String.substring (String.length pre) (String.length t) (pre ++ t ++ post) = t.
Proof.
  induction pre as [|c pre IH].
  - change ("" ++ t ++ post) with (t ++ post).
    induction t as [|c t IHt].
    + destruct post; reflexivity.
    + rewrite append_cons. cbn [String.length String.substring].
      f_equal. exact IHt.
  - rewrite append_cons. cbn [String.length String.substring]. exact IH.
Qed.

(** [includes] finds exactly the strings in which the needle occurs. *)
Lemma includes_contains (needle s : string) :
  needle <> "" -> includes needle s = true <-> contains needle s.
Proof.
  intros Hn. unfold includes.
  destruct (String.index 0 needle s) as [m|] eqn:E; split; intros H;
    try reflexivity; try discriminate.
  - apply (substring_occurs m (String.length needle)); [|reflexivity].
    apply (String.index_correct1 0 m needle s E).
  - destruct H as (pre & post & ->). exfalso.
    apply (String.index_correct3 0 (String.length pre) needle _ E Hn); [lia|].
    apply substring_middle.
Qed.

(** The classification, read off the definition of [isPriorityFinding]. *)
Lemma isPriorityFinding_iff (f : Finding) :
  isPriorityFinding f = true
  <-> id f = "CLAWD-INSTALL-001"
      \/ contains "not installed" (toLowerCase (title f))
      \/ contains "not configured" (toLowerCase (title f)).
Proof.
  unfold isPriorityFinding, PRIORITY_FINDING_ID.
  rewrite !Bool.orb_true_iff, String.eqb_eq.
  rewrite !includes_contains by discriminate. tauto.
Qed.

Lemma toLowerCase_append (a b : string) :
  toLowerCase (a ++ b) = toLowerCase a ++ toLowerCase b.
Proof.
  unfold toLowerCase. induction a as [|c a IH]; [reflexivity|].
  rewrite append_cons. cbn [map_chars]. rewrite IH. reflexivity.
Qed.

(** A phrase written in lower case that occurs in a title occurs in the
    lower-cased title. *)
Lemma contains_toLowerCase (phrase s : string) :
  toLowerCase phrase = phrase -> contains phrase s ->
  contains phrase (toLowerCase s).
Proof.
  intros Hp (pre & post & ->).
  exists (toLowerCase pre), (toLowerCase post).
  rewrite !toLowerCase_append, Hp. reflexivity.
Qed.

(** A group of [groupFindingsBySeverity] holds the findings of its
    severity, in the order of the input. *)
Lemma groupFindingsBySeverity_of_severity (fs : list Finding) (s : Severity.t) :
  groupFindingsBySeverity fs s = of_severity s fs.
Proof.
  unfold groupFindingsBySeverity.
  enough (H : forall groups : Groups,
             fold_left (fun groups finding =>
                          groups_push groups (severity finding) finding) fs groups s
             = (groups s ++ of_severity s fs)%list) by apply H.
  induction fs as [|f fs IH]; intros groups; simpl.
  - rewrite List.app_nil_r. reflexivity.
  - rewrite IH. unfold groups_push.
    destruct (severity f) eqn:Ef, s; cbn [Severity.eqb];
      rewrite <- ?List.app_assoc; reflexivity.
Qed.

End PriorityFacts.

Module ViewFacts.
Import View PriorityFacts.
Local Open Scope list_scope.

Lemma nonempty_of_In {A : Type} (x : A) (l : list A) :
  In x l -> (0 <? length l)%nat = true /\ (length l =? 0)%nat = false.
Proof. destruct l; [intros [] | intros _; split; reflexivity]. Qed.

Lemma map_fst_imap {A B : Type} (g : nat -> A -> B) (l : list A) :
  map fst (imap (fun i x => (x, g i x)) l) = l.
Proof.
  revert g. induction l as [|x l IH]; intros g; simpl; [reflexivity|].
  f_equal. apply (IH (fun i => g (S i))).
Qed.

Lemma DevFindingsDisplay_shows_priority_first (result : ScanResult)
    (filterSeverity : FilterSeverity) (f : Finding) :
  In f (filteredFindings filterSeverity (findings result)) ->
  isPriorityFinding f = true ->
  exists blocks,
    DevFindingsDisplay complete (Some result) filterSeverity = Some blocks
    /\ shown_ahead_of_groups f blocks.
Proof.
  intros Hin Hprio.
  set (filtered := filteredFindings filterSeverity (findings result)) in *.
  assert (Hp : In f (List.filter isPriorityFinding filtered))
    by (apply List.filter_In; split; assumption).
  destruct (nonempty_of_In _ _ Hp) as [Hlen _].
  eexists. split.
  - unfold DevFindingsDisplay. fold filtered. rewrite Hlen. reflexivity.
  - exists [Header; PriorityAlerts (List.filter isPriorityFinding filtered)].
    eexists. split; [reflexivity|]. split; [|split].
    + eexists. split; [right; left; reflexivity | exact Hp].
    + intros b [<-|[<-|[]]]; reflexivity.
    + intros b Hb Hf. apply List.in_app_or in Hb as [Hb|Hb].
      * unfold when in Hb. destruct (length filtered =? 0)%nat; [|destruct Hb].
        destruct Hb as [<-|[]]. exact Hf.
      * apply List.in_flat_map in Hb as (s & _ & Hb).
        rewrite groupFindingsBySeverity_of_severity in Hb.
        destruct (length _ =? 0)%nat; [destruct Hb|].
        destruct Hb as [<-|[]]. simpl in Hf.
        apply List.filter_In in Hf as [Hf _].
        apply List.filter_In in Hf as [_ Hf].
        rewrite Hprio in Hf. discriminate.
Qed.

Lemma UserFindingsDisplay_shows_priority_first (result : ScanResult)
    (filterSeverity : FilterSeverity) (f : Finding) :
  In f (filteredFindings filterSeverity (findings result)) ->
  isPriorityFinding f = true ->
  exists blocks,
    UserFindingsDisplay complete (Some result) filterSeverity = Some blocks
    /\ shown_ahead_of_groups f blocks.
Proof.
  intros Hin Hprio.
  set (filtered := filteredFindings filterSeverity (findings result)) in *.
  assert (Hp : In f (List.filter isPriorityFinding filtered))
    by (apply List.filter_In; split; assumption).
  destruct (nonempty_of_In _ _ Hp) as [Hlen _].
  destruct (nonempty_of_In _ _ Hin) as [_ Hne].
  eexists. split.
  - unfold UserFindingsDisplay. fold filtered. rewrite Hlen, Hne. reflexivity.
  - eexists [Header; PriorityInstallAlerts _]. eexists.
    split; [reflexivity|]. split; [|split].
    + eexists. split; [right; left; reflexivity|].
      cbn [alerts_of]. rewrite map_fst_imap. exact Hp.
    + intros b [<-|[<-|[]]]; reflexivity.
    + intros b Hb Hf.
      apply List.in_flat_map in Hb as (s & _ & Hb).
      destruct (length (List.filter _ _) =? 0)%nat; [destruct Hb|].
      destruct Hb as [<-|[]]. simpl in Hf.
      apply List.filter_In in Hf as [_ Hf].
      rewrite Hprio in Hf. discriminate.
Qed.

End ViewFacts.

(** C10: a finding is a priority finding exactly when its id is
    [CLAWD-INSTALL-001] or its lower-cased title contains [not installed]
    or [not configured].  Hence a finding whose title contains one of the
    two phrases, as written or in another case, whatever its id and
    severity, is displayed by both views (once a result is there, for
    every finding that passes the severity filter, so for every finding
    under the filter ALL) as a priority alert above all severity groups,
    and in none of the groups. *)
Theorem priority_by_id_or_title_and_shown_above_groups :
  (forall f,
      isPriorityFinding f = true
      <-> id f = "CLAWD-INSTALL-001"
          \/ Js.contains "not installed" (Js.toLowerCase (title f))
          \/ Js.contains "not configured" (Js.toLowerCase (title f)))
  /\ (forall f,
        Js.contains "not installed" (title f) \/ Js.contains "not configured" (title f) ->
        Js.contains "not installed" (Js.toLowerCase (title f))
        \/ Js.contains "not configured" (Js.toLowerCase (title f)))
  /\ (forall result filterSeverity f,
        In f (View.filteredFindings filterSeverity (findings result)) ->
        Js.contains "not installed" (Js.toLowerCase (title f))
        \/ Js.contains "not configured" (Js.toLowerCase (title f)) ->
        (exists blocks,
            View.DevFindingsDisplay View.complete (Some result) filterSeverity
            = Some blocks
            /\ View.shown_ahead_of_groups f blocks)
        /\ (exists blocks,
               View.UserFindingsDisplay View.complete (Some result) filterSeverity
               = Some blocks
               /\ View.shown_ahead_of_groups f blocks))
  /\ (forall result f,
        In f (findings result) ->
        Js.contains "not installed" (Js.toLowerCase (title f))
        \/ Js.contains "not configured" (Js.toLowerCase (title f)) ->
        (exists blocks,
            View.DevFindingsDisplay View.complete (Some result) View.ALL = Some blocks
            /\ View.shown_ahead_of_groups f blocks)
        /\ (exists blocks,
               View.UserFindingsDisplay View.complete (Some result) View.ALL
               = Some blocks
               /\ View.shown_ahead_of_groups f blocks)).
Proof.
  assert (Hviews : forall result filterSeverity f,
             In f (View.filteredFindings filterSeverity (findings result)) ->
             Js.contains "not installed" (Js.toLowerCase (title f))
             \/ Js.contains "not configured" (Js.toLowerCase (title f)) ->
             (exists blocks,
                 View.DevFindingsDisplay View.complete (Some result) filterSeverity
                 = Some blocks
                 /\ View.shown_ahead_of_groups f blocks)
             /\ (exists blocks,
                    View.UserFindingsDisplay View.complete (Some result) filterSeverity
                    = Some blocks
                    /\ View.shown_ahead_of_groups f blocks)).
  { intros result filterSeverity f Hin Htitle.
    assert (Hprio : isPriorityFinding f = true)
      by (apply PriorityFacts.isPriorityFinding_iff; tauto).
    split.
    - apply ViewFacts.DevFindingsDisplay_shows_priority_first; assumption.
    - apply ViewFacts.UserFindingsDisplay_shows_priority_first; assumption. }
  split; [exact PriorityFacts.isPriorityFinding_iff|]. split.
  { intros f [H|H]; [left | right];
      (apply PriorityFacts.contains_toLowerCase; [reflexivity | exact H]). }
  split; [exact Hviews|].
  intros result f Hin. apply (Hviews result View.ALL f Hin).
Qed.

Lemma priority_by_id_or_title_and_shown_above_groups_witness :
  let f := Examples.finding "CLAWD-CONFIG-007" "Gateway Not Configured" Severity.LOW in
  let g := Examples.finding "CLAWD-PORT-001" "Port exposed" Severity.CRITICAL in
  exists blocks,
    View.UserFindingsDisplay View.complete (Some (Examples.scan_result [g; f])) View.ALL
    = Some blocks
    /\ View.shown_ahead_of_groups f blocks.
Proof.
  intros f g.
  destruct priority_by_id_or_title_and_shown_above_groups as (_ & _ & _ & H).
  refine (proj2 (H (Examples.scan_result [g; f]) f _ _)).
  - right. left. reflexivity.
  - right. exists "gateway ", "". reflexivity.
Defined.

(** ** Validation of the module list *)

Module ValidationFacts.
Import Main.
Local Open Scope list_scope.

Lemma has_true (x : string) : has x = true <-> x ∈ ALLOWED_MODULES.
Proof. unfold has. apply bool_decide_eq_true. Qed.

Lemma has_false (x : string) : has x = false <-> x ∉ ALLOWED_MODULES.
Proof. unfold has. apply bool_decide_eq_false. Qed.

(** What a successful run of the loop says about its input. *)
Lemma validate_loop_Ok (items : list JsItem) (acc validated : list string) :
  validate_loop items acc = Ok validated ->
  exists ids,
    items = map JsString ids
    /\ validated = acc ++ map sanitize_module ids
    /\ Forall (fun m => sanitize_module m ∈ ALLOWED_MODULES) ids.
Proof.
  revert acc. induction items as [|[module|] items IH]; intros acc H; simpl in H.
  - injection H as <-. exists []. rewrite List.app_nil_r. repeat split. constructor.
  - destruct (has (sanitize_module module)) eqn:Hhas; [|discriminate].
    destruct (IH _ H) as (ids & -> & -> & Hall).
    exists (module :: ids). rewrite <- List.app_assoc. repeat split.
    constructor; [apply has_true, Hhas | exact Hall].
  - discriminate.
Qed.

(** The loop accepts a list of strings whose sanitized forms are allowed. *)
Lemma validate_loop_accepts (ids : list string) (acc : list string) :
  Forall (fun m => sanitize_module m ∈ ALLOWED_MODULES) ids ->
  validate_loop (map JsString ids) acc = Ok (acc ++ map sanitize_module ids).
Proof.
  intros H. revert acc. induction H as [|m ids Hm _ IH]; intros acc; simpl.
  - rewrite List.app_nil_r. reflexivity.
  - apply has_true in Hm. rewrite Hm, IH, <- List.app_assoc. reflexivity.
Qed.

(** The loop stops at the first string whose sanitized form is not
    allowed, with an error that names the sanitized form. *)
Lemma validate_loop_rejects (before : list string) (module : string)
    (after : list JsItem) (acc : list string) :
  Forall (fun m => sanitize_module m ∈ ALLOWED_MODULES) before ->
  sanitize_module module ∉ ALLOWED_MODULES ->
  validate_loop (map JsString before ++ JsString module :: after) acc
  = Throw ("Invalid module: " ++ sanitize_module module)%string.
Proof.
  intros H Hbad. revert acc. induction H as [|m ids Hm _ IH]; intros acc; simpl.
  - apply has_false in Hbad. rewrite Hbad. reflexivity.
  - apply has_true in Hm. rewrite Hm. apply IH.
Qed.

Lemma validateModules_Ok (modules : JsValue) (validated : list string) :
  validateModules modules = Ok validated ->
  exists ids,
    modules = JsArray (map JsString ids)
    /\ ids <> []
    /\ validated = map sanitize_module ids
    /\ Forall (fun m => m ∈ ALLOWED_MODULES) validated.
Proof.
  destruct modules as [items|]; [|discriminate]. unfold validateModules.
  destruct (validate_loop items []) as [v|] eqn:E; [|discriminate].
  destruct (validate_loop_Ok _ _ _ E) as (ids & -> & -> & Hall).
  destruct ids as [|m ids]; [discriminate|].
  cbn [length Nat.eqb app map]. intros H. injection H as <-.
  exists (m :: ids). repeat split; [discriminate|].
  apply (proj2 (List.Forall_map sanitize_module _ (m :: ids))). exact Hall.
Qed.

End ValidationFacts.

(** C6, as stated, fails: the id [P-O-R-T] is not in the whitelist, yet
    validation accepts it, as [port], and the scanner is spawned. *)
Lemma validateModules_coerces_an_id_outside_the_whitelist :
  ("P-O-R-T" ∉ Main.ALLOWED_MODULES)
  /\ Main.validateModules (Main.JsArray [Main.JsString "P-O-R-T"]) = Main.Ok ["port"]
  /\ Main.spawned
       (fst (Main.scanner_start (Some "python") Main.initial
               (Main.JsArray [Main.JsString "P-O-R-T"])))
     = [(0, ["port"])].
Proof.
  split; [|split].
  - apply ValidationFacts.has_false. vm_compute. reflexivity.
  - vm_compute. reflexivity.
  - vm_compute. reflexivity.
Qed.

(** C6, amended: every submitted id is first sanitized (lower-cased, all
    characters other than a-z, 0-9 and the underscore deleted) and the
    whitelist is applied to the sanitized form.  If the value is not an
    array, if an element is not a string, if the sanitized form of an id
    is outside the whitelist, or if the list is empty, validation raises
    a descriptive error (for an id: one that names its sanitized form),
    the start request is rejected and the main process is left as it was:
    no scanner process is spawned.  A scanner is spawned only with the
    sanitized ids, all of which are in the whitelist. *)
Theorem validateModules_rejects_unless_sanitized_ids_allowed :
  (forall before module after,
      Forall (fun m => Main.sanitize_module m ∈ Main.ALLOWED_MODULES) before ->
      Main.sanitize_module module ∉ Main.ALLOWED_MODULES ->
      Main.validateModules
        (Main.JsArray (map Main.JsString before ++ Main.JsString module :: after)%list)
      = Main.Throw ("Invalid module: " ++ Main.sanitize_module module))
  /\ (forall ids,
        ids <> [] ->
        Forall (fun m => Main.sanitize_module m ∈ Main.ALLOWED_MODULES) ids ->
        Main.validateModules (Main.JsArray (map Main.JsString ids))
        = Main.Ok (map Main.sanitize_module ids))
  /\ (forall modules validated,
        Main.validateModules modules = Main.Ok validated ->
        exists ids,
          modules = Main.JsArray (map Main.JsString ids)
          /\ ids <> []
          /\ validated = map Main.sanitize_module ids
          /\ Forall (fun m => m ∈ Main.ALLOWED_MODULES) validated)
  /\ Main.validateModules Main.JsOther
     = Main.Throw "Invalid input: modules must be an array"
  /\ Main.validateModules (Main.JsArray [])
     = Main.Throw "At least one valid module is required"
  /\ (forall pythonCommand st modules message,
        Main.validateModules modules = Main.Throw message ->
        Main.scanner_start pythonCommand st modules
        = (st, Main.Rejected ("Validation failed: " ++ message)))
  /\ (forall pythonCommand st modules,
        Main.spawned (fst (Main.scanner_start pythonCommand st modules))
        = Main.spawned st
        \/ exists validated,
             Main.validateModules modules = Main.Ok validated
             /\ Forall (fun m => m ∈ Main.ALLOWED_MODULES) validated
             /\ Main.spawned (fst (Main.scanner_start pythonCommand st modules))
                = (Main.spawned st ++ [(length (Main.spawned st), validated)])%list).
Proof.
  split; [|split; [|split; [|split; [|split; [|split]]]]].
  - intros before module after Hb Hbad. unfold Main.validateModules.
    rewrite ValidationFacts.validate_loop_rejects by assumption. reflexivity.
  - intros ids Hne Hall. unfold Main.validateModules.
    rewrite ValidationFacts.validate_loop_accepts by assumption.
    destruct ids; [congruence | reflexivity].
  - exact ValidationFacts.validateModules_Ok.
  - reflexivity.
  - reflexivity.
  - intros pythonCommand st modules message H.
    unfold Main.scanner_start. rewrite H. reflexivity.
  - intros pythonCommand st modules. unfold Main.scanner_start.
    destruct (Main.validateModules modules) as [validated|message] eqn:E;
      [|left; reflexivity].
    destruct pythonCommand; [|left; reflexivity].
    right. exists validated. split; [reflexivity|]. split; [|reflexivity].
    destruct (ValidationFacts.validateModules_Ok _ _ E) as (ids & _ & _ & _ & H).
    exact H.
Qed.

Lemma validateModules_rejects_unless_sanitized_ids_allowed_witness :
  Main.validateModules
    (Main.JsArray [Main.JsString "port"; Main.JsString "network; rm -rf /";
                   Main.JsString "config"])
  = Main.Throw "Invalid module: networkrmrf".
Proof.
  destruct validateModules_rejects_unless_sanitized_ids_allowed as (H & _).
  apply (H ["port"] "network; rm -rf /" [Main.JsString "config"]).
  - constructor; [|constructor]. apply ValidationFacts.has_true. reflexivity.
  - apply ValidationFacts.has_false. reflexivity.
Defined.

(** ** Scans in flight *)

Module ScanFacts.
Import Main.

Lemma handle_ids_spawned (py : option string) (st : State) (ev : Event) :
  ids_spawned st -> ids_spawned (fst (handle py st ev)).
Proof.
  unfold ids_spawned. intros H.
  destruct ev as [modules| |pid|pid]; simpl.
  - unfold scanner_start. destruct (validateModules modules); [|exact H].
    destruct py; [|exact H]. simpl. intros pid Hpid.
    rewrite List.length_app. simpl.
    apply elem_of_union in Hpid as [Hpid|Hpid].
    + apply elem_of_singleton in Hpid. lia.
    + specialize (H pid Hpid). lia.
  - unfold scanner_cancel. destruct (pythonProcess st); exact H.
  - simpl. intros p Hp. apply H. apply elem_of_difference in Hp. tauto.
  - simpl. intros p Hp. apply H. apply elem_of_difference in Hp. tauto.
Qed.

Lemma run_ids_spawned (py : option string) (evs : list Event) (st : State) :
  ids_spawned st -> ids_spawned (run py st evs).
Proof.
  revert st. induction evs as [|ev evs IH]; intros st H; simpl; [exact H|].
  apply IH, handle_ids_spawned, H.
Qed.

Lemma initial_ids_spawned : ids_spawned initial.
Proof. intros pid Hpid. simpl in Hpid. apply elem_of_empty in Hpid. tauto. Qed.

End ScanFacts.

(** ** Sanitization of the export file name *)

Module ExportFacts.
Import Js Main.

Lemma remove_chars_clean (p : ascii -> bool) (s : string) :
  string_forallb (fun c => negb (p c)) (remove_chars p s) = true.
Proof.
  induction s as [|c s IH]; simpl; [reflexivity|].
  destruct (p c) eqn:E; simpl; [exact IH|]. rewrite E, IH. reflexivity.
Qed.

Lemma substring_to_forallb (p : ascii -> bool) (n : nat) (s : string) :
  string_forallb p s = true -> string_forallb p (substring_to n s) = true.
Proof.
  unfold substring_to. revert s. induction n as [|n IH]; intros [|c s] H;
    simpl in *; try reflexivity.
  apply andb_prop in H as [Hc Hs]. rewrite Hc, (IH s Hs). reflexivity.
Qed.

Lemma substring_to_length (n : nat) (s : string) :
  String.length (substring_to n s) <= n.
Proof.
  unfold substring_to. revert s. induction n as [|n IH]; intros [|c s]; simpl;
    try lia. specialize (IH s). lia.
Qed.

(** Once the reserved characters are gone, the two later replace steps
    find nothing to replace: neither a colon nor a slash is left. *)
Lemma later_steps_change_nothing (s : string) :
  string_forallb (fun c => negb (is_reserved c)) s = true ->
  remove_drive_letter s = s /\ remove_leading_slash s = s.
Proof.
  intros H. destruct s as [|c [|c' s]]; simpl in *; try (split; reflexivity).
  - split; [reflexivity|].
    destruct (Ascii.eqb_spec c "/") as [->|]; [discriminate | reflexivity].
  - apply andb_prop in H as [Hc H]. apply andb_prop in H as [Hc' _]. split.
    + destruct (Ascii.eqb_spec c' ":") as [->|]; [discriminate|].
      rewrite Bool.andb_false_r. reflexivity.
    + destruct (Ascii.eqb_spec c "/") as [->|]; [discriminate | reflexivity].
Qed.

Lemma sanitize_filename_unfold (name : string) :
  sanitize_filename name
  = substring_to 255 (remove_chars is_reserved (remove_dotdot name)).
Proof.
  unfold sanitize_filename.
  pose proof (remove_chars_clean is_reserved (remove_dotdot name)) as H.
  destruct (later_steps_change_nothing _ H) as [Hd Hs].
  rewrite Hd, Hs. reflexivity.
Qed.

(** What the sanitization does achieve: no reserved character, hence no
    separator, no colon and no leading slash, and at most 255 characters. *)
Lemma validateExportOptions_characters (options : ExportOptions) :
  string_forallb (fun c => negb (is_reserved c)) (validateExportOptions options) = true
  /\ String.length (validateExportOptions options) <= 255
  /\ validateExportOptions options <> "".
Proof.
  destruct options as [[name|]|]; try (repeat split; [simpl; lia | discriminate]).
  unfold validateExportOptions.
  destruct (String.eqb_spec (sanitize_filename name) "") as [E|N]; simpl.
  - repeat split; [simpl; lia | discriminate].
  - destruct (String.eqb (trim (sanitize_filename name)) "").
    + repeat split; [simpl; lia | discriminate].
    + rewrite sanitize_filename_unfold in *. split; [|split].
      * apply substring_to_forallb, remove_chars_clean.
      * apply substring_to_length.
      * exact N.
Qed.

End ExportFacts.

(** C7, the behaviour of the code at the inputs where it departs from
    the claim: the file name [./.] is sanitized to [..], because the
    pairs of dots are removed before the slash between the two dots is;
    and of the drive prefix of [C:\evil.html] only the colon is removed,
    because the step that removes a drive letter looks for a colon that
    the step before it has already deleted, so that it never changes
    anything.  The traversal example of the claim is sanitized to
    [etcpasswd]. *)
Theorem validateExportOptions_keeps_dotdot_and_drive_letter :
  Main.validateExportOptions (Main.OptionsObject (Some "./.")) = ".."
  /\ Main.validateExportOptions (Main.OptionsObject (Some Examples.drive_path))
     = "Cevil.html"
  /\ Main.validateExportOptions (Main.OptionsObject (Some "../../etc/passwd"))
     = "etcpasswd"
  /\ (forall name,
        Main.remove_drive_letter (Js.remove_chars Main.is_reserved (Js.remove_dotdot name))
        = Js.remove_chars Main.is_reserved (Js.remove_dotdot name)).
Proof.
  split; [reflexivity|]. split; [reflexivity|]. split; [reflexivity|].
  intros name.
  apply ExportFacts.later_steps_change_nothing, ExportFacts.remove_chars_clean.
Qed.

(** ** The risk engine *)

Module RiskFacts.
Import RiskEngine.
Local Open Scope Q_scope.

Lemma clamp_bounds (x : Q) : 0 <= clamp x /\ clamp x <= 10.
Proof.
  unfold clamp.
  destruct (Q.max_spec 0 (Qmin x 10)) as [[? ->]|[? ->]];
    destruct (Q.min_spec x 10) as [[? E]|[? E]]; rewrite ?E in *; lra.
Qed.

(** The scoring routine multiplies the base score by the boost of the
    two flags and caps the product at 10. *)
Lemma calculate_risk_boost (f : Finding) :
  calculate_risk f == Qmin (cvss_score f * boost f) 10.
Proof.
  unfold calculate_risk, boost.
  destruct (is_publicly_exposed f), (requires_no_auth f);
    apply Q.min_compat; try reflexivity; ring.
Qed.

Lemma calculate_risk_le_10 (f : Finding) : calculate_risk f <= 10.
Proof. unfold calculate_risk. apply Q.le_min_r. Qed.

(** The top finding is one of the findings and carries the maximal score. *)
Lemma top_finding_max (rest : list Finding) (first : Finding) :
  In (top_finding first rest) (first :: rest)
  /\ forall g, In g (first :: rest) -> cvss_score g <= cvss_score (top_finding first rest).
Proof.
  revert first. induction rest as [|f rest IH]; intros first.
  - simpl. split; [left; reflexivity|]. intros g [<-|[]]. lra.
  - change (top_finding first (f :: rest)) with
      (top_finding
         (if Qle_bool (cvss_score f) (cvss_score first) then first else f) rest).
    destruct (Qle_bool (cvss_score f) (cvss_score first)) eqn:E.
    + apply Qle_bool_iff in E. destruct (IH first) as [Hin Hmax]. split.
      * destruct Hin as [Hin|Hin]; [left; exact Hin | right; right; exact Hin].
      * intros g [<-|[<-|Hg]].
        -- apply Hmax. left. reflexivity.
        -- apply Qle_trans with (cvss_score first); [exact E|].
           apply Hmax. left. reflexivity.
        -- apply Hmax. right. exact Hg.
    + assert (Hlt : cvss_score first < cvss_score f).
      { apply Qnot_le_lt. intros H. apply Qle_bool_iff in H. congruence. }
      destruct (IH f) as [Hin Hmax]. split.
      * destruct Hin as [Hin|Hin]; [right; left; exact Hin | right; right; exact Hin].
      * intros g [<-|[<-|Hg]].
        -- apply Qle_trans with (cvss_score f); [lra|]. apply Hmax. left. reflexivity.
        -- apply Hmax. left. reflexivity.
        -- apply Hmax. right. exact Hg.
Qed.

Lemma overallRiskScore_bounds (fs : list Finding) :
  0 <= overallRiskScore fs /\ overallRiskScore fs <= 10.
Proof. destruct fs; simpl; [lra | apply clamp_bounds]. Qed.

Ltac decide_le :=
  repeat match goal with
         | |- context [Qle_bool ?a ?b] =>
             let E := fresh "E" in
             destruct (Qle_bool a b) eqn:E;
             [apply Qle_bool_iff in E
             |assert (~ a <= b) by (rewrite <- Qle_bool_iff; congruence); clear E]
         end.

(** The thresholds of the risk level. *)
Lemma riskLevel_thresholds (score : Q) :
  (9 <= score -> riskLevel score = RiskLevel.CRITICAL)
  /\ (7 <= score -> score < 9 -> riskLevel score = RiskLevel.HIGH)
  /\ (4 <= score -> score < 7 -> riskLevel score = RiskLevel.MEDIUM)
  /\ (0 < score -> score < 4 -> riskLevel score = RiskLevel.LOW)
  /\ (score == 0 -> riskLevel score = RiskLevel.SAFE).
Proof.
  unfold riskLevel.
  repeat split; intros; decide_le; simpl; try reflexivity; lra.
Qed.

End RiskFacts.

(** C1: the risk engine maps the empty list to the score 0 and the level
    SAFE; for a non-empty list the score is the maximal cvss score of the
    findings, multiplied by 1.2 when the finding that carries it is
    publicly exposed and by 1.1 when it requires no authentication, and
    clamped to the interval from 0 to 10; the level follows from the
    score by the thresholds 9, 7, 4 and 0.  A single finding of score 8.0
    with both flags yields 10 and CRITICAL, one of score 9.5 with no flag
    yields 9.5 and CRITICAL. *)
Theorem risk_engine_score_and_level :
  RiskEngine.assess [] = (0%Q, RiskLevel.SAFE)
  /\ (forall first rest,
        exists top,
          In top (first :: rest)
          /\ (forall g, In g (first :: rest) ->
                        (RiskEngine.cvss_score g <= RiskEngine.cvss_score top)%Q)
          /\ (fst (RiskEngine.assess (first :: rest))
              == Qmax 0 (Qmin (RiskEngine.cvss_score top * RiskEngine.boost top) 10))%Q)
  /\ (forall findings,
        (0 <= fst (RiskEngine.assess findings) <= 10)%Q)
  /\ (forall findings,
        let score := fst (RiskEngine.assess findings) in
        let level := snd (RiskEngine.assess findings) in
        ((9 <= score)%Q -> level = RiskLevel.CRITICAL)
        /\ ((7 <= score)%Q -> (score < 9)%Q -> level = RiskLevel.HIGH)
        /\ ((4 <= score)%Q -> (score < 7)%Q -> level = RiskLevel.MEDIUM)
        /\ ((0 < score)%Q -> (score < 4)%Q -> level = RiskLevel.LOW)
        /\ ((score == 0)%Q -> level = RiskLevel.SAFE))
  /\ (forall f,
        (0 <= RiskEngine.cvss_score f)%Q ->
        (fst (RiskEngine.assess [f]) == RiskEngine.calculate_risk f)%Q)
  /\ (let f := {| RiskEngine.cvss_score := 8;
                  RiskEngine.is_publicly_exposed := true;
                  RiskEngine.requires_no_auth := true |} in
      (RiskEngine.calculate_risk f == Qmin (8 * (12 # 10) * (11 # 10)) 10)%Q
      /\ (fst (RiskEngine.assess [f]) == 10)%Q
      /\ snd (RiskEngine.assess [f]) = RiskLevel.CRITICAL)
  /\ (let f := {| RiskEngine.cvss_score := 95 # 10;
                  RiskEngine.is_publicly_exposed := false;
                  RiskEngine.requires_no_auth := false |} in
      (fst (RiskEngine.assess [f]) == 95 # 10)%Q
      /\ snd (RiskEngine.assess [f]) = RiskLevel.CRITICAL).
Proof.
  split; [reflexivity|]. split; [|split; [|split; [|split; [|split]]]].
  - intros first rest. exists (RiskEngine.top_finding first rest).
    destruct (RiskFacts.top_finding_max rest first) as [Hin Hmax].
    split; [exact Hin|]. split; [exact Hmax|].
    cbn [RiskEngine.assess RiskEngine.overallRiskScore fst]. unfold RiskEngine.clamp.
    apply Q.max_compat; [reflexivity|].
    rewrite Q.min_l by apply RiskFacts.calculate_risk_le_10.
    apply RiskFacts.calculate_risk_boost.
  - intros findings. apply RiskFacts.overallRiskScore_bounds.
  - intros findings. apply RiskFacts.riskLevel_thresholds.
  - intros f Hf. cbn [RiskEngine.assess RiskEngine.overallRiskScore fst
                      RiskEngine.top_finding fold_left].
    unfold RiskEngine.clamp.
    rewrite Q.min_l by apply RiskFacts.calculate_risk_le_10.
    apply Q.max_r.
    rewrite RiskFacts.calculate_risk_boost. apply Q.min_glb; [|lra].
    apply Qmult_le_0_compat; [exact Hf|].
    unfold RiskEngine.boost.
    destruct (RiskEngine.is_publicly_exposed f), (RiskEngine.requires_no_auth f); lra.
  - repeat split; vm_compute; reflexivity.
  - repeat split; vm_compute; reflexivity.
Qed.

Lemma risk_engine_score_and_level_witness :
  let f := {| RiskEngine.cvss_score := 8;
              RiskEngine.is_publicly_exposed := true;
              RiskEngine.requires_no_auth := true |} in
  (fst (RiskEngine.assess [f]) == RiskEngine.calculate_risk f)%Q.
Proof.
  intros f.
  destruct risk_engine_score_and_level as (_ & _ & _ & _ & H & _).
  apply (H f). simpl. lra.
Defined.

(** ** Worked examples *)

Example normalize_backend_result :
  let r := normalizeScanResult "now" (Convention.toPrimary true Examples.raw_backend) in
  r = normalizeScanResult "later" (Convention.toAlternate Examples.raw_backend)
  /\ Convention.toPrimary true Examples.raw_backend
     <> Convention.toAlternate Examples.raw_backend
  /\ scanId r = "scan-42"
  /\ riskLevel r = RiskLevel.CRITICAL
  /\ isAdmin (systemInfo r) = true
  /\ username (systemInfo r) = "unknown"
  /\ map severity (findings r) = [Severity.CRITICAL]
  /\ map category (findings r) = [Category.PORT_EXPOSURE]
  /\ map references (findings r) = [Some ["https://docs.example/bind"]]
  /\ map remediationSteps (findings r)
     = [[ {| step := 1; instruction := "Run";
             code := Some "moltbot config set bind 127.0.0.1"; filePath := None |};
          {| step := 2; instruction := "Edit the config"; code := None;
             filePath := Some "~/.moltbot/config.json" |} ]]
  /\ (criticalCount r, highCount r, mediumCount r, lowCount r, infoCount r)
     = (1, 0, 0, 0, 0)%Z.
Proof. repeat split; try reflexivity. discriminate. Qed.

Example sort_for_dev_view :
  let a := Examples.finding "CLAWD-PERM-002" "Config readable by all" Severity.LOW in
  let b := Examples.finding "CLAWD-PORT-001" "Gateway exposed" Severity.CRITICAL in
  let c := Examples.finding "CLAWD-INSTALL-001" "Moltbot" Severity.INFO in
  let d := Examples.finding "CLAWD-CONFIG-007" "Gateway Not Configured" Severity.HIGH in
  let e := Examples.finding "CLAWD-CRED-003" "API key in env" Severity.CRITICAL in
  sortFindingsForDevView [a; b; c; d; e] = [c; d; b; e; a].
Proof. reflexivity. Qed.

Example sanitize_export_names :
  Main.validateExportOptions (Main.OptionsObject (Some "my report <final>.html"))
  = "my report final.html"
  /\ Main.validateExportOptions (Main.OptionsObject (Some "/etc/../shadow")) = "etcshadow"
  /\ Main.validateExportOptions (Main.OptionsObject (Some "..")) = "report.html"
  /\ Main.validateExportOptions Main.OptionsOther = "report.html".
Proof. repeat split; reflexivity. Qed.

(** * Further properties of the code *)

(** ** The export request *)

Module ExportRequestFacts.
Import Js Main ExportRequest.

Lemma remove_dotdot_id (s : string) : no_dotdot s = true -> remove_dotdot s = s.
Proof.
  induction s as [|c s IH]; [reflexivity|]. destruct s as [|c' s]; [reflexivity|].
  cbn [no_dotdot remove_dotdot]. intros H. apply andb_prop in H as [Hc Hs].
  apply Bool.negb_true_iff in Hc. rewrite Hc. f_equal. apply IH, Hs.
Qed.

Lemma remove_chars_id (p : ascii -> bool) (s : string) :
  string_forallb (fun c => negb (p c)) s = true -> remove_chars p s = s.
Proof.
  induction s as [|c s IH]; simpl; [reflexivity|]. intros H.
  apply andb_prop in H as [Hc Hs]. apply Bool.negb_true_iff in Hc.
  rewrite Hc, (IH Hs). reflexivity.
Qed.

Lemma substring_to_id (n : nat) (s : string) :
  String.length s <= n -> substring_to n s = s.
Proof.
  unfold substring_to. revert s. induction n as [|n IH]; intros [|c s] H;
    simpl in *; try reflexivity; try lia.
  f_equal. apply IH. lia.
Qed.

End ExportRequestFacts.

(** X2: whatever the options, the file name that [validateExportOptions]
    returns holds none of the reserved characters (so no slash, no
    backslash and no colon), has at most 255 characters and is not blank. *)
Theorem validateExportOptions_returns_a_plain_name (options : Main.ExportOptions) :
  Js.string_forallb (fun c => negb (Main.is_reserved c))
    (Main.validateExportOptions options) = true
  /\ String.length (Main.validateExportOptions options) <= 255
  /\ Js.trim (Main.validateExportOptions options) <> "".
Proof.
  destruct (ExportFacts.validateExportOptions_characters options) as (Hc & Hl & _).
  split; [exact Hc|]. split; [exact Hl|].
  destruct options as [[name|]|]; try discriminate.
  unfold Main.validateExportOptions.
  destruct (String.eqb (Main.sanitize_filename name) ""); [discriminate|].
  cbn [orb].
  destruct (String.eqb_spec (Js.trim (Main.sanitize_filename name)) "") as [E|N];
    [discriminate | exact N].
Qed.

(** X3: a file name made of ASCII characters that holds no reserved
    character and no two dots in a row, has at most 255 characters and is
    not blank is returned as it is; the names that the export panel
    builds are of this kind. *)
Theorem validateExportOptions_keeps_a_plain_name (name : string) :
  Js.string_forallb ExportRequest.is_ascii name = true ->
  Js.string_forallb (fun c => negb (Main.is_reserved c)) name = true ->
  ExportRequest.no_dotdot name = true ->
  String.length name <= 255 ->
  Js.trim name <> "" ->
  Main.validateExportOptions (Main.OptionsObject (Some name)) = name.
Proof.
  intros _ Hc Hd Hl Hb. unfold Main.validateExportOptions.
  rewrite ExportFacts.sanitize_filename_unfold.
  rewrite (ExportRequestFacts.remove_dotdot_id name Hd).
  rewrite (ExportRequestFacts.remove_chars_id _ name Hc).
  rewrite (ExportRequestFacts.substring_to_id 255 name Hl).
  destruct (String.eqb_spec name "") as [->|_]; [exfalso; apply Hb; reflexivity|].
  destruct (String.eqb_spec (Js.trim name) "") as [E|_]; [contradiction|].
  reflexivity.
Qed.

Lemma validateExportOptions_keeps_a_plain_name_witness :
  Main.validateExportOptions
    (Main.OptionsObject (Some "clawd_security_report_2026-01-01.markdown"))
  = "clawd_security_report_2026-01-01.markdown".
Proof.
  apply validateExportOptions_keeps_a_plain_name.
  - reflexivity.
  - reflexivity.
  - reflexivity.
  - simpl. lia.
  - discriminate.
Defined.

(** ** The module list and the scanner processes, over whole runs *)

Module RunFacts.
Import Main MainState.
Local Open Scope list_scope.

Lemma allowed_module_cases (m : string) :
  m ∈ ALLOWED_MODULES ->
  m = "port" \/ m = "credential" \/ m = "config" \/ m = "process"
  \/ m = "permission" \/ m = "network" \/ m = "clawdbot".
Proof.
  unfold ALLOWED_MODULES. rewrite !elem_of_union, !elem_of_singleton. tauto.
Qed.

(** Sanitizing leaves the ids of the whitelist alone. *)
Lemma sanitize_allowed (m : string) :
  m ∈ ALLOWED_MODULES -> sanitize_module m = m.
Proof.
  intros H.
  destruct (allowed_module_cases m H) as [-> | [-> | [-> | [-> | [-> | [-> | ->]]]]]];
    reflexivity.
Qed.

Lemma map_sanitize_allowed (l : list string) :
  Forall (fun m => m ∈ ALLOWED_MODULES) l -> map sanitize_module l = l.
Proof.
  induction 1 as [|m l Hm _ IH]; simpl; [reflexivity|].
  rewrite (sanitize_allowed m Hm), IH. reflexivity.
Qed.

Lemma initial_well_formed : well_formed initial.
Proof.
  unfold well_formed, initial. simpl.
  split; [intros pid args []|]. split; [reflexivity|].
  split; [intros pid H; apply elem_of_empty in H; destruct H|].
  split; [intros pid H; apply elem_of_empty in H; destruct H|].
  discriminate.
Qed.

Lemma handle_well_formed (py : option string) (st : State) (ev : Event) :
  well_formed st -> well_formed (fst (handle py st ev)).
Proof.
  intros Hwf. pose proof Hwf as (Hargs & Hseq & Halive & Hsig & Htracked).
  destruct ev as [modules| |pid|pid]; simpl.
  - unfold scanner_start.
    destruct (validateModules modules) as [validated|] eqn:E; [|exact Hwf].
    destruct py as [cmd|]; [|exact Hwf].
    destruct (ValidationFacts.validateModules_Ok _ _ E) as (ids & _ & Hne & Hv & Hall).
    unfold well_formed. simpl. split; [|split; [|split; [|split]]].
    + intros pid args Hin. apply List.in_app_or in Hin as [Hin|[Hin|[]]].
      * apply (Hargs _ _ Hin).
      * injection Hin as _ <-. split; [|exact Hall].
        subst validated. destruct ids; [congruence | discriminate].
    + rewrite List.map_app, List.length_app, Hseq. simpl.
      rewrite Nat.add_1_r, List.seq_S. reflexivity.
    + intros pid Hpid. rewrite List.length_app. simpl.
      apply elem_of_union in Hpid as [Hpid|Hpid].
      * apply elem_of_singleton in Hpid. lia.
      * specialize (Halive _ Hpid). lia.
    + intros pid Hpid. rewrite List.length_app. simpl.
      specialize (Hsig _ Hpid). lia.
    + intros pid Hpid. injection Hpid as <-. rewrite List.length_app. simpl.
      split; [lia|]. split.
      * apply elem_of_union. left. apply elem_of_singleton. reflexivity.
      * intros Hin. specialize (Hsig _ Hin). lia.
  - unfold scanner_cancel. destruct (pythonProcess st) as [pid|] eqn:E;
      unfold well_formed; simpl.
    + split; [exact Hargs|]. split; [exact Hseq|]. split; [exact Halive|].
      split; [|discriminate].
      intros p Hp. apply elem_of_union in Hp as [Hp|Hp]; [|apply Hsig, Hp].
      apply elem_of_singleton in Hp. subst p.
      destruct (Htracked _ eq_refl) as (Hlen & _). lia.
    + exact Hwf.
  - unfold well_formed. simpl.
    split; [exact Hargs|]. split; [exact Hseq|]. split; [|split; [exact Hsig|discriminate]].
    intros p Hp. apply elem_of_difference in Hp as [Hp _]. apply Halive, Hp.
  - unfold well_formed. simpl.
    split; [exact Hargs|]. split; [exact Hseq|]. split; [|split; [exact Hsig|discriminate]].
    intros p Hp. apply elem_of_difference in Hp as [Hp _]. apply Halive, Hp.
Qed.

Lemma run_well_formed (py : option string) (evs : list Event) (st : State) :
  well_formed st -> well_formed (run py st evs).
Proof.
  revert st. induction evs as [|ev evs IH]; intros st H; simpl; [exact H|].
  apply IH, handle_well_formed, H.
Qed.

Lemma handle_orphan (py : option string) (pid : nat) (st : State) (ev : Event) :
  well_formed st -> orphan pid st -> orphan pid (fst (handle py st ev)).
Proof.
  intros (_ & _ & _ & _ & Htracked) Ho. pose proof Ho as (Hlt & Hne & Hsig).
  destruct ev as [modules| |p|p]; simpl.
  - unfold scanner_start. destruct (validateModules modules); [|exact Ho].
    destruct py; [|exact Ho]. unfold orphan. simpl.
    rewrite List.length_app. simpl. split; [lia|]. split; [|exact Hsig].
    intros E. injection E as E. lia.
  - unfold scanner_cancel. destruct (pythonProcess st) as [q|] eqn:E;
      unfold orphan; simpl.
    + split; [exact Hlt|]. split; [discriminate|].
      intros Hin. apply elem_of_union in Hin as [Hin|Hin]; [|exact (Hsig Hin)].
      apply elem_of_singleton in Hin. subst q. apply Hne. reflexivity.
    + exact Ho.
  - unfold orphan. simpl. split; [exact Hlt|]. split; [discriminate | exact Hsig].
  - unfold orphan. simpl. split; [exact Hlt|]. split; [discriminate | exact Hsig].
Qed.

Lemma run_orphan (py : option string) (pid : nat) (evs : list Event) (st : State) :
  well_formed st -> orphan pid st -> orphan pid (run py st evs).
Proof.
  revert st. induction evs as [|ev evs IH]; intros st Hwf H; simpl; [exact H|].
  apply IH; [apply handle_well_formed, Hwf | apply handle_orphan; assumption].
Qed.

End RunFacts.

(** C5: the code breaks the claim.  The start handler has no check of
    the scanner it already tracks: it neither rejects a start request
    nor cancels the running scan, it spawns one more scanner and
    overwrites the one handle [pythonProcess].  The renderer offers the
    clicks start, cancel, start in a row; after the three requests two
    scanner processes are alive (the first was sent SIGTERM and has not
    closed yet) and report through the same channel.  When the first one
    closes, its listener clears the handle of the second: the second
    scanner is alive and untracked, a cancel request returns false and
    sends nothing, and no later request or event ever signals it.  In
    general every accepted start request adds a scanner to those alive
    and signals none. *)
Theorem restart_after_cancel_runs_two_scanners :
  let clicks :=
    [ScanControls.ClickStart; ScanControls.ClickCancel; ScanControls.ClickStart] in
  let modules :=
    Main.JsArray
      (map Main.JsString
         ["port"; "credential"; "config"; "process"; "permission"; "network";
          "clawdbot"]) in
  let st :=
    Main.run (Some "python") Main.initial
      (ScanControls.requests ScanStore.getInitialState clicks) in
  let st' := Main.run (Some "python") st [Main.ChildClose 0] in
  ScanControls.all_offered ScanStore.getInitialState clicks = true
  /\ ScanControls.requests ScanStore.getInitialState clicks
     = [Main.ScannerStart modules; Main.ScannerCancel; Main.ScannerStart modules]
  /\ Main.alive st = {[ 0; 1 ]}
  /\ size (Main.alive st) = 2
  /\ Main.signalled st = {[ 0 ]}
  /\ Main.pythonProcess st = Some 1
  /\ Main.pythonProcess st' = None
  /\ Main.alive st' = {[ 1 ]}
  /\ Main.signalled st' = {[ 0 ]}
  /\ Main.handle (Some "python") st' Main.ScannerCancel = (st', Main.Returned false)
  /\ (forall later, 1 ∉ Main.signalled (Main.run (Some "python") st' later))
  /\ (forall cmd evs request validated,
        Main.validateModules request = Main.Ok validated ->
        let before := Main.run (Some cmd) Main.initial evs in
        let started := Main.scanner_start (Some cmd) before request in
        snd started = Main.Pending
        /\ Main.pythonProcess (fst started) = Some (length (Main.spawned before))
        /\ Main.alive (fst started)
           = {[ length (Main.spawned before) ]} ∪ Main.alive before
        /\ Main.signalled (fst started) = Main.signalled before
        /\ size (Main.alive (fst started)) = S (size (Main.alive before))).
Proof.
  intros clicks modules st st'.
  assert (Hst : st = {| Main.pythonProcess := Some 1;
                        Main.alive := {[ 0; 1 ]};
                        Main.signalled := {[ 0 ]};
                        Main.spawned :=
                          [(0, ["port"; "credential"; "config"; "process";
                                "permission"; "network"; "clawdbot"]);
                           (1, ["port"; "credential"; "config"; "process";
                                "permission"; "network"; "clawdbot"])] |}).
  { vm_compute. f_equal. }
  assert (Hst' : st' = {| Main.pythonProcess := None;
                          Main.alive := {[ 1 ]};
                          Main.signalled := {[ 0 ]};
                          Main.spawned := Main.spawned st |}).
  { unfold st'. rewrite Hst. vm_compute. f_equal. }
  split; [reflexivity|]. split; [reflexivity|].
  split; [rewrite Hst; reflexivity|].
  split; [rewrite Hst; reflexivity|].
  split; [rewrite Hst; reflexivity|].
  split; [rewrite Hst; reflexivity|].
  split; [rewrite Hst'; reflexivity|].
  split; [rewrite Hst'; reflexivity|].
  split; [rewrite Hst'; reflexivity|].
  split; [rewrite Hst'; reflexivity|].
  split.
  - intros later.
    assert (Hwf : MainState.well_formed st').
    { unfold st', st. apply RunFacts.run_well_formed, RunFacts.run_well_formed,
        RunFacts.initial_well_formed. }
    destruct (RunFacts.run_orphan (Some "python") 1 later st' Hwf) as (_ & _ & H);
      [|exact H].
    rewrite Hst', Hst. split; [simpl; lia|]. split; [discriminate|].
    simpl. intros H. apply elem_of_singleton in H. discriminate.
  - intros cmd evs request validated Hv before started.
    assert (Hids : Main.ids_spawned before)
      by apply ScanFacts.run_ids_spawned, ScanFacts.initial_ids_spawned.
    subst started. unfold Main.scanner_start. rewrite Hv. simpl.
    repeat split.
    rewrite size_union, size_singleton; [reflexivity|].
    intros pid Hpid Halive. apply elem_of_singleton in Hpid. subst pid.
    specialize (Hids _ Halive). lia.
Qed.

Lemma restart_after_cancel_runs_two_scanners_witness :
  let before :=
    Main.run (Some "python") Main.initial
      [Main.ScannerStart (Main.JsArray [Main.JsString "port"])] in
  let started :=
    Main.scanner_start (Some "python") before
      (Main.JsArray [Main.JsString "Network"]) in
  snd started = Main.Pending
  /\ size (Main.alive (fst started)) = S (size (Main.alive before)).
Proof.
  intros before started.
  destruct restart_after_cancel_runs_two_scanners
    as (_ & _ & _ & _ & _ & _ & _ & _ & _ & _ & _ & H).
  destruct (H "python" [Main.ScannerStart (Main.JsArray [Main.JsString "port"])]
              (Main.JsArray [Main.JsString "Network"]) ["network"] eq_refl)
    as (Hreply & _ & _ & _ & Hsize).
  split; [exact Hreply | exact Hsize].
Defined.

(** X4: a module list that passed validation passes it again unchanged:
    the validated ids are fixed by the sanitization, so handing them back
    to [validateModules] returns the same list. *)
Theorem validateModules_is_idempotent (modules : Main.JsValue)
    (validated : list string) :
  Main.validateModules modules = Main.Ok validated ->
  Main.validateModules (Main.JsArray (map Main.JsString validated))
  = Main.Ok validated.
Proof.
  intros H.
  destruct (ValidationFacts.validateModules_Ok _ _ H) as (ids & _ & Hne & Hv & Hall).
  assert (Hfix : map Main.sanitize_module validated = validated)
    by apply RunFacts.map_sanitize_allowed, Hall.
  unfold Main.validateModules.
  rewrite ValidationFacts.validate_loop_accepts.
  - rewrite Hfix. simpl. subst validated.
    destruct ids; [congruence | reflexivity].
  - eapply List.Forall_impl; [|exact Hall]. simpl. intros m Hm.
    rewrite (RunFacts.sanitize_allowed m Hm). exact Hm.
Qed.

Lemma validateModules_is_idempotent_witness :
  Main.validateModules (Main.JsArray [Main.JsString "port"; Main.JsString "clawdbot"])
  = Main.Ok ["port"; "clawdbot"].
Proof.
  exact (validateModules_is_idempotent
           (Main.JsArray [Main.JsString " Port "; Main.JsString "ClawdBot!"])
           ["port"; "clawdbot"] eq_refl).
Defined.

(** X5: after every sequence of start and cancel requests and of close
    and error events, whatever they carry: each scanner process was
    spawned with a non-empty list of whitelisted module ids; the process
    ids are 0, 1, 2, ... in the order of the spawns; only spawned
    processes are alive or signalled; and the tracked process, if there
    is one, is the process spawned last, is alive and was not signalled. *)
Theorem main_process_keeps_its_state_well_formed (pythonCommand : option string)
    (evs : list Main.Event) :
  let st := Main.run pythonCommand Main.initial evs in
  (forall pid args, In (pid, args) (Main.spawned st) ->
                    args <> [] /\ Forall (fun m => m ∈ Main.ALLOWED_MODULES) args)
  /\ map fst (Main.spawned st) = seq 0 (length (Main.spawned st))
  /\ (forall pid, pid ∈ Main.alive st -> pid < length (Main.spawned st))
  /\ (forall pid, pid ∈ Main.signalled st -> pid < length (Main.spawned st))
  /\ (forall pid, Main.pythonProcess st = Some pid ->
                  S pid = length (Main.spawned st)
                  /\ pid ∈ Main.alive st /\ pid ∉ Main.signalled st).
Proof.
  exact (RunFacts.run_well_formed pythonCommand evs Main.initial
           RunFacts.initial_well_formed).
Qed.

Lemma main_process_keeps_its_state_well_formed_witness :
  let st :=
    Main.run (Some "python") Main.initial
      [Main.ScannerStart (Main.JsArray [Main.JsString "port"; Main.JsString "config"])] in
  Main.pythonProcess st = Some 0
  /\ length (Main.spawned st) = 1
  /\ (0 ∈ Main.alive st)
  /\ (0 ∉ Main.signalled st).
Proof.
  intros st.
  destruct (main_process_keeps_its_state_well_formed (Some "python")
              [Main.ScannerStart
                 (Main.JsArray [Main.JsString "port"; Main.JsString "config"])])
    as (_ & _ & _ & _ & H).
  destruct (H 0 eq_refl) as (Hlen & Halive & Hsig).
  split; [reflexivity|]. split; [symmetry; exact Hlen|].
  split; [exact Halive | exact Hsig].
Defined.

(** X6: a scanner process that has lost the handle can never be
    cancelled.  Once a process of a reachable state is not the tracked
    one (a newer scan was started, or some child closed) and was not
    signalled, no later sequence of requests and events sends it a
    signal. *)
Theorem untracked_scanner_is_never_signalled (pythonCommand : option string)
    (before after : list Main.Event) (pid : nat) :
  let st := Main.run pythonCommand Main.initial before in
  pid < length (Main.spawned st) ->
  Main.pythonProcess st <> Some pid ->
  pid ∉ Main.signalled st ->
  pid ∉ Main.signalled (Main.run pythonCommand st after).
Proof.
  intros st Hlt Hne Hsig.
  assert (Hwf : MainState.well_formed st)
    by apply RunFacts.run_well_formed, RunFacts.initial_well_formed.
  destruct (RunFacts.run_orphan pythonCommand pid after st Hwf) as (_ & _ & H).
  - split; [exact Hlt|]. split; [exact Hne | exact Hsig].
  - exact H.
Qed.

Lemma untracked_scanner_is_never_signalled_witness :
  let modules := Main.JsArray [Main.JsString "port"] in
  let st :=
    Main.run (Some "python") Main.initial
      [Main.ScannerStart modules; Main.ScannerStart modules] in
  0 ∈ Main.alive st
  /\ (0 ∉ Main.signalled
            (Main.run (Some "python") st
               [Main.ScannerCancel; Main.ScannerCancel; Main.ChildClose 1;
                Main.ScannerCancel])).
Proof.
  intros modules st. split.
  - apply elem_of_union. right. apply elem_of_union. left.
    apply elem_of_singleton. reflexivity.
  - apply (untracked_scanner_is_never_signalled (Some "python")
             [Main.ScannerStart modules; Main.ScannerStart modules]).
    + vm_compute. lia.
    + vm_compute. discriminate.
    + intros H. apply elem_of_empty in H. exact H.
Defined.

(** ** The Python lookup *)

(** X7: the Python lookup runs once.  The first call of
    [getPythonCommand] decides the outcome of every later call, whatever
    the environment has become in between: a command found is reused
    without probing again, and a failed lookup keeps failing with the
    same error even after Python has been installed.  The first call
    fails exactly when none of py, python and python3 exits with status 0,
    and otherwise takes the first of them, in this order, that does. *)
Theorem getPythonCommand_probes_once :
  (forall first later cache outcome,
      Python.getPythonCommand first Python.PYTHON_NOT_CHECKED = (cache, outcome) ->
      Python.getPythonCommand later cache = (cache, outcome))
  /\ (forall spawnSync,
        snd (Python.getPythonCommand spawnSync Python.PYTHON_NOT_CHECKED)
        = Main.Throw Main.PYTHON_MISSING
        <-> forall cmd, In cmd Python.candidates ->
                        spawnSync cmd <> Python.Exited (Some 0%Z))
  /\ (forall spawnSync cmd,
        snd (Python.getPythonCommand spawnSync Python.PYTHON_NOT_CHECKED)
        = Main.Ok cmd ->
        exists earlier later,
          Python.candidates = (earlier ++ cmd :: later)%list
          /\ spawnSync cmd = Python.Exited (Some 0%Z)
          /\ forall c, In c earlier -> spawnSync c <> Python.Exited (Some 0%Z)).
Proof.
  assert (Hok : forall (spawnSync : string -> Python.Probe) (cmd : string),
             (match spawnSync cmd with
              | Python.Exited (Some status) => (status =? 0)%Z
              | _ => false
              end) = true <-> spawnSync cmd = Python.Exited (Some 0%Z)).
  { intros spawnSync cmd. destruct (spawnSync cmd) as [[status|]|]; split;
      try discriminate.
    - intros H. apply Z.eqb_eq in H. subst. reflexivity.
    - intros H. injection H as ->. reflexivity. }
  split; [|split].
  - intros first later cache outcome H. unfold Python.getPythonCommand in *.
    destruct (Python.findPythonExecutable first) as [cmd|];
      injection H as <- <-; reflexivity.
  - intros spawnSync. unfold Python.getPythonCommand, Python.findPythonExecutable.
    destruct (List.find _ Python.candidates) as [cmd|] eqn:E; simpl.
    + split; [discriminate|]. intros H. exfalso.
      apply List.find_some in E as [Hin Hcmd]. apply (H cmd Hin), Hok, Hcmd.
    + split; [|reflexivity]. intros _ cmd Hin Hcmd.
      pose proof (List.find_none _ _ E cmd Hin) as Hnone. cbv beta in Hnone.
      apply Hok in Hcmd. congruence.
  - intros spawnSync cmd. unfold Python.getPythonCommand, Python.findPythonExecutable.
    destruct (List.find _ Python.candidates) as [found|] eqn:E; simpl;
      [|discriminate].
    intros H. injection H as ->. revert E. unfold Python.candidates.
    cbn [List.find].
    destruct (spawnSync "py") as [[s1|]|] eqn:E1;
      destruct (spawnSync "python") as [[s2|]|] eqn:E2;
      destruct (spawnSync "python3") as [[s3|]|] eqn:E3;
      repeat match goal with
             | |- context [(?s =? 0)%Z] =>
                 destruct (Z.eqb_spec s 0); [subst s|]
             end;
      intros E; try discriminate E; injection E as <-;
      first
        [ exists [], ["python"; "python3"]; split; [reflexivity|];
          split; [assumption | intros c []]
        | exists ["py"], ["python3"]; split; [reflexivity|];
          split; [assumption|]; intros c [<-|[]]; congruence
        | exists ["py"; "python"], []; split; [reflexivity|];
          split; [assumption|]; intros c [<-|[<-|[]]]; congruence ].
Qed.

Lemma getPythonCommand_probes_once_witness :
  Python.getPythonCommand (fun _ => Python.Exited (Some 0%Z))
    (Python.Checked None)
  = (Python.Checked None, Main.Throw Main.PYTHON_MISSING).
Proof.
  destruct getPythonCommand_probes_once as (H & _).
  apply (H (fun _ => Python.Exited None)). reflexivity.
Defined.

(** ** The scan store *)

Module ScanStoreFacts.
Import ScanStore.
Local Open Scope list_scope.

Lemma progress_of_setProgress_nil (u : ScanProgress.t) (st : State) :
  progress st = [] -> progress (setProgress u st) = [u].
Proof. unfold setProgress. intros ->. reflexivity. Qed.

(** How [setProgress] acts on the first entry. *)
Lemma progress_of_setProgress_cons (u p : ScanProgress.t) (rest : list ScanProgress.t)
    (st : State) :
  progress st = p :: rest ->
  progress (setProgress u st)
  = if same_module u p then u :: rest
    else p :: progress (setProgress u (with_progress rest st)).
Proof.
  unfold setProgress, same_module. intros ->. cbn [findIndex].
  destruct (String.eqb (ScanProgress.module p) (ScanProgress.module u));
    [reflexivity|].
  cbn [progress with_progress].
  destruct (findIndex _ rest) as [i|]; reflexivity.
Qed.

Lemma setProgress_ind (P : list ScanProgress.t -> list ScanProgress.t -> Prop)
    (u : ScanProgress.t) :
  P [] [u] ->
  (forall p rest, same_module u p = true -> P (p :: rest) (u :: rest)) ->
  (forall p rest out, same_module u p = false -> P rest out ->
                      P (p :: rest) (p :: out)) ->
  forall st, P (progress st) (progress (setProgress u st)).
Proof.
  intros Hnil Hhit Hmiss st.
  remember (progress st) as l eqn:El. revert st El.
  induction l as [|p rest IH]; intros st El.
  - rewrite (progress_of_setProgress_nil u st (eq_sym El)). exact Hnil.
  - rewrite (progress_of_setProgress_cons u p rest st (eq_sym El)).
    destruct (same_module u p) eqn:E; [apply Hhit, E|].
    apply Hmiss; [exact E|]. apply (IH (with_progress rest st)). reflexivity.
Qed.

Lemma setProgress_NoDup (u : ScanProgress.t) (st : State) :
  List.NoDup (map ScanProgress.module (progress st)) ->
  List.NoDup (map ScanProgress.module (progress (setProgress u st))).
Proof.
  enough (H : (forall m,
                  In m (map ScanProgress.module (progress (setProgress u st))) ->
                  In m (map ScanProgress.module (progress st))
                  \/ m = ScanProgress.module u)
              /\ (List.NoDup (map ScanProgress.module (progress st)) ->
                  List.NoDup (map ScanProgress.module (progress (setProgress u st)))))
    by apply H.
  apply (setProgress_ind
           (fun l out =>
              (forall m, In m (map ScanProgress.module out) ->
                         In m (map ScanProgress.module l)
                         \/ m = ScanProgress.module u)
              /\ (List.NoDup (map ScanProgress.module l) ->
                  List.NoDup (map ScanProgress.module out)))).
  - split.
    + intros m [<-|[]]. right. reflexivity.
    + intros _. simpl. apply List.NoDup_cons; [intros [] | apply List.NoDup_nil].
  - intros p rest E. unfold same_module in E.
    apply String.eqb_eq in E. simpl. rewrite E. split.
    + intros m H. left. exact H.
    + intros H. exact H.
  - intros p rest out E [Hin Hnd]. unfold same_module in E.
    apply String.eqb_neq in E. simpl. split.
    + intros m [<-|H]; [left; left; reflexivity|].
      destruct (Hin m H) as [H'|H']; [left; right; exact H' | right; exact H'].
    + intros H. apply List.NoDup_cons_iff in H as [Hp Hrest].
      apply List.NoDup_cons; [|apply Hnd, Hrest].
      intros H. destruct (Hin _ H) as [H'|H']; [exact (Hp H') | exact (E H')].
Qed.

Lemma toggle_one_involutive (moduleId : string) (m : ScanModule.t) :
  toggle_one moduleId (toggle_one moduleId m) = m.
Proof.
  unfold toggle_one. destruct m as [i n d e]. simpl.
  destruct (String.eqb i moduleId) eqn:E; simpl; rewrite ?E;
    [rewrite Bool.negb_involutive|]; reflexivity.
Qed.

Lemma toggle_one_id (moduleId : string) (m : ScanModule.t) :
  ScanModule.id (toggle_one moduleId m) = ScanModule.id m.
Proof. unfold toggle_one. destruct (String.eqb _ _); reflexivity. Qed.

End ScanStoreFacts.

(** X8: [setProgress] keeps one entry per module.  After an update for a
    module, looking that module up gives the update; the entries of all
    other modules are found as before; the list grows by one entry when
    the module had none and keeps its length otherwise; and a list
    without two entries for one module stays so. *)
Theorem setProgress_replaces_or_appends (u : ScanProgress.t) (st : ScanStore.State) :
  ScanStore.find_progress (ScanProgress.module u) (ScanStore.setProgress u st) = Some u
  /\ (forall m, m <> ScanProgress.module u ->
                ScanStore.find_progress m (ScanStore.setProgress u st)
                = ScanStore.find_progress m st)
  /\ length (ScanStore.progress (ScanStore.setProgress u st))
     = match ScanStore.find_progress (ScanProgress.module u) st with
       | Some _ => length (ScanStore.progress st)
       | None => S (length (ScanStore.progress st))
       end
  /\ (List.NoDup (map ScanProgress.module (ScanStore.progress st)) ->
      List.NoDup (map ScanProgress.module (ScanStore.progress (ScanStore.setProgress u st)))).
Proof.
  unfold ScanStore.find_progress.
  split; [|split; [|split]].
  - apply (ScanStoreFacts.setProgress_ind
             (fun _ out =>
                List.find (fun p => String.eqb (ScanProgress.module p)
                                      (ScanProgress.module u)) out = Some u)).
    + simpl. rewrite String.eqb_refl. reflexivity.
    + intros p rest _. simpl. rewrite String.eqb_refl. reflexivity.
    + intros p rest out E H. simpl. unfold ScanStore.same_module in E.
      rewrite E. exact H.
  - intros m Hm.
    apply (ScanStoreFacts.setProgress_ind
             (fun l out =>
                List.find (fun p => String.eqb (ScanProgress.module p) m) out
                = List.find (fun p => String.eqb (ScanProgress.module p) m) l)).
    + simpl. destruct (String.eqb_spec (ScanProgress.module u) m); congruence.
    + intros p rest E. unfold ScanStore.same_module in E.
      apply String.eqb_eq in E. simpl. rewrite E.
      destruct (String.eqb_spec (ScanProgress.module u) m); congruence.
    + intros p rest out _ H. simpl. rewrite H. reflexivity.
  - apply (ScanStoreFacts.setProgress_ind
             (fun l out =>
                length out
                = match List.find (fun p => String.eqb (ScanProgress.module p)
                                              (ScanProgress.module u)) l with
                  | Some _ => length l
                  | None => S (length l)
                  end)).
    + reflexivity.
    + intros p rest E. unfold ScanStore.same_module in E. simpl. rewrite E.
      reflexivity.
    + intros p rest out E H. unfold ScanStore.same_module in E. simpl.
      rewrite E, H. destruct (List.find _ rest); reflexivity.
  - apply ScanStoreFacts.setProgress_NoDup.
Qed.

Lemma setProgress_replaces_or_appends_witness :
  let p :=
    {| ScanProgress.module := "port"; ScanProgress.status := ProgressStatus.in_progress;
       ScanProgress.percentage := None; ScanProgress.currentOperation := None |} in
  let q :=
    {| ScanProgress.module := "port"; ScanProgress.status := ProgressStatus.complete;
       ScanProgress.percentage := None; ScanProgress.currentOperation := None |} in
  List.NoDup (map ScanProgress.module
           (ScanStore.progress
              (ScanStore.setProgress q
                 (ScanStore.setProgress p ScanStore.getInitialState)))).
Proof.
  intros p q.
  destruct (setProgress_replaces_or_appends q
              (ScanStore.setProgress p ScanStore.getInitialState)) as (_ & _ & _ & H).
  apply H. simpl. apply List.NoDup_cons; [intros [] | apply List.NoDup_nil].
Defined.

(** X9: toggling a module twice gives the store back as it was; a toggle
    changes neither the ids nor the order of the modules, flips the
    enabled flag of the modules with the given id and leaves the other
    modules alone. *)
Theorem toggleModule_is_an_involution (moduleId : string) (st : ScanStore.State) :
  ScanStore.toggleModule moduleId (ScanStore.toggleModule moduleId st) = st
  /\ map ScanModule.id (ScanStore.modules (ScanStore.toggleModule moduleId st))
     = map ScanModule.id (ScanStore.modules st)
  /\ (forall (k : nat) (m : ScanModule.t),
        ScanStore.modules st !! k = Some m ->
        exists m',
          ScanStore.modules (ScanStore.toggleModule moduleId st) !! k = Some m'
          /\ ScanModule.id m' = ScanModule.id m
          /\ ScanModule.name m' = ScanModule.name m
          /\ ScanModule.description m' = ScanModule.description m
          /\ ScanModule.enabled m'
             = if String.eqb (ScanModule.id m) moduleId
               then negb (ScanModule.enabled m) else ScanModule.enabled m).
Proof.
  split; [|split].
  - destruct st as [s r f p ms e fs er]. unfold ScanStore.toggleModule. simpl.
    f_equal. rewrite List.map_map.
    rewrite <- (List.map_id ms) at 2. apply List.map_ext.
    apply ScanStoreFacts.toggle_one_involutive.
  - simpl. rewrite List.map_map. apply List.map_ext.
    apply ScanStoreFacts.toggle_one_id.
  - intros k m Hk. exists (ScanStore.toggle_one moduleId m). split.
    + simpl. change (map (ScanStore.toggle_one moduleId) (ScanStore.modules st))
        with (ScanStore.toggle_one moduleId <$> ScanStore.modules st).
      rewrite list_lookup_fmap, Hk. reflexivity.
    + unfold ScanStore.toggle_one.
      destruct (String.eqb (ScanModule.id m) moduleId); repeat split.
Qed.

Lemma toggleModule_is_an_involution_witness :
  let st := ScanStore.getInitialState in
  exists m',
    ScanStore.modules (ScanStore.toggleModule "credential" st) !! 1 = Some m'
    /\ ScanModule.id m' = "credential"
    /\ ScanModule.enabled m' = false.
Proof.
  intros st.
  destruct (toggleModule_is_an_involution "credential" st) as (_ & _ & H).
  destruct (H 1 _ eq_refl) as (m' & Hm' & Hid & _ & _ & Hen).
  exists m'. split; [exact Hm'|]. split; [exact Hid | exact Hen].
Defined.

(** X10: toggling a finding twice gives the set of expanded findings back
    as it was; one toggle expands the finding exactly when it was
    collapsed and touches no other finding. *)
Theorem toggleFinding_is_an_involution (findingId : string) (st : ScanStore.State) :
  ScanStore.toggleFinding findingId (ScanStore.toggleFinding findingId st) = st
  /\ (findingId ∈ ScanStore.expandedFindings (ScanStore.toggleFinding findingId st)
      <-> findingId ∉ ScanStore.expandedFindings st)
  /\ (forall other, other <> findingId ->
        (other ∈ ScanStore.expandedFindings (ScanStore.toggleFinding findingId st)
         <-> other ∈ ScanStore.expandedFindings st)).
Proof.
  assert (Hone : forall x (s : gset string),
             (x ∈ (if bool_decide (x ∈ s) then s ∖ {[ x ]} else s ∪ {[ x ]})
              <-> x ∉ s)
             /\ forall y, y <> x ->
                  (y ∈ (if bool_decide (x ∈ s) then s ∖ {[ x ]} else s ∪ {[ x ]})
                   <-> y ∈ s)).
  { intros x s. destruct (bool_decide (x ∈ s)) eqn:E.
    - apply bool_decide_eq_true in E. split.
      + rewrite elem_of_difference, elem_of_singleton. tauto.
      + intros y Hy. rewrite elem_of_difference, elem_of_singleton. tauto.
    - apply bool_decide_eq_false in E. split.
      + rewrite elem_of_union, elem_of_singleton. tauto.
      + intros y Hy. rewrite elem_of_union, elem_of_singleton. tauto. }
  split; [|split].
  - destruct st as [s r f p ms e fs er]. unfold ScanStore.toggleFinding. simpl.
    f_equal. apply set_eq. intros y.
    destruct (Hone findingId e) as [Hx Hy].
    destruct (Hone findingId
                (if bool_decide (findingId ∈ e) then e ∖ {[ findingId ]}
                 else e ∪ {[ findingId ]})) as [Hx' Hy'].
    destruct (decide (y = findingId)) as [->|Hne].
    + rewrite Hx', Hx. split; [apply dec_stable | tauto].
    + rewrite (Hy' y Hne), (Hy y Hne). reflexivity.
  - apply (Hone findingId (ScanStore.expandedFindings st)).
  - intros other Hne. apply (Hone findingId (ScanStore.expandedFindings st)), Hne.
Qed.

Lemma toggleFinding_is_an_involution_witness :
  let st := ScanStore.toggleFinding "demo-1" ScanStore.getInitialState in
  "demo-1" ∈ ScanStore.expandedFindings st
  /\ ("demo-2" ∈ ScanStore.expandedFindings (ScanStore.toggleFinding "demo-1" st)
      <-> "demo-2" ∈ ScanStore.expandedFindings st).
Proof.
  intros st. split.
  - destruct (toggleFinding_is_an_involution "demo-1" ScanStore.getInitialState)
      as (_ & H & _).
    apply H. intros Hin. apply elem_of_empty in Hin. exact Hin.
  - destruct (toggleFinding_is_an_involution "demo-1" st) as (_ & _ & H).
    apply (H "demo-2"). discriminate.
Defined.

Module StoreRunFacts.
Import ScanStore.
Local Open Scope list_scope.

Lemma initial_consistent : consistent getInitialState.
Proof.
  unfold consistent. simpl.
  split; [discriminate|]. split; [reflexivity|].
  split; [apply List.NoDup_nil | reflexivity].
Qed.

Lemma handle_consistent (st : State) (ev : Event) :
  consistent st -> consistent (handle st ev).
Proof.
  intros Hc. pose proof Hc as (Hres & Hfind & Hnd & Hids).
  destruct ev as [|message| |now result|u|moduleId|findingId|sev];
    unfold consistent; cbn [handle].
  - simpl. split; [discriminate|]. split; [exact Hfind|]. split; [exact Hnd|].
    exact Hids.
  - unfold setError. cbn [status scanResult findings progress modules].
    split; [|split; [exact Hfind|]; split; [exact Hnd | exact Hids]].
    destruct (truthy (Some message)); [discriminate | exact Hres].
  - apply initial_consistent.
  - simpl. split; [discriminate|]. split; [reflexivity|].
    split; [apply List.NoDup_nil | exact Hids].
  - split; [|split; [|split]].
    + unfold setProgress. destruct (findIndex _ _); exact Hres.
    + unfold setProgress. destruct (findIndex _ _); exact Hfind.
    + apply ScanStoreFacts.setProgress_NoDup, Hnd.
    + unfold setProgress. destruct (findIndex _ _); exact Hids.
  - unfold toggleModule. cbn [status scanResult findings progress modules].
    split; [exact Hres|]. split; [exact Hfind|]. split; [exact Hnd|].
    rewrite List.map_map, <- Hids. apply List.map_ext.
    apply ScanStoreFacts.toggle_one_id.
  - simpl. split; [exact Hres|]. split; [exact Hfind|]. split; [exact Hnd|].
    exact Hids.
  - simpl. split; [exact Hres|]. split; [exact Hfind|]. split; [exact Hnd|].
    exact Hids.
Qed.

Lemma fold_consistent (evs : list Event) (st : State) :
  consistent st -> consistent (fold_left handle evs st).
Proof.
  revert st. induction evs as [|ev evs IH]; intros st H; simpl; [exact H|].
  apply IH, handle_consistent, H.
Qed.

Lemma run_consistent (evs : list Event) : consistent (run evs).
Proof. apply fold_consistent, initial_consistent. Qed.

(** The ids of the default modules are the whitelist, each fixed by the
    sanitization. *)
Lemma enabled_ids_allowed (ms : list ScanModule.t) :
  map ScanModule.id ms = map ScanModule.id DEFAULT_MODULES ->
  Forall (fun m => m ∈ Main.ALLOWED_MODULES)
    (map ScanModule.id (List.filter ScanModule.enabled ms)).
Proof.
  intros H.
  assert (Hall : Forall (fun m => m ∈ Main.ALLOWED_MODULES) (map ScanModule.id ms)).
  { rewrite H. simpl.
    repeat (apply List.Forall_cons;
            [apply ValidationFacts.has_true; reflexivity|]).
    apply List.Forall_nil. }
  clear H. induction ms as [|m ms IH]; simpl in *; [apply List.Forall_nil|].
  apply List.Forall_cons_iff in Hall as [Hm Hrest].
  destruct (ScanModule.enabled m); simpl; [apply List.Forall_cons; [exact Hm|]|];
    apply IH, Hrest.
Qed.

End StoreRunFacts.

(** X11: in every state that the store reaches, the module list that a
    start request carries passes the validation of the main process
    unchanged; the only request that the main process refuses is the one
    with no module enabled, with the error that at least one module is
    required. *)
Theorem enabled_modules_pass_validation (evs : list ScanStore.Event) :
  let st := ScanStore.run evs in
  Main.validateModules (ScanStore.modules_sent st)
  = match ScanStore.getEnabledModules st with
    | [] => Main.Throw "At least one valid module is required"
    | ids => Main.Ok ids
    end.
Proof.
  intros st.
  destruct (StoreRunFacts.run_consistent evs) as (_ & _ & _ & Hids). fold st in Hids.
  pose proof (StoreRunFacts.enabled_ids_allowed _ Hids) as Hall.
  unfold ScanStore.modules_sent, ScanStore.getEnabledModules in *.
  set (ids := map ScanModule.id (List.filter ScanModule.enabled (ScanStore.modules st)))
    in *.
  unfold Main.validateModules.
  rewrite ValidationFacts.validate_loop_accepts.
  - rewrite (RunFacts.map_sanitize_allowed ids Hall). simpl.
    destruct ids; reflexivity.
  - eapply List.Forall_impl; [|exact Hall]. simpl. intros m Hm.
    rewrite (RunFacts.sanitize_allowed m Hm). exact Hm.
Qed.

(** X12: whatever happens in the Electron application (scans started,
    rejected and cancelled, results and progress updates arriving,
    modules, findings and the filter toggled, in any order): when the
    status is complete a result is there, so both finding views render
    exactly then; the findings of the store are those of the result (none
    without a result); no module has two progress entries; and the
    modules are the seven default ones, in their order. *)
Theorem store_stays_consistent (evs : list ScanStore.Event) :
  let st := ScanStore.run evs in
  (ScanStore.status st = View.complete -> ScanStore.scanResult st <> None)
  /\ (View.DevFindingsDisplay (ScanStore.status st) (ScanStore.scanResult st)
        (ScanStore.filterSeverity st) <> None
      <-> ScanStore.status st = View.complete)
  /\ (View.UserFindingsDisplay (ScanStore.status st) (ScanStore.scanResult st)
        (ScanStore.filterSeverity st) <> None
      <-> ScanStore.status st = View.complete)
  /\ ScanStore.findings st
     = match ScanStore.scanResult st with
       | Some result => findings result
       | None => []
       end
  /\ List.NoDup (map ScanProgress.module (ScanStore.progress st))
  /\ map ScanModule.id (ScanStore.modules st)
     = ["port"; "credential"; "config"; "process"; "permission"; "network";
        "clawdbot"].
Proof.
  intros st.
  destruct (StoreRunFacts.run_consistent evs) as (Hres & Hfind & Hnd & Hids).
  fold st in Hres, Hfind, Hnd, Hids.
  split; [exact Hres|]. split; [|split; [|split; [exact Hfind|split; [exact Hnd|exact Hids]]]].
  - unfold View.DevFindingsDisplay.
    destruct (ScanStore.status st) eqn:Es; try (split; [congruence | discriminate]).
    destruct (ScanStore.scanResult st); [split; [reflexivity | discriminate]|].
    exfalso. apply Hres; reflexivity.
  - unfold View.UserFindingsDisplay.
    destruct (ScanStore.status st) eqn:Es; try (split; [congruence | discriminate]).
    destruct (ScanStore.scanResult st); [split; [reflexivity | discriminate]|].
    exfalso. apply Hres; reflexivity.
Qed.

Lemma store_stays_consistent_witness :
  let st :=
    ScanStore.run
      [ScanStore.StartScan;
       ScanStore.OnResult "2026-01-01T00:00:00.000Z" Examples.raw_backend] in
  ScanStore.status st = View.complete /\ ScanStore.scanResult st <> None.
Proof.
  intros st.
  destruct (store_stays_consistent
              [ScanStore.StartScan;
               ScanStore.OnResult "2026-01-01T00:00:00.000Z" Examples.raw_backend])
    as (H & _).
  split; [reflexivity | apply H; reflexivity].
Defined.

(** ** Grouping, sorting and what the views display *)

Module DisplayFacts.
Import View Display.
Local Open Scope list_scope.

Lemma filter_comm {A : Type} (p q : A -> bool) (l : list A) :
  List.filter p (List.filter q l) = List.filter q (List.filter p l).
Proof.
  induction l as [|x l IH]; simpl; [reflexivity|].
  destruct (q x) eqn:Eq, (p x) eqn:Ep; simpl; rewrite ?Eq, ?Ep, IH; reflexivity.
Qed.

Lemma filter_none {A : Type} (p : A -> bool) (l : list A) :
  Forall (fun x => p x = false) l -> List.filter p l = [].
Proof.
  induction 1 as [|x l Hx _ IH]; simpl; [reflexivity|]. rewrite Hx. exact IH.
Qed.

Lemma filter_all {A : Type} (p : A -> bool) (l : list A) :
  Forall (fun x => p x = true) l -> List.filter p l = l.
Proof.
  induction 1 as [|x l Hx _ IH]; simpl; [reflexivity|]. rewrite Hx, IH. reflexivity.
Qed.

Lemma filter_regular_all_false (l : list Finding) :
  Forall (fun f => isPriorityFinding f = false)
    (List.filter (fun f => negb (isPriorityFinding f)) l).
Proof.
  apply List.Forall_forall. intros f Hf. apply List.filter_In in Hf as [_ Hf].
  apply Bool.negb_true_iff, Hf.
Qed.

(** A list that is sorted by rank is left as it is by the sort. *)
Lemma array_sort_of_sorted {A : Type} (rank : A -> Z) (l : list A) :
  StronglySorted (fun a b => (rank a <= rank b)%Z) l ->
  array_sort (compare_by rank) l = l.
Proof.
  induction 1 as [|x l Hl IH Hx]; [reflexivity|].
  cbn [array_sort fold_right]. fold (array_sort (compare_by rank) l). rewrite IH.
  destruct Hx as [|y l' Hy _]; simpl; [reflexivity|].
  unfold compare_by. destruct (Z.leb_spec (rank x - rank y) 0); [reflexivity | lia].
Qed.

Lemma displayed_app (a b : list Block) : displayed (a ++ b) = displayed a ++ displayed b.
Proof. apply List.flat_map_app. Qed.

Lemma displayed_alerts (alerts : list Finding) :
  displayed (when (0 <? length alerts)%nat (PriorityAlerts alerts)) = alerts.
Proof. destruct alerts; simpl; rewrite ?List.app_nil_r; reflexivity. Qed.

Lemma displayed_install_alerts (fs : list Finding) (alerts : list (Finding * bool)) :
  map fst alerts = fs ->
  displayed (when (0 <? length fs)%nat (PriorityInstallAlerts alerts)) = fs.
Proof. intros <-. destruct alerts; simpl; rewrite ?List.app_nil_r; reflexivity. Qed.

Lemma displayed_message (cond : bool) : displayed (when cond NoFindingsMessage) = [].
Proof. destruct cond; reflexivity. Qed.

Lemma displayed_group (s : Severity.t) (items : list Finding) :
  displayed (if (length items =? 0)%nat then [] else [SeverityGroup s items]) = items.
Proof. destruct items; simpl; rewrite ?List.app_nil_r; reflexivity. Qed.

Lemma displayed_groups (group : Severity.t -> list Finding) (order : list Severity.t) :
  displayed
    (flat_map (fun s => if (length (group s) =? 0)%nat then []
                        else [SeverityGroup s (group s)]) order)
  = flat_map group order.
Proof.
  induction order as [|s order IH]; [reflexivity|].
  cbn [flat_map]. rewrite displayed_app, displayed_group, IH. reflexivity.
Qed.

Lemma sorted_regular (regular : list Finding) :
  flat_map (fun s => of_severity s regular) SEVERITY_ORDER
  = array_sort
      (fun a b => (SEVERITY_PRIORITY (severity a) - SEVERITY_PRIORITY (severity b))%Z)
      regular.
Proof.
  rewrite SortFacts.array_sort_by_severity. cbn [flat_map SEVERITY_ORDER].
  rewrite List.app_nil_r. reflexivity.
Qed.

Lemma DevFindingsDisplay_displayed (result : ScanResult) (filterSeverity : FilterSeverity) :
  displayed <$> DevFindingsDisplay complete (Some result) filterSeverity
  = Some (sortFindingsForDevView (filteredFindings filterSeverity (findings result))).
Proof.
  unfold DevFindingsDisplay, sortFindingsForDevView. cbn [fmap option_fmap option_map].
  f_equal. rewrite !displayed_app, displayed_alerts, displayed_message.
  rewrite (displayed_groups (groupFindingsBySeverity _)).
  cbn [displayed flat_map alerts_of group_items_of app]. f_equal.
  rewrite <- sorted_regular. apply List.flat_map_ext. intros s.
  apply PriorityFacts.groupFindingsBySeverity_of_severity.
Qed.

Lemma UserFindingsDisplay_displayed (result : ScanResult) (filterSeverity : FilterSeverity) :
  displayed <$> UserFindingsDisplay complete (Some result) filterSeverity
  = Some (sortFindingsForDevView (filteredFindings filterSeverity (findings result))).
Proof.
  unfold UserFindingsDisplay, sortFindingsForDevView. cbn [fmap option_fmap option_map].
  f_equal. rewrite !displayed_app, displayed_message.
  rewrite displayed_install_alerts by apply ViewFacts.map_fst_imap.
  rewrite (displayed_groups
             (fun s => List.filter (fun f => negb (isPriorityFinding f))
                         (groupFindingsBySeverity _ s))).
  cbn [displayed flat_map alerts_of group_items_of app]. f_equal.
  rewrite <- sorted_regular. apply List.flat_map_ext. intros s.
  rewrite PriorityFacts.groupFindingsBySeverity_of_severity.
  unfold of_severity. apply filter_comm.
Qed.

End DisplayFacts.

(** X13: [groupFindingsBySeverity] sorts the findings into the five
    groups without losing, adding or reordering any: the group of a
    severity is the list of the findings of that severity, in the order
    of the input; hence every member of a group has the severity of the
    group, and the five groups together are a rearrangement of the
    input. *)
Theorem groupFindingsBySeverity_partitions (fs : list Finding) :
  (forall s, groupFindingsBySeverity fs s
             = List.filter (fun f => Severity.eqb (severity f) s) fs)
  /\ (forall s f, In f (groupFindingsBySeverity fs s) -> severity f = s)
  /\ Permutation (flat_map (groupFindingsBySeverity fs) Severity.all) fs.
Proof.
  split; [|split].
  - intros s. apply PriorityFacts.groupFindingsBySeverity_of_severity.
  - intros s f Hf. rewrite PriorityFacts.groupFindingsBySeverity_of_severity in Hf.
    apply List.filter_In in Hf as [_ Hf].
    destruct (severity f), s; try discriminate; reflexivity.
  - rewrite (List.flat_map_ext _ (fun s => of_severity s fs))
      by (intros s; apply PriorityFacts.groupFindingsBySeverity_of_severity).
    change Severity.all with View.SEVERITY_ORDER.
    rewrite DisplayFacts.sorted_regular.
    exact (SortFacts.array_sort_perm (fun f => SEVERITY_PRIORITY (severity f)) fs).
Qed.

Lemma groupFindingsBySeverity_partitions_witness :
  let high := Examples.finding "demo-2" "Keys In Plain Text" Severity.HIGH in
  let fs := [Examples.finding "demo-1" "Gateway Exposed" Severity.CRITICAL; high] in
  In high (groupFindingsBySeverity fs Severity.HIGH) /\ severity high = Severity.HIGH.
Proof.
  intros high fs.
  destruct (groupFindingsBySeverity_partitions fs) as (_ & H & _).
  assert (Hin : In high (groupFindingsBySeverity fs Severity.HIGH))
    by (left; reflexivity).
  split; [exact Hin | exact (H Severity.HIGH high Hin)].
Defined.

(** X14: sorting for the developer view a list that is already sorted
    for it changes nothing. *)
Theorem sortFindingsForDevView_is_idempotent (fs : list Finding) :
  sortFindingsForDevView (sortFindingsForDevView fs) = sortFindingsForDevView fs.
Proof.
  unfold sortFindingsForDevView at 2.
  set (priority := List.filter isPriorityFinding fs).
  set (regular := List.filter (fun f => negb (isPriorityFinding f)) fs).
  set (rank := fun f : Finding => SEVERITY_PRIORITY (severity f)).
  change (fun a b : Finding =>
            (SEVERITY_PRIORITY (severity a) - SEVERITY_PRIORITY (severity b))%Z)
    with (compare_by rank).
  set (sorted := array_sort (compare_by rank) regular).
  assert (Hp : Forall (fun f => isPriorityFinding f = true) priority)
    by apply DevOrderFacts.filter_all_true.
  assert (Hs : Forall (fun f => isPriorityFinding f = false) sorted).
  { unfold sorted. rewrite (SortFacts.array_sort_perm rank regular).
    apply DisplayFacts.filter_regular_all_false. }
  unfold sortFindingsForDevView. rewrite !List.filter_app.
  rewrite (DisplayFacts.filter_all _ _ Hp), (DisplayFacts.filter_none _ _ Hs).
  rewrite (DisplayFacts.filter_none (fun f => negb (isPriorityFinding f)) priority),
          (DisplayFacts.filter_all (fun f => negb (isPriorityFinding f)) sorted).
  - rewrite List.app_nil_r. cbn [app]. f_equal.
    change (fun a b : Finding =>
              (SEVERITY_PRIORITY (severity a) - SEVERITY_PRIORITY (severity b))%Z)
      with (compare_by rank).
    apply DisplayFacts.array_sort_of_sorted. apply SortFacts.array_sort_sorted.
  - eapply List.Forall_impl; [|exact Hs]. cbv beta. intros f ->. reflexivity.
  - eapply List.Forall_impl; [|exact Hp]. cbv beta. intros f ->. reflexivity.
Qed.

(** X15: once a result is there, the developer view and the friendly
    view display the same findings in the same order, from top to
    bottom: the findings that pass the severity filter, arranged as
    [sortFindingsForDevView] arranges them.  So each of them is displayed
    exactly once, the priority alerts first and the rest by severity. *)
Theorem both_views_display_the_sorted_filtered_findings
    (result : ScanResult) (filterSeverity : View.FilterSeverity) :
  let shown := sortFindingsForDevView
                 (View.filteredFindings filterSeverity (findings result)) in
  Display.displayed <$> View.DevFindingsDisplay View.complete (Some result) filterSeverity
  = Some shown
  /\ Display.displayed
       <$> View.UserFindingsDisplay View.complete (Some result) filterSeverity
     = Some shown
  /\ Permutation shown (View.filteredFindings filterSeverity (findings result)).
Proof.
  intros shown. split; [|split].
  - apply DisplayFacts.DevFindingsDisplay_displayed.
  - apply DisplayFacts.UserFindingsDisplay_displayed.
  - unfold shown, sortFindingsForDevView.
    rewrite (SortFacts.array_sort_perm (fun f => SEVERITY_PRIORITY (severity f))).
    apply DevOrderFacts.filter_split_perm.
Qed.

Module FlagFacts.
Import View Display.
Local Open Scope list_scope.

Lemma alert_flags_app (a b : list Block) :
  alert_flags (a ++ b) = alert_flags a ++ alert_flags b.
Proof. apply List.flat_map_app. Qed.

Lemma has_group_app (a b : list Block) :
  has_group (a ++ b) = has_group a || has_group b.
Proof. apply List.existsb_app. Qed.

Lemma existsb_filter {A : Type} (p : A -> bool) (l : list A) :
  existsb p l = negb (length (List.filter p l) =? 0)%nat.
Proof.
  induction l as [|x l IH]; simpl; [reflexivity|].
  destruct (p x); simpl; [reflexivity | exact IH].
Qed.

Lemma groups_flags (group : Severity.t -> list Finding) (order : list Severity.t) :
  alert_flags
    (flat_map (fun s => if (length (group s) =? 0)%nat then []
                        else [SeverityGroup s (group s)]) order) = []
  /\ has_group
       (flat_map (fun s => if (length (group s) =? 0)%nat then []
                           else [SeverityGroup s (group s)]) order)
     = existsb (fun s => negb (length (group s) =? 0)%nat) order.
Proof.
  induction order as [|s order [IHa IHg]]; [split; reflexivity|].
  cbn [flat_map existsb]. rewrite alert_flags_app, has_group_app, IHa, IHg.
  destruct (length (group s) =? 0)%nat; split; reflexivity.
Qed.

Lemma map_snd_imap {A B : Type} (g : nat -> A -> B) (l : list A) :
  map snd (imap (fun i x => (x, g i x)) l) = imap g l.
Proof.
  revert g. induction l as [|x l IH]; intros g; simpl; [reflexivity|].
  f_equal. apply (IH (fun i => g (S i))).
Qed.

(** The flags of the friendly view: one for each priority finding, set
    for all but the last, and for the last as well when a severity group
    is rendered. *)
Lemma UserFindingsDisplay_flags (result : ScanResult) (filterSeverity : FilterSeverity)
    (blocks : list Block) :
  UserFindingsDisplay complete (Some result) filterSeverity = Some blocks ->
  alert_flags blocks
  = imap (fun index _ =>
            (index <? length (List.filter isPriorityFinding
                                (filteredFindings filterSeverity (findings result))) - 1)%nat
            || has_group blocks)
      (List.filter isPriorityFinding (filteredFindings filterSeverity (findings result))).
Proof.
  unfold UserFindingsDisplay. intros H. apply (inj Some) in H. subst blocks.
  cbv zeta.
  set (filtered := filteredFindings filterSeverity (findings result)).
  set (priority := List.filter isPriorityFinding filtered).
  pose proof (groups_flags
                (fun s => List.filter (fun f => negb (isPriorityFinding f))
                            (groupFindingsBySeverity filtered s))
                SEVERITY_ORDER) as [Ha Hg].
  cbv beta in Ha, Hg.
  assert (Hmore : existsb (fun s => existsb (fun f => negb (isPriorityFinding f))
                                      (groupFindingsBySeverity filtered s))
                    Severity.all
                  = existsb
                      (fun s =>
                         negb (length
                                 (List.filter (fun f => negb (isPriorityFinding f))
                                    (groupFindingsBySeverity filtered s)) =? 0)%nat)
                      SEVERITY_ORDER).
  { change Severity.all with SEVERITY_ORDER. unfold SEVERITY_ORDER.
    cbn [existsb]. rewrite !existsb_filter. reflexivity. }
  rewrite Hmore, <- Hg.
  set (groups := flat_map _ SEVERITY_ORDER) in *.
  rewrite !alert_flags_app, !has_group_app, Ha.
  replace (has_group [Header]) with false by reflexivity.
  replace (has_group (when (length filtered =? 0)%nat NoFindingsMessage)) with false
    by (destruct (length filtered =? 0)%nat; reflexivity).
  replace (alert_flags [Header]) with (@nil bool) by reflexivity.
  replace (alert_flags (when (length filtered =? 0)%nat NoFindingsMessage))
    with (@nil bool) by (destruct (length filtered =? 0)%nat; reflexivity).
  rewrite List.app_nil_r. cbn [app orb].
  match goal with
  | |- alert_flags (when _ (PriorityInstallAlerts ?a)) = _ =>
      replace (has_group (when (0 <? length priority)%nat (PriorityInstallAlerts a)))
        with false by (destruct (0 <? length priority)%nat; reflexivity);
      transitivity (map snd a)
  end.
  - destruct priority; simpl; rewrite ?List.app_nil_r; reflexivity.
  - cbn [orb]. apply (map_snd_imap
                        (fun index _ => (index <? length priority - 1)%nat || _)).
Qed.

End FlagFacts.

(** X16: in the friendly view every priority alert carries the flag
    [hasMoreFindings]; the alert at position [index] has it set exactly
    when something is displayed below it: another priority alert, or at
    least one severity group. *)
Theorem hasMoreFindings_tells_whether_something_follows
    (result : ScanResult) (filterSeverity : View.FilterSeverity)
    (blocks : list View.Block) (index : nat) (hasMoreFindings : bool) :
  View.UserFindingsDisplay View.complete (Some result) filterSeverity = Some blocks ->
  Display.alert_flags blocks !! index = Some hasMoreFindings ->
  hasMoreFindings = true
  <-> (S index < length (Display.alert_flags blocks)
       \/ Display.has_group blocks = true).
Proof.
  intros Hblocks Hflag.
  rewrite (FlagFacts.UserFindingsDisplay_flags _ _ _ Hblocks) in Hflag |- *.
  rewrite length_imap. rewrite list_lookup_imap in Hflag.
  destruct (_ !! index) as [f|]; [|discriminate]. injection Hflag as <-.
  rewrite Bool.orb_true_iff, Nat.ltb_lt. split; (intros [H|H]; [left; lia | right; exact H]).
Qed.

Lemma hasMoreFindings_tells_whether_something_follows_witness :
  let result :=
    Examples.scan_result
      [ Examples.finding "CLAWD-INSTALL-001" "Moltbot Not Installed" Severity.INFO;
        Examples.finding "demo-1" "Gateway Exposed" Severity.CRITICAL ] in
  exists blocks,
    View.UserFindingsDisplay View.complete (Some result) View.ALL = Some blocks
    /\ Display.alert_flags blocks !! 0%nat = Some true
    /\ (true = true
        <-> (1 < length (Display.alert_flags blocks)
             \/ Display.has_group blocks = true)).
Proof.
  intros result. eexists. split; [reflexivity|]. split; [reflexivity|].
  eapply (hasMoreFindings_tells_whether_something_follows result View.ALL _ 0%nat true);
    reflexivity.
Defined.

(** ** Normalizing a result that is already canonical *)

Module RoundTripFacts.
Import Canonical.
Local Open Scope list_scope.

Lemma normalizeSeverity_name (v : Severity.t) :
  normalizeSeverity (Some (Severity.name v)) = v.
Proof. destruct v; reflexivity. Qed.

Lemma normalizeCategory_name (v : Category.t) :
  normalizeCategory (Some (Category.name v)) = v.
Proof. destruct v; reflexivity. Qed.

Lemma normalizeRiskLevelString_name (v : RiskLevel.t) :
  normalizeRiskLevelString (RiskLevel.name v) = v.
Proof. destruct v; reflexivity. Qed.

Lemma normalizeStep_toRaw (index : nat) (s : RemediationStep) :
  normalizeStep index (step_toRaw s) = s.
Proof. destruct s; reflexivity. Qed.

Lemma normalizeRemediationSteps_toRaw (steps : list RemediationStep) :
  normalizeRemediationSteps (Raw.StepsArray (map step_toRaw steps)) = steps.
Proof.
  unfold normalizeRemediationSteps.
  enough (H : forall f : nat -> nat,
             imap (fun i => normalizeStep (f i)) (map step_toRaw steps) = steps)
    by exact (H (fun i => i)).
  induction steps as [|s steps IH]; intros f; cbn [imap map]; [reflexivity|].
  rewrite normalizeStep_toRaw. f_equal. apply (IH (fun i => f (S i))).
Qed.

Lemma normalizeFinding_toRaw (f : Finding) :
  normalizeFinding (finding_toRaw f) = normalized f.
Proof.
  unfold normalizeFinding, finding_toRaw, normalized.
  cbn [Raw.id Raw.title Raw.description Raw.severity Raw.category Raw.cvss_score
       Raw.location Raw.remediation Raw.remediation_steps Raw.references
       Raw.reference_links Raw.cvssScore Raw.remediationSteps
       Js.orElse Js.orDefault].
  rewrite normalizeSeverity_name, normalizeCategory_name,
    normalizeRemediationSteps_toRaw.
  destruct (references f); reflexivity.
Qed.

Lemma normalizeScanResult_toRaw (now : string) (r : ScanResult) :
  normalizeScanResult now (toRaw r) = result_normalized r.
Proof.
  unfold normalizeScanResult, toRaw, result_normalized.
  cbn [Raw.scan_id Raw.timestamp Raw.duration_seconds Raw.findings Raw.system_info
       Raw.overall_risk_score Raw.risk_level Raw.summary Raw.scanId
       Raw.durationSeconds Raw.systemInfo Raw.overallRiskScore Raw.riskLevel
       Raw.criticalCount Raw.highCount Raw.mediumCount Raw.lowCount Raw.infoCount
       Js.orElse Js.orDefault mbind option_bind].
  rewrite normalizeRiskLevelString_name, List.map_map.
  rewrite (List.map_ext _ _ normalizeFinding_toRaw).
  destruct r as [? ? ? ? [] ? ? ? ? ? ? ?]; reflexivity.
Qed.

Lemma normalized_is_normalized (now : string) (raw : Raw.ScanResult) :
  result_normalized (normalizeScanResult now raw) = normalizeScanResult now raw.
Proof.
  unfold result_normalized, normalizeScanResult.
  cbn [scanId timestamp durationSeconds findings systemInfo overallRiskScore riskLevel
       criticalCount highCount mediumCount lowCount infoCount].
  rewrite List.map_map. reflexivity.
Qed.

End RoundTripFacts.

(** X17: the normalizer leaves canonical data alone.  A canonical result
    handed to it as it is (camelCase keys, severity, category and risk
    level by their upper-case names, structured remediation steps) comes
    back field by field, whatever the time of the call, but for two
    properties of a finding: [fixPrompt] is dropped, and a reference list
    that is missing comes back empty.  Hence normalizing a normalized
    result again changes nothing. *)
Theorem normalizeScanResult_keeps_canonical_data :
  (forall now r,
      normalizeScanResult now (Canonical.toRaw r) = Canonical.result_normalized r)
  /\ (forall now now' raw,
        normalizeScanResult now' (Canonical.toRaw (normalizeScanResult now raw))
        = normalizeScanResult now raw).
Proof.
  split.
  - apply RoundTripFacts.normalizeScanResult_toRaw.
  - intros now now' raw. rewrite RoundTripFacts.normalizeScanResult_toRaw.
    apply RoundTripFacts.normalized_is_normalized.
Qed.

(** ** The headline of the friendly view *)

Module StatusFacts.
Import StatusMessage.
Local Open Scope list_scope.

Lemma of_severity_twice (s s' : Severity.t) (fs : list Finding) :
  of_severity s' (of_severity s fs)
  = if Severity.eqb s' s then of_severity s fs else [].
Proof.
  unfold of_severity. destruct (Severity.eqb s' s) eqn:E.
  - apply DisplayFacts.filter_all, List.Forall_forall. intros f Hf.
    apply List.filter_In in Hf as [_ Hf].
    destruct (severity f), s, s'; try discriminate; reflexivity.
  - apply DisplayFacts.filter_none, List.Forall_forall. intros f Hf.
    apply List.filter_In in Hf as [_ Hf].
    destruct (severity f), s, s'; try discriminate; reflexivity.
Qed.

Lemma length_append (a b : string) :
  String.length (a ++ b)%string = String.length a + String.length b.
Proof.
  induction a as [|c a IH]; [reflexivity|].
  rewrite PriorityFacts.append_cons. cbn [String.length]. rewrite IH. reflexivity.
Qed.

Lemma positive_length {A : Type} (l : list A) :
  l <> [] -> (length l =? 0)%nat = false /\ (0 <? length l)%nat = true.
Proof. destruct l; [congruence | split; reflexivity]. Qed.

End StatusFacts.

(** X18: the headline of the friendly view is computed from the findings
    that pass the filter.  It reads [All Clear!] exactly when none
    passes, that is, exactly when the view renders its no-findings
    message.  With a filter on one severity and at least one finding of
    that severity, the kind of headline depends on the severity alone
    (urgent for CRITICAL, important for HIGH, to review for the others)
    and the number it names is the number of findings displayed. *)
Theorem getStatusMessage_counts_what_the_filter_lets_through
    (result : ScanResult) (filterSeverity : View.FilterSeverity) :
  let shown := View.filteredFindings filterSeverity (findings result) in
  let message := StatusMessage.getStatusMessage shown in
  StatusMessage.statusInfo View.complete (Some result) filterSeverity = Some message
  /\ (StatusMessage.title message = "All Clear!" <-> shown = [])
  /\ (StatusMessage.icon message = StatusMessage.PartyPopper <-> shown = [])
  /\ (forall blocks,
        View.UserFindingsDisplay View.complete (Some result) filterSeverity = Some blocks ->
        In View.NoFindingsMessage blocks <-> shown = [])
  /\ (forall s, filterSeverity = View.Only s -> shown <> [] ->
        StatusMessage.icon message
        = match s with
          | Severity.CRITICAL => StatusMessage.AlertTriangle
          | Severity.HIGH => StatusMessage.ShieldAlert
          | _ => StatusMessage.ShieldCheck
          end
        /\ StatusMessage.title message
           = match s with
             | Severity.CRITICAL =>
                 StatusMessage.headline (length shown) " urgent " "issue" "issues" " found"
             | Severity.HIGH =>
                 StatusMessage.headline (length shown) " important " "issue" "issues"
                   " to address"
             | _ =>
                 StatusMessage.headline (length shown) " " "item" "items" " to review"
             end).
Proof.
  intros shown message. split; [reflexivity|].
  assert (Hempty : shown = [] -> message = StatusMessage.getStatusMessage []).
  { intros E. unfold message. rewrite E. reflexivity. }
  assert (Hkind : shown <> [] ->
                  StatusMessage.icon message <> StatusMessage.PartyPopper
                  /\ StatusMessage.title message <> "All Clear!").
  { intros Hne. unfold message, StatusMessage.getStatusMessage.
    destruct (StatusFacts.positive_length shown Hne) as [-> _].
    set (c := length (List.filter _ shown)).
    set (h := length (List.filter _ shown)).
    destruct (0 <? c)%nat eqn:Ec; [|destruct (0 <? h)%nat eqn:Eh];
      cbn [StatusMessage.icon StatusMessage.title]; (split; [discriminate|]).
    - intros H. apply (f_equal String.length) in H.
      rewrite !StatusFacts.length_append in H.
      destruct (c =? 1)%nat; cbn [String.length] in H; lia.
    - intros H. apply (f_equal String.length) in H.
      rewrite !StatusFacts.length_append in H.
      destruct (h =? 1)%nat; cbn [String.length] in H; lia.
    - intros H. apply (f_equal String.length) in H.
      rewrite !StatusFacts.length_append in H.
      destruct (length shown =? 1)%nat; cbn [String.length] in H; lia. }
  split; [|split; [|split]].
  - split.
    + intros H. destruct shown as [|f l] eqn:E; [reflexivity|].
      exfalso. assert (Hne : f :: l <> []) by discriminate.
      exact (proj2 (Hkind Hne) H).
    + intros E. rewrite (Hempty E). reflexivity.
  - split.
    + intros H. destruct shown as [|f l] eqn:E; [reflexivity|].
      exfalso. assert (Hne : f :: l <> []) by discriminate.
      exact (proj1 (Hkind Hne) H).
    + intros E. rewrite (Hempty E). reflexivity.
  - intros blocks Hblocks. unfold View.UserFindingsDisplay in Hblocks.
    apply (inj Some) in Hblocks. subst blocks. cbv zeta. fold shown. split.
    + intros Hin. destruct shown as [|f l]; [reflexivity|]. exfalso.
      cbn [length Nat.eqb View.when app] in Hin.
      destruct Hin as [H|Hin]; [discriminate|].
      apply List.in_app_or in Hin as [Hin|Hin].
      * unfold View.when in Hin. destruct (0 <? _)%nat; [|destruct Hin].
        destruct Hin as [H|[]]. discriminate.
      * apply List.in_flat_map in Hin as (s & _ & Hin).
        destruct (length _ =? 0)%nat; [destruct Hin|].
        destruct Hin as [H|[]]. discriminate.
    + intros ->. right. left. reflexivity.
  - intros s -> Hne.
    assert (Hcount : forall s',
               length (List.filter (fun f => Severity.eqb (severity f) s') shown)
               = if Severity.eqb s' s then length shown else 0%nat).
    { intros s'.
      change (length (of_severity s' (of_severity s (findings result)))
              = if Severity.eqb s' s then length (of_severity s (findings result))
                else 0%nat).
      rewrite StatusFacts.of_severity_twice.
      destruct (Severity.eqb s' s); reflexivity. }
    unfold message, StatusMessage.getStatusMessage.
    destruct (StatusFacts.positive_length shown Hne) as [-> Hpos].
    rewrite !Hcount.
    destruct s; cbn [Severity.eqb]; change (0 <? 0)%nat with false;
      rewrite ?Hpos; cbn [StatusMessage.icon StatusMessage.title];
      split; reflexivity.
Qed.

Lemma getStatusMessage_counts_what_the_filter_lets_through_witness :
  let result :=
    Examples.scan_result
      [ Examples.finding "demo-1" "Gateway Exposed" Severity.CRITICAL;
        Examples.finding "demo-2" "Keys In Plain Text" Severity.HIGH;
        Examples.finding "demo-3" "Authentication Bypass" Severity.HIGH ] in
  let message :=
    StatusMessage.getStatusMessage
      (View.filteredFindings (View.Only Severity.HIGH) (findings result)) in
  StatusMessage.icon message = StatusMessage.ShieldAlert
  /\ StatusMessage.title message
     = StatusMessage.headline 2 " important " "issue" "issues" " to address".
Proof.
  intros result message.
  destruct (getStatusMessage_counts_what_the_filter_lets_through
              result (View.Only Severity.HIGH)) as (_ & _ & _ & _ & H).
  apply (H Severity.HIGH); [reflexivity | discriminate].
Defined.

(** X19: the selector [getFilteredFindings] of the store and the two
    views agree.  In every state that the store reaches with status
    complete, both views render, and what they display, from top to
    bottom, is the list that the selector returns, arranged as
    [sortFindingsForDevView] arranges it. *)
Theorem views_display_what_the_store_selects (evs : list ScanStore.Event) :
  let st := ScanStore.run evs in
  ScanStore.status st = View.complete ->
  exists dev user : list View.Block,
    View.DevFindingsDisplay (ScanStore.status st) (ScanStore.scanResult st)
      (ScanStore.filterSeverity st) = Some dev
    /\ View.UserFindingsDisplay (ScanStore.status st) (ScanStore.scanResult st)
         (ScanStore.filterSeverity st) = Some user
    /\ Display.displayed dev = sortFindingsForDevView (ScanStore.getFilteredFindings st)
    /\ Display.displayed user = sortFindingsForDevView (ScanStore.getFilteredFindings st).
Proof.
  intros st Hstatus.
  destruct (StoreRunFacts.run_consistent evs) as (Hres & Hfind & _ & _).
  fold st in Hres, Hfind.
  destruct (ScanStore.scanResult st) as [result|] eqn:Eres;
    [|exfalso; apply (Hres Hstatus); reflexivity].
  assert (Hsel : ScanStore.getFilteredFindings st
                 = View.filteredFindings (ScanStore.filterSeverity st) (findings result)).
  { unfold ScanStore.getFilteredFindings, View.filteredFindings. rewrite Hfind.
    reflexivity. }
  rewrite Hstatus, Hsel.
  pose proof (DisplayFacts.DevFindingsDisplay_displayed
                result (ScanStore.filterSeverity st)) as Hdev.
  pose proof (DisplayFacts.UserFindingsDisplay_displayed
                result (ScanStore.filterSeverity st)) as Huser.
  destruct (View.DevFindingsDisplay _ _ _) as [dev|]; [|discriminate].
  destruct (View.UserFindingsDisplay _ _ _) as [user|]; [|discriminate].
  exists dev, user. split; [reflexivity|]. split; [reflexivity|].
  split; [injection Hdev as ->; reflexivity | injection Huser as ->; reflexivity].
Qed.

Lemma views_display_what_the_store_selects_witness :
  let st :=
    ScanStore.run [ScanStore.StartScan;
                   ScanStore.OnResult "2026-01-01T00:00:00.000Z" Examples.raw_backend;
                   ScanStore.SetFilterSeverity (View.Only Severity.HIGH)] in
  exists dev user : list View.Block,
    View.DevFindingsDisplay (ScanStore.status st) (ScanStore.scanResult st)
      (ScanStore.filterSeverity st) = Some dev
    /\ View.UserFindingsDisplay (ScanStore.status st) (ScanStore.scanResult st)
         (ScanStore.filterSeverity st) = Some user
    /\ Display.displayed dev = sortFindingsForDevView (ScanStore.getFilteredFindings st)
    /\ Display.displayed user = sortFindingsForDevView (ScanStore.getFilteredFindings st).
Proof.
  apply (views_display_what_the_store_selects
           [ScanStore.StartScan;
            ScanStore.OnResult "2026-01-01T00:00:00.000Z" Examples.raw_backend;
            ScanStore.SetFilterSeverity (View.Only Severity.HIGH)]).
  reflexivity.
Defined.

(** ** The export panel and the export handler *)

Module ExportPanelFacts.
Import Js Main ExportRequest ExportPanel.

Lemma string_forallb_append (p : ascii -> bool) (a b : string) :
  string_forallb p (a ++ b) = string_forallb p a && string_forallb p b.
Proof.
  induction a as [|c a IH]; [reflexivity|].
  rewrite PriorityFacts.append_cons. cbn [string_forallb]. rewrite IH.
  apply Bool.andb_assoc.
Qed.

Lemma string_forallb_impl (p q : ascii -> bool) (s : string) :
  (forall c, p c = true -> q c = true) ->
  string_forallb p s = true -> string_forallb q s = true.
Proof.
  intros Hpq. induction s as [|c s IH]; [reflexivity|]. cbn [string_forallb].
  intros H. apply andb_prop in H as [Hc Hs]. rewrite (Hpq c Hc), (IH Hs). reflexivity.
Qed.

(** Putting a string without dots in front of a string introduces no
    pair of dots. *)
Lemma no_dotdot_append (s t : string) :
  string_forallb (fun c => negb (Ascii.eqb c ".")) s = true ->
  no_dotdot t = true -> no_dotdot (s ++ t) = true.
Proof.
  intros Hs Ht. induction s as [|c s IH]; [exact Ht|].
  cbn [string_forallb] in Hs. apply andb_prop in Hs as [Hc Hs].
  rewrite PriorityFacts.append_cons. cbn [no_dotdot].
  destruct (s ++ t) as [|c' r] eqn:E; [reflexivity|].
  apply Bool.negb_true_iff in Hc. rewrite Hc. cbn [andb negb]. apply IH, Hs.
Qed.

Lemma date_char_plain (c : ascii) :
  is_date_char c = true ->
  negb (is_reserved c) = true /\ negb (Ascii.eqb c ".") = true.
Proof.
  intros Hc.
  assert (Hall : forallb
                   (fun c => implb (is_date_char c)
                               (negb (is_reserved c) && negb (Ascii.eqb c ".")))
                   all_ascii = true) by (vm_compute; reflexivity).
  pose proof (JsFacts.forall_ascii _ Hall c) as H. cbv beta in H.
  rewrite Hc in H. cbn [implb] in H. apply andb_prop in H. exact H.
Qed.

Lemma trim_of_plain_start (c : ascii) (s : string) :
  is_space c = false -> trim (String c s) <> "".
Proof.
  intros Hc. unfold trim. cbn [trimStart]. rewrite Hc. cbn [trimEnd].
  destruct (trimEnd s); [rewrite Hc|]; discriminate.
Qed.

End ExportPanelFacts.

(** X20: every export request of the export panel passes the validation
    of the main process as it is.  Whatever the date (a date as
    [toISOString] prints it: digits, hyphens, a sign) and whichever of
    the three formats of the panel is selected, the handler accepts the
    format, keeps the file name that the panel built, and starts the
    export process with exactly that format and that file name. *)
Theorem export_panel_request_passes_validation (date selectedFormat : string) :
  In selectedFormat ExportPanel.formatOptions ->
  Js.string_forallb ExportPanel.is_date_char date = true ->
  String.length date <= 13 ->
  ExportPanel.export_args (fst (ExportPanel.handleExport date selectedFormat))
    (snd (ExportPanel.handleExport date selectedFormat))
  = Main.Ok ["-m"; "clawd_for_dummies"; "--output"; selectedFormat;
             "--output-file"; ExportPanel.filename date selectedFormat].
Proof.
  intros Hformat Hdate Hlen.
  assert (Hplain : Js.string_forallb (fun c => negb (Main.is_reserved c)) date = true
                   /\ Js.string_forallb (fun c => negb (Ascii.eqb c ".")) date = true).
  { split; (eapply ExportPanelFacts.string_forallb_impl; [|exact Hdate]);
      intros c Hc; apply (ExportPanelFacts.date_char_plain c Hc). }
  destruct Hplain as [Hres Hdot].
  cbn [ExportPanel.handleExport fst snd]. unfold ExportPanel.export_args.
  assert (Hok : ExportRequest.validateExportFormat (Main.JsString selectedFormat)
                = Main.Ok selectedFormat).
  { destruct Hformat as [<-|[<-|[<-|[]]]]; reflexivity. }
  rewrite Hok. cbv zeta. do 6 f_equal.
  set (name := ExportPanel.filename date selectedFormat).
  assert (Hc : Js.string_forallb (fun c => negb (Main.is_reserved c)) name = true).
  { unfold name, ExportPanel.filename.
    rewrite !ExportPanelFacts.string_forallb_append, Hres.
    destruct Hformat as [<-|[<-|[<-|[]]]]; reflexivity. }
  assert (Hd : ExportRequest.no_dotdot name = true).
  { unfold name, ExportPanel.filename.
    apply ExportPanelFacts.no_dotdot_append; [reflexivity|].
    apply ExportPanelFacts.no_dotdot_append; [exact Hdot|].
    destruct Hformat as [<-|[<-|[<-|[]]]]; reflexivity. }
  assert (Hl : String.length name <= 255).
  { unfold name, ExportPanel.filename. rewrite !StatusFacts.length_append.
    destruct Hformat as [<-|[<-|[<-|[]]]]; cbn [String.length]; lia. }
  assert (Hb : Js.trim name <> "").
  { apply ExportPanelFacts.trim_of_plain_start. reflexivity. }
  unfold Main.validateExportOptions.
  rewrite ExportFacts.sanitize_filename_unfold.
  rewrite (ExportRequestFacts.remove_dotdot_id name Hd).
  rewrite (ExportRequestFacts.remove_chars_id _ name Hc).
  rewrite (ExportRequestFacts.substring_to_id 255 name Hl).
  destruct (String.eqb_spec name "") as [E|_]; [discriminate|].
  destruct (String.eqb_spec (Js.trim name) "") as [E|_]; [contradiction|].
  reflexivity.
Qed.

Lemma export_panel_request_passes_validation_witness :
  ExportPanel.export_args
    (fst (ExportPanel.handleExport "2026-01-31" "json"))
    (snd (ExportPanel.handleExport "2026-01-31" "json"))
  = Main.Ok ["-m"; "clawd_for_dummies"; "--output"; "json"; "--output-file";
             ExportPanel.filename "2026-01-31" "json"].
Proof.
  apply export_panel_request_passes_validation.
  - right. left. reflexivity.
  - reflexivity.
  - simpl. lia.
Defined.

(** ** The progress of a scan *)

Module ProgressFacts.
Import ScanStore ProgressIndicator.
Local Open Scope list_scope.

Lemma setProgress_none_complete (u : ScanProgress.t) (st : State) :
  is_complete u = false -> none_complete st -> none_complete (setProgress u st).
Proof.
  unfold none_complete. intros Hu.
  apply (ScanStoreFacts.setProgress_ind
           (fun l out => Forall (fun p => is_complete p = false) l ->
                         Forall (fun p => is_complete p = false) out)).
  - intros _. apply List.Forall_cons; [exact Hu | apply List.Forall_nil].
  - intros p rest _ H. apply List.Forall_cons_iff in H as [_ H].
    apply List.Forall_cons; assumption.
  - intros p rest out _ IH H. apply List.Forall_cons_iff in H as [Hp H].
    apply List.Forall_cons; [exact Hp | apply IH, H].
Qed.

Lemma handle_none_complete (st : State) (ev : Event) :
  sent_by_main ev -> none_complete st -> none_complete (handle st ev).
Proof.
  intros Hev H.
  destruct ev as [|message| |now result|u|moduleId|findingId|sev];
    try exact H; try apply List.Forall_nil.
  destruct Hev as [m ->]. apply setProgress_none_complete; [reflexivity | exact H].
Qed.

Lemma run_none_complete (evs : list Event) :
  Forall sent_by_main evs -> none_complete (run evs).
Proof.
  unfold run.
  enough (H : forall st, none_complete st -> Forall sent_by_main evs ->
                         none_complete (fold_left handle evs st))
    by (apply H, List.Forall_nil).
  induction evs as [|ev evs IH]; intros st Hst Hevs; [exact Hst|].
  apply List.Forall_cons_iff in Hevs as [Hev Hevs]. simpl.
  apply IH; [apply handle_none_complete; assumption | exact Hevs].
Qed.

Lemma percentage_bounds (value max : Q) :
  (0 <= ProgressBar_percentage value max /\ ProgressBar_percentage value max <= 100)%Q.
Proof.
  unfold ProgressBar_percentage. split.
  - apply Q.min_glb; [discriminate | apply Q.le_max_l].
  - apply Q.le_min_l.
Qed.

End ProgressFacts.

(** X21: the main process reports a module only as in progress, never
    as complete.  So in every run of the store whose progress updates
    are those of the main process, no progress entry is complete, the
    overall progress that the indicator computes is 0, and the bar it
    renders during a scan has width 0 and carries the label 0. *)
Theorem progress_bar_shows_no_progress_from_main (evs : list ScanStore.Event) :
  Forall ProgressIndicator.sent_by_main evs ->
  let st := ScanStore.run evs in
  ProgressIndicator.completedModules st = 0
  /\ (ProgressIndicator.overallProgress st == 0)%Q
  /\ (ScanStore.status st = View.scanning ->
      exists width label,
        ProgressIndicator.ProgressIndicator st = Some (width, label)
        /\ (width == 0)%Q /\ label = 0%Z).
Proof.
  intros Hevs st.
  pose proof (ProgressFacts.run_none_complete evs Hevs) as Hnone. fold st in Hnone.
  assert (Hcompleted : ProgressIndicator.completedModules st = 0).
  { unfold ProgressIndicator.completedModules.
    rewrite (DisplayFacts.filter_none _ _ Hnone). reflexivity. }
  assert (Hoverall : (ProgressIndicator.overallProgress st == 0)%Q).
  { unfold ProgressIndicator.overallProgress. rewrite Hcompleted.
    destruct (0 <? ProgressIndicator.totalModules st)%nat; [|reflexivity].
    change (inject_Z (Z.of_nat 0)) with 0%Q. unfold Qdiv.
    rewrite !Qmult_0_l. reflexivity. }
  split; [exact Hcompleted|]. split; [exact Hoverall|].
  intros Hstatus. unfold ProgressIndicator.ProgressIndicator. rewrite Hstatus.
  eexists. eexists. split; [reflexivity|].
  assert (Hwidth : (ProgressIndicator.ProgressBar_percentage
                      (ProgressIndicator.overallProgress st) 100 == 0)%Q).
  { unfold ProgressIndicator.ProgressBar_percentage.
    assert (Hx : (ProgressIndicator.overallProgress st / 100 * 100 == 0)%Q).
    { rewrite Hoverall. reflexivity. }
    assert (Hy : (Qmax 0 (ProgressIndicator.overallProgress st / 100 * 100) == 0)%Q).
    { apply Q.max_l. rewrite Hx. apply Qle_refl. }
    rewrite Q.min_r; [exact Hy|]. rewrite Hy. discriminate. }
  split; [exact Hwidth|].
  unfold ProgressIndicator.ProgressBar_label. rewrite Hwidth. reflexivity.
Qed.

Lemma progress_bar_shows_no_progress_from_main_witness :
  let st :=
    ScanStore.run [ScanStore.StartScan;
                   ScanStore.OnProgress (ProgressIndicator.scanner_progress "port");
                   ScanStore.OnProgress (ProgressIndicator.scanner_progress "config")] in
  ProgressIndicator.completedModules st = 0
  /\ (ProgressIndicator.overallProgress st == 0)%Q
  /\ (ScanStore.status st = View.scanning ->
      exists width label,
        ProgressIndicator.ProgressIndicator st = Some (width, label)
        /\ (width == 0)%Q /\ label = 0%Z).
Proof.
  apply (progress_bar_shows_no_progress_from_main
           [ScanStore.StartScan;
            ScanStore.OnProgress (ProgressIndicator.scanner_progress "port");
            ScanStore.OnProgress (ProgressIndicator.scanner_progress "config")]).
  apply List.Forall_cons; [exact I|].
  apply List.Forall_cons; [exists "port"; reflexivity|].
  apply List.Forall_cons; [exists "config"; reflexivity|].
  apply List.Forall_nil.
Defined.

(** ** The view mode *)

(** X22: switching between the developer view and the friendly view
    changes the presentation only.  Whatever the state of the store, the
    wrapper displays the same findings in the same order before and
    after [toggleViewMode], and nothing in either mode when there is no
    result to show; toggling twice gives the mode back. *)
Theorem toggleViewMode_keeps_the_displayed_findings
    (viewMode : ViewMode.t) (status : View.ScanStatus)
    (scanResult : option ScanResult) (filterSeverity : View.FilterSeverity) :
  Display.displayed
    <$> ViewMode.FindingsDisplayWrapper (ViewMode.toggleViewMode viewMode)
          status scanResult filterSeverity
  = Display.displayed
      <$> ViewMode.FindingsDisplayWrapper viewMode status scanResult filterSeverity
  /\ ViewMode.toggleViewMode (ViewMode.toggleViewMode viewMode) = viewMode.
Proof.
  split; [|destruct viewMode; reflexivity].
  assert (H : Display.displayed
                <$> View.DevFindingsDisplay status scanResult filterSeverity
              = Display.displayed
                  <$> View.UserFindingsDisplay status scanResult filterSeverity).
  { destruct status, scanResult as [result|]; try reflexivity.
    rewrite DisplayFacts.DevFindingsDisplay_displayed,
      DisplayFacts.UserFindingsDisplay_displayed. reflexivity. }
  destruct viewMode; cbn [ViewMode.toggleViewMode ViewMode.FindingsDisplayWrapper];
    [symmetry; exact H | exact H].
Qed.

(** ** Upper-casing beyond ASCII *)

Module UnicodeFacts.
Import Unicode.
Local Open Scope Z_scope.
Local Open Scope list_scope.

Lemma eqb_eq (a b : t) : eqb a b = true <-> a = b.
Proof.
  revert b. induction a as [|x a IH]; intros [|y b]; simpl;
    try (split; [discriminate | discriminate]); [tauto|].
  rewrite Bool.andb_true_iff, Z.eqb_eq, IH. split.
  - intros [-> ->]. reflexivity.
  - intros [= -> ->]. split; reflexivity.
Qed.

Lemma eqb_refl (a : t) : eqb a a = true.
Proof. apply eqb_eq. reflexivity. Qed.

Lemma encode_ascii (u : Z) : ascii_unit u = true -> encode u = [u].
Proof.
  unfold ascii_unit, encode. intros H. apply andb_prop in H as [_ H].
  apply Z.ltb_lt in H. destruct (Z.ltb_spec u 65536); [reflexivity | lia].
Qed.

Lemma encode_all_ascii (l : list Z) :
  forallb ascii_unit l = true -> flat_map encode l = l.
Proof.
  induction l as [|u l IH]; [reflexivity|]. cbn [forallb flat_map]. intros H.
  apply andb_prop in H as [Hu Hl]. rewrite (encode_ascii u Hu), (IH Hl). reflexivity.
Qed.

(** A code point beyond ASCII leaves a code unit beyond ASCII. *)
Lemma encode_beyond_ascii (cp : Z) :
  ascii_unit cp = false -> existsb (fun u => negb (ascii_unit u)) (encode cp) = true.
Proof.
  unfold encode. intros H. destruct (Z.ltb_spec cp 65536) as [Hlt|Hge].
  - cbn [existsb]. rewrite H. reflexivity.
  - cbn [existsb]. apply Bool.orb_true_iff. left. unfold ascii_unit.
    assert (0 <= (cp - 65536) / 1024) by (apply Z.div_pos; lia).
    destruct (Z.ltb_spec (55296 + (cp - 65536) / 1024) 128); [lia|].
    rewrite Bool.andb_false_r. reflexivity.
Qed.

(** Every entry of the two tables agrees with [ascii_upper]. *)
Lemma special_entries :
  forallb
    (fun entry =>
       match ascii_upper (fst entry) with
       | Some form => eqb (snd entry) form && forallb ascii_unit form
       | None => existsb (fun u => negb (ascii_unit u)) (flat_map encode (snd entry))
       end)
    special_upper = true.
Proof. vm_compute. reflexivity. Qed.

Lemma simple_entries :
  forallb
    (fun run =>
       let '(first, last, stride, offset) := run in
       ((first =? 97) && (last =? 122) && (stride =? 1) && (offset =? -32))
       || ((first =? 305) && (last =? 305) && (offset =? -232))
       || ((first =? 383) && (last =? 383) && (offset =? -300))
       || ((128 <=? first) && (128 <=? first + offset)
           && forallb (fun entry => negb (in_run (fst entry) run)) ascii_special))
    simple_upper = true.
Proof. vm_compute. reflexivity. Qed.

(** Every character of [ascii_special] is in one of the two tables. *)
Lemma ascii_special_entries :
  forallb
    (fun entry =>
       existsb (fun e => fst e =? fst entry) special_upper
       || existsb (in_run (fst entry)) simple_upper)
    ascii_special = true.
Proof. vm_compute. reflexivity. Qed.

Lemma small_letters_run : In (97, 122, 1, -32) simple_upper.
Proof. left. reflexivity. Qed.

Lemma ascii_upper_beyond (cp : Z) :
  ascii_unit cp = false ->
  ascii_upper cp
  = match List.find (fun entry => fst entry =? cp) ascii_special with
    | Some (_, form) => Some form
    | None => None
    end.
Proof. unfold ascii_upper, ascii_unit. intros ->. reflexivity. Qed.

(** The upper-case form of a code point is the ASCII text that
    [ascii_upper] gives, and holds a code unit beyond ASCII when
    [ascii_upper] gives none. *)
Lemma upper_ascii_upper (cp : Z) :
  match ascii_upper cp with
  | Some form => upper cp = form /\ forallb ascii_unit form = true
  | None => existsb (fun u => negb (ascii_unit u)) (flat_map encode (upper cp)) = true
  end.
Proof.
  unfold upper.
  destruct (List.find (fun entry => fst entry =? cp) special_upper) as [[c form]|] eqn:Es.
  - apply List.find_some in Es as [Hin Hc]. cbn [fst] in Hc. apply Z.eqb_eq in Hc.
    subst c. pose proof special_entries as H. rewrite List.forallb_forall in H.
    specialize (H _ Hin). cbn [fst snd] in H.
    destruct (ascii_upper cp) as [a|]; [|exact H].
    apply andb_prop in H as [H1 H2]. apply eqb_eq in H1. subst a. split; [reflexivity|exact H2].
  - pose proof (List.find_none _ _ Es) as Hs. cbn beta in Hs.
    destruct (List.find (in_run cp) simple_upper) as [[[[first last] stride] offset]|] eqn:Er.
    + apply List.find_some in Er as [Hin Hrun].
      pose proof simple_entries as H. rewrite List.forallb_forall in H.
      specialize (H _ Hin). cbv beta iota in H.
      pose proof Hrun as Hrun0.
      unfold in_run in Hrun. apply andb_prop in Hrun as [Hrun _].
      apply andb_prop in Hrun as [Hlo Hhi]. apply Z.leb_le in Hlo, Hhi.
      apply Bool.orb_true_iff in H as [H|H];
        [apply Bool.orb_true_iff in H as [H|H];
         [apply Bool.orb_true_iff in H as [H|H]|]|].
      * apply andb_prop in H as [H Ho]. apply andb_prop in H as [H _].
        apply andb_prop in H as [Hf Hl]. apply Z.eqb_eq in Ho, Hf, Hl. subst.
        unfold ascii_upper.
        destruct (Z.leb_spec 0 cp); [|lia]. destruct (Z.ltb_spec cp 128); [|lia].
        destruct (Z.leb_spec 97 cp); [|lia]. destruct (Z.leb_spec cp 122); [|lia].
        cbn [andb]. split; [reflexivity|]. cbn [forallb]. unfold ascii_unit.
        destruct (Z.leb_spec 0 (cp - 32)); [|lia].
        destruct (Z.ltb_spec (cp - 32) 128); [reflexivity | lia].
      * apply andb_prop in H as [H Ho]. apply andb_prop in H as [Hf Hl].
        apply Z.eqb_eq in Ho, Hf, Hl. subst.
        assert (cp = 305) by lia. subst cp. split; reflexivity.
      * apply andb_prop in H as [H Ho]. apply andb_prop in H as [Hf Hl].
        apply Z.eqb_eq in Ho, Hf, Hl. subst.
        assert (cp = 383) by lia. subst cp. split; reflexivity.
      * apply andb_prop in H as [H Hnone]. apply andb_prop in H as [Hf Ho].
        apply Z.leb_le in Hf, Ho.
        assert (Hcp : ascii_unit cp = false).
        { unfold ascii_unit. destruct (Z.ltb_spec cp 128); [lia|].
          apply Bool.andb_false_r. }
        rewrite (ascii_upper_beyond cp Hcp).
        destruct (List.find (fun entry => fst entry =? cp) ascii_special)
          as [[c form]|] eqn:Ea.
        -- exfalso. apply List.find_some in Ea as [Hin' Hc]. cbn [fst] in Hc.
           apply Z.eqb_eq in Hc. subst c.
           rewrite List.forallb_forall in Hnone. specialize (Hnone _ Hin').
           cbn [fst] in Hnone. apply Bool.negb_true_iff in Hnone.
           congruence.
        -- cbn [flat_map]. rewrite List.app_nil_r. apply encode_beyond_ascii.
           unfold ascii_unit. destruct (Z.ltb_spec (cp + offset) 128); [lia|].
           apply Bool.andb_false_r.
    + pose proof (List.find_none _ _ Er) as Hr.
      cbn [flat_map]. rewrite List.app_nil_r.
      destruct (ascii_unit cp) eqn:Hcp.
      * pose proof (Hr _ small_letters_run) as Hsmall. unfold in_run in Hsmall.
        pose proof Hcp as Hcp'. unfold ascii_unit in Hcp'.
        unfold ascii_upper. rewrite Hcp'.
        rewrite Z.mod_1_r in Hsmall. change (0 =? 0) with true in Hsmall.
        rewrite Bool.andb_true_r in Hsmall. rewrite Hsmall.
        split; [reflexivity|]. cbn [forallb]. rewrite Hcp. reflexivity.
      * rewrite (ascii_upper_beyond cp Hcp).
        destruct (List.find (fun entry => fst entry =? cp) ascii_special)
          as [[c form]|] eqn:Ea; [|apply encode_beyond_ascii, Hcp].
        exfalso. apply List.find_some in Ea as [Hin' Hc]. cbn [fst] in Hc.
        apply Z.eqb_eq in Hc. subst c.
        pose proof ascii_special_entries as H. rewrite List.forallb_forall in H.
        specialize (H _ Hin'). cbn [fst] in H.
        apply Bool.orb_true_iff in H as [H|H]; apply List.existsb_exists in H as (e & He & Hm).
        -- specialize (Hs _ He). congruence.
        -- specialize (Hr _ He). congruence.
Qed.

Lemma existsb_app_l {A : Type} (p : A -> bool) (a b : list A) :
  existsb p a = true -> existsb p (a ++ b) = true.
Proof. intros H. rewrite List.existsb_app, H. reflexivity. Qed.

Lemma existsb_app_r {A : Type} (p : A -> bool) (a b : list A) :
  existsb p b = true -> existsb p (a ++ b) = true.
Proof. intros H. rewrite List.existsb_app, H. apply Bool.orb_true_r. Qed.

(** The upper-case form of a string is the ASCII text that its code
    points stand for, when they all stand for one. *)
Lemma uppers_Some (cps : list Z) (text : list Z) :
  ascii_uppers cps = Some text ->
  flat_map encode (flat_map upper cps) = text /\ forallb ascii_unit text = true.
Proof.
  revert text. induction cps as [|cp cps IH]; intros text H.
  - injection H as <-. split; reflexivity.
  - cbn [ascii_uppers] in H. pose proof (upper_ascii_upper cp) as Hcp.
    destruct (ascii_upper cp) as [form|]; [|discriminate].
    destruct (ascii_uppers cps) as [forms|]; [|discriminate].
    injection H as <-. destruct Hcp as [Hup Hform].
    destruct (IH forms eq_refl) as [Hrest Hforms].
    cbn [flat_map]. rewrite List.flat_map_app, Hup, Hrest.
    rewrite (encode_all_ascii form Hform).
    split; [reflexivity|]. rewrite List.forallb_app, Hform, Hforms. reflexivity.
Qed.

(** Otherwise it holds a code unit beyond ASCII. *)
Lemma uppers_None (cps : list Z) :
  ascii_uppers cps = None ->
  existsb (fun u => negb (ascii_unit u)) (flat_map encode (flat_map upper cps)) = true.
Proof.
  induction cps as [|cp cps IH]; [discriminate|]. cbn [ascii_uppers flat_map].
  rewrite List.flat_map_app. pose proof (upper_ascii_upper cp) as Hcp.
  destruct (ascii_upper cp) as [form|].
  - destruct (ascii_uppers cps) as [forms|]; [discriminate|]. intros _.
    apply existsb_app_r, IH. reflexivity.
  - intros _. apply existsb_app_l, Hcp.
Qed.

Lemma all_ascii_no_beyond (l : list Z) :
  forallb ascii_unit l = true ->
  existsb (fun u => negb (ascii_unit u)) l = true -> False.
Proof.
  induction l as [|u l IH]; [discriminate|]. cbn [forallb existsb]. intros H E.
  apply andb_prop in H as [Hu Hl]. rewrite Hu in E. cbn [negb orb] in E.
  exact (IH Hl E).
Qed.

Lemma of_string_cons (c : ascii) (s : string) :
  of_string (String c s) = Z.of_N (N_of_ascii c) :: of_string s.
Proof. reflexivity. Qed.

Lemma of_string_is_ascii (k : string) :
  is_ascii k = true -> forallb ascii_unit (of_string k) = true.
Proof.
  unfold is_ascii. induction k as [|c k IH]; [reflexivity|].
  rewrite of_string_cons. cbn [Js.string_forallb forallb]. intros H.
  apply andb_prop in H as [Hc Hk]. rewrite (IH Hk), Bool.andb_true_r.
  apply N.ltb_lt in Hc. unfold ascii_unit.
  destruct (Z.leb_spec 0 (Z.of_N (N_of_ascii c))); [|lia].
  destruct (Z.ltb_spec (Z.of_N (N_of_ascii c)) 128); [reflexivity | lia].
Qed.

(** Upper-casing gives an ASCII text exactly for the strings that spell
    it. *)
Lemma toUpperCase_spells (s : t) (k : string) :
  is_ascii k = true -> (toUpperCase s = of_string k <-> spells s k).
Proof.
  intros Hk. unfold toUpperCase, spells. split.
  - intros H. destruct (ascii_uppers (decode s)) as [text|] eqn:E.
    + destruct (uppers_Some _ _ E) as [Hup _]. rewrite <- Hup, H. reflexivity.
    + exfalso. apply uppers_None in E. rewrite H in E.
      exact (all_ascii_no_beyond _ (of_string_is_ascii k Hk) E).
  - intros H. apply uppers_Some in H. apply H.
Qed.

(** What a string spells holds no small letter. *)
Lemma ascii_upper_no_small (cp : Z) (form : list Z) :
  ascii_upper cp = Some form -> existsb small_letter form = false.
Proof.
  unfold ascii_upper. destruct ((0 <=? cp) && (cp <? 128)) eqn:E.
  - intros [= <-]. cbn [existsb]. unfold small_letter.
    destruct ((97 <=? cp) && (cp <=? 122)) eqn:El.
    + apply andb_prop in El as [H1 H2]. apply Z.leb_le in H1, H2.
      destruct (Z.leb_spec 97 (cp - 32)); [lia | reflexivity].
    + rewrite El. reflexivity.
  - destruct (List.find (fun entry => fst entry =? cp) ascii_special)
      as [[c f]|] eqn:Ea; [|discriminate].
    intros [= <-]. apply List.find_some in Ea as [Hin _].
    assert (H : forallb (fun entry => negb (existsb small_letter (snd entry)))
                  ascii_special = true) by (vm_compute; reflexivity).
    rewrite List.forallb_forall in H. specialize (H _ Hin). cbn [snd] in H.
    apply Bool.negb_true_iff in H. exact H.
Qed.

Lemma spells_no_small (s : t) (k : string) :
  spells s k -> existsb small_letter (of_string k) = false.
Proof.
  unfold spells. generalize (decode s) (of_string k). intros cps.
  induction cps as [|cp cps IH]; intros text H.
  - injection H as <-. reflexivity.
  - cbn [ascii_uppers] in H.
    destruct (ascii_upper cp) as [form|] eqn:Ecp; [|discriminate].
    destruct (ascii_uppers cps) as [forms|]; [|discriminate].
    injection H as <-. rewrite List.existsb_app, (ascii_upper_no_small _ _ Ecp).
    apply (IH forms eq_refl).
Qed.

(** *** Strings of ASCII characters *)

Lemma decode_cons (u : Z) (rest : t) :
  is_high_surrogate u = false -> decode (u :: rest) = u :: decode rest.
Proof. intros H. cbn [decode]. rewrite H. destruct rest; reflexivity. Qed.

Lemma of_string_unit (c : ascii) :
  0 <= Z.of_N (N_of_ascii c) < 256.
Proof.
  pose proof (N_ascii_bounded c). lia.
Qed.

Lemma decode_of_string (s : string) : decode (of_string s) = of_string s.
Proof.
  induction s as [|c s IH]; [reflexivity|]. rewrite of_string_cons.
  rewrite decode_cons, IH; [reflexivity|].
  pose proof (of_string_unit c). unfold is_high_surrogate.
  destruct (Z.leb_spec 55296 (Z.of_N (N_of_ascii c))); [lia | reflexivity].
Qed.

Lemma ascii_upper_char (c : ascii) :
  (N_of_ascii c <? 128)%N = true ->
  ascii_upper (Z.of_N (N_of_ascii c))
  = Some [Z.of_N (N_of_ascii (Js.char_toUpperCase c))].
Proof.
  intros Hc.
  assert (Hall : forallb
                   (fun c => implb (N_of_ascii c <? 128)%N
                               (match ascii_upper (Z.of_N (N_of_ascii c)) with
                                | Some [u] =>
                                    u =? Z.of_N (N_of_ascii (Js.char_toUpperCase c))
                                | _ => false
                                end))
                   Js.all_ascii = true) by (vm_compute; reflexivity).
  pose proof (JsFacts.forall_ascii _ Hall c) as H. cbv beta in H.
  rewrite Hc in H. cbn [implb] in H.
  destruct (ascii_upper (Z.of_N (N_of_ascii c))) as [[|u [|? ?]]|]; try discriminate.
  apply Z.eqb_eq in H. subst u. reflexivity.
Qed.

Lemma ascii_uppers_of_string (s : string) :
  is_ascii s = true ->
  ascii_uppers (of_string s) = Some (of_string (Js.toUpperCase s)).
Proof.
  unfold is_ascii. induction s as [|c s IH]; [reflexivity|].
  cbn [Js.string_forallb]. intros H. apply andb_prop in H as [Hc Hs].
  rewrite of_string_cons. cbn [ascii_uppers].
  rewrite (ascii_upper_char c Hc), (IH Hs). reflexivity.
Qed.

Lemma of_string_inj (a b : string) : of_string a = of_string b -> a = b.
Proof.
  revert b. induction a as [|c a IH]; intros [|d b]; try discriminate; [reflexivity|].
  rewrite !of_string_cons. intros [= Hc Hab].
  apply N2Z.inj in Hc. rewrite <- (ascii_N_embedding c), <- (ascii_N_embedding d), Hc.
  f_equal. apply IH, Hab.
Qed.

Lemma eqb_of_string (a b : string) :
  eqb (of_string a) (of_string b) = String.eqb a b.
Proof.
  destruct (String.eqb_spec a b) as [->|N]; [apply eqb_refl|].
  destruct (eqb (of_string a) (of_string b)) eqn:E; [|reflexivity].
  apply eqb_eq, of_string_inj in E. contradiction.
Qed.

(** On a string of ASCII characters, upper-casing is [Js.toUpperCase],
    and spelling is equality up to the case of the letters. *)
Lemma toUpperCase_of_string (s : string) :
  is_ascii s = true -> toUpperCase (of_string s) = of_string (Js.toUpperCase s).
Proof.
  intros Hs. unfold toUpperCase. rewrite decode_of_string.
  destruct (uppers_Some _ _ (ascii_uppers_of_string s Hs)) as [H _]. exact H.
Qed.

Lemma spells_of_string (s k : string) :
  is_ascii s = true -> (spells (of_string s) k <-> Js.toUpperCase s = k).
Proof.
  intros Hs. unfold spells. rewrite decode_of_string, (ascii_uppers_of_string s Hs).
  split.
  - intros [= H]. apply of_string_inj, H.
  - intros ->. reflexivity.
Qed.

End UnicodeFacts.

(** ** The field normalizers on untyped input *)

Module UntypedFacts.
Import Unicode UnicodeFacts.
Local Open Scope list_scope.

Lemma includes_spells (names : list string) (s : Unicode.t) :
  forallb is_ascii names = true ->
  Untyped.includes names (toUpperCase s) = true ->
  exists name, In name names /\ spells s name.
Proof.
  intros Hnames H. unfold Untyped.includes in H.
  apply List.existsb_exists in H as (name & Hin & Heq).
  apply eqb_eq in Heq. exists name. split; [exact Hin|].
  rewrite List.forallb_forall in Hnames.
  apply (toUpperCase_spells s name (Hnames _ Hin)), Heq.
Qed.


Ltac one_name Hnone Hsp :=
  first [ exact (Hnone Severity.CRITICAL Hsp) | exact (Hnone Severity.HIGH Hsp)
        | exact (Hnone Severity.MEDIUM Hsp) | exact (Hnone Severity.LOW Hsp)
        | exact (Hnone Severity.INFO Hsp)
        | exact (Hnone Category.PORT_EXPOSURE Hsp)
        | exact (Hnone Category.AUTHENTICATION Hsp)
        | exact (Hnone Category.CREDENTIALS Hsp)
        | exact (Hnone Category.CONFIGURATION Hsp)
        | exact (Hnone Category.PERMISSIONS Hsp)
        | exact (Hnone Category.NETWORK Hsp)
        | exact (Hnone RiskLevel.CRITICAL Hsp) | exact (Hnone RiskLevel.HIGH Hsp)
        | exact (Hnone RiskLevel.MEDIUM Hsp) | exact (Hnone RiskLevel.LOW Hsp)
        | exact (Hnone RiskLevel.SAFE Hsp)
        | (apply spells_no_small in Hsp; vm_compute in Hsp; discriminate Hsp) ].

Ltac name_cases H Hnone :=
  let Hin := fresh "Hin" in
  let Hsp := fresh "Hsp" in
  destruct H as (? & Hin & Hsp); cbn [In] in Hin;
  repeat (destruct Hin as [Hin|Hin]; [rewrite <- Hin in Hsp; one_name Hnone Hsp|]);
  destruct Hin.





Lemma normalizeRiskLevelString_spells (s : Unicode.t) (v : RiskLevel.t) :
  spells s (RiskLevel.name v) ->
  Untyped.normalizeRiskLevelString (Untyped.str s) = Main.Ok v.
Proof.
  intros H. apply toUpperCase_spells in H; [|destruct v; reflexivity].
  unfold Untyped.normalizeRiskLevelString. cbv zeta. rewrite H.
  destruct v; reflexivity.
Qed.

Lemma normalizeRiskLevelString_other (s : Unicode.t) :
  (forall v, ~ spells s (RiskLevel.name v)) ->
  Untyped.normalizeRiskLevelString (Untyped.str s) = Main.Ok RiskLevel.SAFE.
Proof.
  intros Hnone. unfold Untyped.normalizeRiskLevelString. cbv zeta.
  destruct (Untyped.includes _ _) eqn:E; [|reflexivity]. exfalso.
  apply includes_spells in E; [|reflexivity]. name_cases E Hnone.
Qed.



(** *** Typed input: an absent property or a string of ASCII characters *)



Lemma every_riskLevel (v : RiskLevel.t) : In v RiskLevel.all.
Proof. destruct v; simpl; tauto. Qed.

(** For an ASCII string and a name in capitals, spelling is equality up
    to the case of the letters. *)
Lemma spells_ignore_case (a k : string) :
  is_ascii a = true -> Js.toUpperCase k = k ->
  (spells (of_string a) k <-> Js.eq_ignore_case a k = true).
Proof.
  intros Ha Hk. rewrite (spells_of_string a k Ha).
  rewrite <- (JsFacts.toUpperCase_eqb k a Hk). symmetry. apply String.eqb_eq.
Qed.

Section Typed.

Context {A : Type} (name : A -> string) (all : list A) (default : A).
Context (untyped : Untyped.Json -> Main.Result A).
Hypothesis every : forall v, In v all.
Hypothesis capitals : forall v, Js.toUpperCase (name v) = name v.
Hypothesis found : forall s v, spells s (name v) -> untyped (Untyped.str s) = Main.Ok v.
Hypothesis other :
  forall s, (forall v, ~ spells s (name v)) -> untyped (Untyped.str s) = Main.Ok default.

Lemma untyped_match (a : string) :
  is_ascii a = true ->
  untyped (Untyped.str (of_string a))
  = Main.Ok (Js.match_ignoring_case name all default a).
Proof.
  intros Ha. unfold Js.match_ignoring_case.
  destruct (List.find (fun v => Js.eq_ignore_case a (name v)) all) as [v|] eqn:E.
  - apply List.find_some in E as [_ E]. apply found.
    apply (spells_ignore_case a (name v) Ha (capitals v)), E.
  - apply other. intros v Hv.
    apply (spells_ignore_case a (name v) Ha (capitals v)) in Hv.
    pose proof (List.find_none _ _ E v (every v)) as Hn. simpl in Hn. congruence.
Qed.

End Typed.




Lemma normalizeRiskLevelString_typed (a : string) :
  is_ascii a = true ->
  Untyped.normalizeRiskLevelString (Untyped.str (of_string a))
  = Main.Ok (normalizeRiskLevelString a).
Proof.
  intros Ha. rewrite NormalizerFacts.normalizeRiskLevelString_match.
  apply (untyped_match RiskLevel.name RiskLevel.all RiskLevel.SAFE
           Untyped.normalizeRiskLevelString every_riskLevel);
    [intros []; reflexivity | apply normalizeRiskLevelString_spells
    | apply normalizeRiskLevelString_other | exact Ha].
Qed.

(** *** Raising *)













End UntypedFacts.



